(** * FreshBakes: the order engine, embedded from the Flask sources

    The models of [app/models] and the routes of [app/routes] that place,
    price, cancel and advance orders, manage the cart and aggregate ratings.

    Conventions of the embedding:
    - an SQL table is the list of its rows in storage order; [filter_by]
      keeps the matching rows, [first] takes the head, a row that is mutated
      and committed is written back under its primary key.  The [products]
      table, whose rows are shared between cart items and mutated through
      them, is a finite map from primary key to row;
    - [Integer] columns are [Z]; [Float] columns (prices, fees, discounts,
      ratings) are exact rationals [Q], so the rounding of binary floating
      point is outside the model;
    - a view function takes the database and the request and returns the
      database it commits together with its response; an uncaught Python
      exception is [server_error] and commits nothing. *)

From Stdlib Require Import ZArith QArith Qminmax List String Ascii Bool Lia Lqa.
From stdpp Require Import base option list gmap.

Import ListNotations.
Local Open Scope string_scope.
Local Open Scope Z_scope.

(** ** Python primitives used by the sources *)

Module Py.

(** [a < b] on numbers. *)
Definition lt (a b : Q) : bool :=
  match Qcompare a b with Lt => true | _ => false end.

(** Truth value of a number: zero is falsy. *)
Definition truthy (a : Q) : bool := negb (Qeq_bool a 0).

(** Truth value of an optional number ([None] and [0.0] are falsy). *)
Definition truthy_opt (a : option Q) : bool :=
  match a with Some x => truthy x | None => false end.

(** Truth value of an optional integer. *)
Definition truthyZ_opt (a : option Z) : bool :=
  match a with Some x => negb (x =? 0) | None => false end.

(** [sum(xs)]: left to right, starting from [0]. *)
Definition sum (xs : list Q) : Q := fold_left Qplus xs 0%Q.

(** [sum(xs)] on integers. *)
Definition sumZ (xs : list Z) : Z := fold_left Z.add xs 0.

(** [min(a, b)]: the second argument only when it is strictly smaller. *)
Definition min (a b : Q) : Q := if lt b a then b else a.

(** [c.upper()] on an ASCII character. *)
Definition upper_ascii (c : ascii) : ascii :=
  let n := nat_of_ascii c in
  if ((97 <=? n) && (n <=? 122))%nat then ascii_of_nat (n - 32) else c.

(** [s.upper()] for a string of ASCII characters: the letters [a] to [z]
    become [A] to [Z].  Characters outside ASCII, which Python maps by the
    Unicode tables, are left as they are; statements about a form field
    that goes through [upper] take it in ASCII ([isascii]). *)
Fixpoint upper (s : string) : string :=
  match s with
  | EmptyString => EmptyString
  | String c r => String (upper_ascii c) (upper r)
  end.

(** [s.isascii()]. *)
Fixpoint isascii (s : string) : bool :=
  match s with
  | EmptyString => true
  | String c r => (nat_of_ascii c <? 128)%nat && isascii r
  end.

(** [s[:n]]. *)
Fixpoint prefix (n : nat) (s : string) : string :=
  match n, s with
  | S k, String c r => String c (prefix k r)
  | _, _ => EmptyString
  end.

(** [x in xs] on strings. *)
Definition contains (x : string) (xs : list string) : bool :=
  existsb (String.eqb x) xs.

(** The decimal digits of a natural number, most significant first. *)
Fixpoint digits_fuel (fuel : nat) (n : N) (acc : string) : string :=
  match fuel with
  | O => acc
  | S f =>
      let d := ascii_of_N (48 + n mod 10) in
      if (n <? 10)%N then String d acc
      else digits_fuel f (n / 10)%N (String d acc)
  end.

Definition decimal (n : N) : string :=
  digits_fuel (S (N.to_nat (N.log2 n))) n EmptyString.

(** Left padding with ['0'] up to [width] characters, never truncating. *)
Fixpoint zeros (k : nat) : string :=
  match k with O => EmptyString | S j => String "0" (zeros j) end.

Definition zfill (width : nat) (s : string) : string :=
  zeros (width - String.length s) ++ s.

(** One lower-case hexadecimal digit. *)
Definition hexdigit (v : Z) : ascii :=
  if v <? 10 then ascii_of_N (Z.to_N (48 + v)) else ascii_of_N (Z.to_N (87 + v)).

(** ['%0<n>x' % u]: the [n] low nibbles of [u], most significant first. *)
Fixpoint hex_nibbles (n : nat) (u : Z) : string :=
  match n with
  | O => EmptyString
  | S k => String (hexdigit (Z.land (Z.shiftr u (4 * Z.of_nat k)) 15)) (hex_nibbles k u)
  end.

(** [c.lower()] on an ASCII character. *)
Definition lower_ascii (c : ascii) : ascii :=
  let n := nat_of_ascii c in
  if ((65 <=? n) && (n <=? 90))%nat then ascii_of_nat (n + 32) else c.

(** [s.lower()]. *)
Fixpoint lower (s : string) : string :=
  match s with
  | EmptyString => EmptyString
  | String c r => String (lower_ascii c) (lower r)
  end.

(** [s.rsplit('.', 1)[1]] when ['.' in s]: what follows the last dot. *)
Fixpoint after_last_dot (s : string) : option string :=
  match s with
  | EmptyString => None
  | String c r =>
      match after_last_dot r with
      | Some ext => Some ext
      | None => if Ascii.eqb c "." then Some r else None
      end
  end.

End Py.

(** ** [datetime] values *)

Module datetime.

Record t := mk
  { year : Z; month : Z; day : Z; hour : Z; minute : Z; second : Z; microsecond : Z }.

Definition fields (d : t) : list Z :=
  [year d; month d; day d; hour d; minute d; second d; microsecond d].

Fixpoint lex_lt (a b : list Z) : bool :=
  match a, b with
  | x :: a', y :: b' => (x <? y) || ((x =? y) && lex_lt a' b')
  | _, _ => false
  end.

(** [a < b] on naive datetimes. *)
Definition lt (a b : t) : bool := lex_lt (fields a) (fields b).

(** The field ranges the [datetime] type enforces, with a four-digit year. *)
Definition wf (d : t) : Prop :=
  1000 <= year d <= 9999 /\ 1 <= month d <= 12 /\ 1 <= day d <= 31 /\
  0 <= hour d <= 23 /\ 0 <= minute d <= 59.

Definition pad (width : nat) (v : Z) : string :=
  Py.zfill width (Py.decimal (Z.to_N v)).

(** [d.strftime('%Y%m%d%H%M')]. *)
Definition strftime_YmdHM (d : t) : string :=
  pad 4 (year d) ++ pad 2 (month d) ++ pad 2 (day d) ++ pad 2 (hour d) ++ pad 2 (minute d).

End datetime.

(** A user-facing message; the one message that interpolates a number keeps
    the number instead of its printed form. *)
Inductive message :=
| text (s : string)
| minimum_order_amount_is (amount : Q).

(** ** app/models *)

Module Product.

Record t := mk
  { id : Z;
    bakery_id : Z;
    name : string;
    price : Q;
    discount_price : option Q;
    stock_quantity : Z;
    is_available : bool }.

Definition set_stock_quantity (self : t) (v : Z) : t :=
  mk (id self) (bakery_id self) (name self) (price self) (discount_price self)
     v (is_available self).

(** The [current_price] property. *)
Definition current_price (self : t) : Q :=
  match discount_price self with
  | Some d => if Py.truthy d && Py.lt d (price self) then d else price self
  | None => price self
  end.

(** [reduce_stock(quantity)]: the product afterwards and the value returned. *)
Definition reduce_stock (self : t) (quantity : Z) : t * bool :=
  if stock_quantity self >=? quantity
  then (set_stock_quantity self (stock_quantity self - quantity), true)
  else (self, false).

End Product.

Module Review.

Record t := mk
  { id : Z;
    user_id : Z;
    bakery_id : Z;
    order_id : Z;
    rating : Z;
    is_visible : bool }.

Definition set_is_visible (self : t) (v : bool) : t :=
  mk (id self) (user_id self) (bakery_id self) (order_id self) (rating self) v.

End Review.

Module Bakery.

Record t := mk
  { id : Z;
    owner_id : Z;
    rating : Q;
    total_reviews : Z;
    min_order_amount : Q;
    delivery_fee : Q;
    is_approved : bool }.

Definition set_rating (self : t) (r : Q) (n : Z) : t :=
  mk (id self) (owner_id self) r n (min_order_amount self) (delivery_fee self)
     (is_approved self).

(** [update_rating()], reading the [reviews] table. *)
Definition update_rating (self : t) (reviews : list Review.t) : t :=
  let reviews :=
    List.filter (fun r => (Review.bakery_id r =? id self) && Review.is_visible r) reviews in
  match reviews with
  | [] => set_rating self 0%Q 0
  | _ :: _ =>
      set_rating self
        (inject_Z (Py.sumZ (map Review.rating reviews))
         / inject_Z (Z.of_nat (length reviews)))%Q
        (Z.of_nat (length reviews))
  end.

End Bakery.

Module CartItem.

Record t := mk
  { id : Z;
    user_id : Z;
    product_id : Z;
    quantity : Z;
    special_instructions : string }.

Definition set_quantity (self : t) (q : Z) : t :=
  mk (id self) (user_id self) (product_id self) q (special_instructions self).

Definition set_special_instructions (self : t) (s : string) : t :=
  mk (id self) (user_id self) (product_id self) (quantity self) s.

(** The [product] relationship: the row of [products] under [product_id]. *)
Definition product (products : gmap Z Product.t) (self : t) : option Product.t :=
  products !! product_id self.

(** The [subtotal] property. *)
Definition subtotal (products : gmap Z Product.t) (self : t) : Q :=
  match product products self with
  | Some p => (Product.current_price p * inject_Z (quantity self))%Q
  | None => 0%Q
  end.

End CartItem.

Module Address.

Record t := mk { id : Z; user_id : Z }.

End Address.

Module Coupon.

Record t := mk
  { id : Z;
    bakery_id : option Z;
    code : string;
    discount_type : string;
    discount_value : Q;
    min_order_amount : Q;
    max_discount : option Q;
    usage_limit : option Z;
    used_count : Z;
    valid_from : option datetime.t;
    valid_until : option datetime.t;
    is_active : bool }.

Definition set_used_count (self : t) (n : Z) : t :=
  mk (id self) (bakery_id self) (code self) (discount_type self) (discount_value self)
     (min_order_amount self) (max_discount self) (usage_limit self) n
     (valid_from self) (valid_until self) (is_active self).

(** [is_valid(order_amount, bakery_id)], with [now = datetime.utcnow()]. *)
Definition is_valid (self : t) (now : datetime.t) (order_amount : Q)
    (bakery : option Z) : bool * message :=
  if negb (is_active self) then (false, text "Coupon is not active")
  else if match valid_from self with Some f => datetime.lt now f | None => false end
  then (false, text "Coupon is not yet valid")
  else if match valid_until self with Some u => datetime.lt u now | None => false end
  then (false, text "Coupon has expired")
  else if match usage_limit self with
          | Some l => negb (l =? 0) && (used_count self >=? l)
          | None => false
          end
  then (false, text "Coupon usage limit reached")
  else if Py.lt order_amount (min_order_amount self)
  then (false, minimum_order_amount_is (min_order_amount self))
  else if Py.truthyZ_opt (bakery_id self) && Py.truthyZ_opt bakery
          && negb (bool_decide (bakery_id self = bakery))
  then (false, text "Coupon is not valid for this bakery")
  else (true, text "Coupon is valid").

(** [calculate_discount(order_amount)].  The product and the quotient of
    the percentage are exact here and rounded in Python, so what is stated
    of a percentage discount is its shape and the bounds that [min] alone
    gives, not a bound that rests on the arithmetic. *)
Definition calculate_discount (self : t) (order_amount : Q) : Q :=
  if String.eqb (discount_type self) "percentage" then
    let discount := (order_amount * discount_value self / 100)%Q in
    match max_discount self with
    | Some m => if Py.truthy m then Py.min discount m else discount
    | None => discount
    end
  else Py.min (discount_value self) order_amount.

End Coupon.

Module OrderItem.

Record t := mk
  { order_id : Z;
    product_id : Z;
    product_name : string;
    quantity : Z;
    unit_price : Q;
    subtotal : Q;
    special_instructions : string }.

End OrderItem.

Module OrderStatusHistory.

Record t := mk { order_id : Z; status : string; notes : option string }.

End OrderStatusHistory.

Module Notification.

Record t := mk
  { user_id : Z; title : string; message : string; type : string; link : string }.

Definition set_message (self : t) (m : string) : t :=
  mk (user_id self) (title self) m (type self) (link self).

Definition status_messages : list (string * string) :=
  [ ("confirmed", "Your order has been confirmed by the bakery!");
    ("preparing", "The bakery is preparing your order.");
    ("ready", "Your order is ready for pickup/delivery!");
    ("out_for_delivery", "Your order is on its way!");
    ("delivered", "Your order has been delivered. Enjoy!");
    ("cancelled", "Your order has been cancelled.") ].

Fixpoint get (d : list (string * string)) (k default : string) : string :=
  match d with
  | [] => default
  | (k', v) :: r => if String.eqb k k' then v else get r k default
  end.

(** [create_order_notification(user_id, order_number, status)]. *)
Definition create_order_notification (user_id : Z) (order_number status : string) : t :=
  mk user_id ("Order " ++ order_number)
     (get status_messages status ("Order status updated to: " ++ status))
     "order" ("/orders/" ++ order_number).

End Notification.

Module Order.

Record t := mk
  { id : Z;
    order_number : string;
    customer_id : Z;
    bakery_id : Z;
    delivery_address_id : Z;
    subtotal : Q;
    delivery_fee : Q;
    discount : Q;
    total_amount : Q;
    status : string;
    payment_method : string;
    payment_status : string;
    cancellation_reason : option string;
    special_instructions : string;
    delivered_at : option datetime.t }.

Definition set_status (self : t) (s : string) : t :=
  mk (id self) (order_number self) (customer_id self) (bakery_id self)
     (delivery_address_id self) (subtotal self) (delivery_fee self) (discount self)
     (total_amount self) s (payment_method self) (payment_status self)
     (cancellation_reason self) (special_instructions self) (delivered_at self).

Definition set_cancellation_reason (self : t) (r : string) : t :=
  mk (id self) (order_number self) (customer_id self) (bakery_id self)
     (delivery_address_id self) (subtotal self) (delivery_fee self) (discount self)
     (total_amount self) (status self) (payment_method self) (payment_status self)
     (Some r) (special_instructions self) (delivered_at self).

Definition set_delivered_at (self : t) (d : datetime.t) : t :=
  mk (id self) (order_number self) (customer_id self) (bakery_id self)
     (delivery_address_id self) (subtotal self) (delivery_fee self) (discount self)
     (total_amount self) (status self) (payment_method self) (payment_status self)
     (cancellation_reason self) (special_instructions self) (Some d).

(** [generate_order_number()], with [now = datetime.utcnow()] and
    [uuid4] the 128-bit integer of [uuid.uuid4()]. *)
Definition generate_order_number (now : datetime.t) (uuid4 : Z) : string :=
  let timestamp := datetime.strftime_YmdHM now in
  let unique_id := Py.upper (Py.prefix 6 (Py.hex_nibbles 32 uuid4)) in
  "LC" ++ timestamp ++ unique_id.

(** [add_status_history(status, notes)]: the session's pending history
    rows with the new row added. *)
Definition add_status_history (self : t) (session : list OrderStatusHistory.t)
    (status : string) (notes : option string) : list OrderStatusHistory.t :=
  (session ++ [OrderStatusHistory.mk (id self) status notes])%list.

(** [can_cancel()]. *)
Definition can_cancel (self : t) : bool :=
  Py.contains (status self) ["pending"; "confirmed"].

End Order.

(** ** The database and the responses of the views *)

Record db := mk_db
  { products : gmap Z Product.t;
    bakeries : gmap Z Bakery.t;
    cart_items : list CartItem.t;
    addresses : list Address.t;
    coupons : list Coupon.t;
    orders : list Order.t;
    order_items : list OrderItem.t;
    order_status_history : list OrderStatusHistory.t;
    notifications : list Notification.t;
    reviews : list Review.t }.

Definition set_products (d : db) (v : gmap Z Product.t) : db :=
  mk_db v (bakeries d) (cart_items d) (addresses d) (coupons d) (orders d)
        (order_items d) (order_status_history d) (notifications d) (reviews d).

Definition set_bakeries (d : db) (v : gmap Z Bakery.t) : db :=
  mk_db (products d) v (cart_items d) (addresses d) (coupons d) (orders d)
        (order_items d) (order_status_history d) (notifications d) (reviews d).

Definition set_cart_items (d : db) (v : list CartItem.t) : db :=
  mk_db (products d) (bakeries d) v (addresses d) (coupons d) (orders d)
        (order_items d) (order_status_history d) (notifications d) (reviews d).

Definition set_coupons (d : db) (v : list Coupon.t) : db :=
  mk_db (products d) (bakeries d) (cart_items d) (addresses d) v (orders d)
        (order_items d) (order_status_history d) (notifications d) (reviews d).

Definition set_orders (d : db) (v : list Order.t) : db :=
  mk_db (products d) (bakeries d) (cart_items d) (addresses d) (coupons d) v
        (order_items d) (order_status_history d) (notifications d) (reviews d).

Definition set_order_items (d : db) (v : list OrderItem.t) : db :=
  mk_db (products d) (bakeries d) (cart_items d) (addresses d) (coupons d) (orders d)
        v (order_status_history d) (notifications d) (reviews d).

Definition set_order_status_history (d : db) (v : list OrderStatusHistory.t) : db :=
  mk_db (products d) (bakeries d) (cart_items d) (addresses d) (coupons d) (orders d)
        (order_items d) v (notifications d) (reviews d).

Definition set_notifications (d : db) (v : list Notification.t) : db :=
  mk_db (products d) (bakeries d) (cart_items d) (addresses d) (coupons d) (orders d)
        (order_items d) (order_status_history d) v (reviews d).

Definition set_reviews (d : db) (v : list Review.t) : db :=
  mk_db (products d) (bakeries d) (cart_items d) (addresses d) (coupons d) (orders d)
        (order_items d) (order_status_history d) (notifications d) v.

(** What a view hands back to Flask. *)
Inductive response :=
| redirect (endpoint : string)
| redirect_order (endpoint : string) (order_number : string)
| render_template (template : string)
| jsonify_cart_count (cart_count : nat)
| not_found
| server_error.

(** A flashed message with its category. *)
Definition flash : Type := message * string.

(** The database a view leaves behind, what it flashed, and its response. *)
Definition view : Type := db * list flash * response.

(** An uncaught exception: nothing is committed. *)
Definition raise (d : db) : view := (d, [], server_error).

(** The next value of an auto-incremented primary key. *)
Definition next_id (ids : list Z) : Z := fold_right Z.max 0 ids + 1.

(** Writes a mutated row back under its primary key. *)
Definition write_back {A} (key : A -> Z) (row : A) (table : list A) : list A :=
  map (fun r => if key r =? key row then row else r) table.

(** Truth value of a string: the empty string is falsy. *)
Definition nonempty (s : string) : bool :=
  match s with EmptyString => false | String _ _ => true end.

(** ** app/routes/orders.py *)

Module orders.
Section views.

(** [current_user.id], established by [login_required]. *)
Variable current_user : Z.

Record checkout_form := mk_checkout_form
  { method : string;
    address_id : option Z;
    payment_method : option string;
    special_instructions : option string;
    coupon_code : option string }.

(** [CartItem.query.filter_by(user_id=current_user.id)]. *)
Definition user_cart (d : db) : list CartItem.t :=
  List.filter (fun c => CartItem.user_id c =? current_user) (cart_items d).

(** The coupon step of [checkout]: the coupons table, the discount and the
    warning it leaves. *)
Definition apply_coupon (now : datetime.t) (coupon_code : string) (subtotal : Q)
    (bakery_id : Z) (coupons : list Coupon.t) : list Coupon.t * Q * list flash :=
  if nonempty coupon_code then
    match List.find (fun c => String.eqb (Coupon.code c) (Py.upper coupon_code)) coupons with
    | Some coupon =>
        let '(is_valid, message) := Coupon.is_valid coupon now subtotal (Some bakery_id) in
        if is_valid
        then (write_back Coupon.id
                (Coupon.set_used_count coupon (Coupon.used_count coupon + 1)) coupons,
              Coupon.calculate_discount coupon subtotal, [])
        else (coupons, 0%Q, [(message, "warning")])
    | None => (coupons, 0%Q, [])
    end
  else (coupons, 0%Q, []).

(** The loop of [checkout] over the cart: one order item per cart item,
    and the stock of its product reduced.  [None] is the [AttributeError]
    of a cart item whose product row is gone. *)
Fixpoint add_order_items (order_id : Z) (cart : list CartItem.t)
    (products : gmap Z Product.t) (session : list OrderItem.t)
    : option (gmap Z Product.t * list OrderItem.t) :=
  match cart with
  | [] => Some (products, session)
  | cart_item :: rest =>
      match CartItem.product products cart_item with
      | None => None
      | Some product =>
          let order_item :=
            OrderItem.mk order_id (CartItem.product_id cart_item) (Product.name product)
              (CartItem.quantity cart_item) (Product.current_price product)
              (CartItem.subtotal products cart_item)
              (CartItem.special_instructions cart_item) in
          let product := fst (Product.reduce_stock product (CartItem.quantity cart_item)) in
          add_order_items order_id rest
            (<[CartItem.product_id cart_item := product]> products)
            (session ++ [order_item])%list
      end
  end.

(** [checkout()], with [now = datetime.utcnow()] and [uuid4] the draw of
    [uuid.uuid4()].  The [estimated_delivery] column is left out. *)
Definition checkout (now : datetime.t) (uuid4 : Z) (form : checkout_form) (d : db) : view :=
  let cart := user_cart d in
  match cart with
  | [] => (d, [(text "Your cart is empty.", "warning")], redirect "cart.view_cart")
  | first :: _ =>
    match CartItem.product (products d) first
          ≫= (fun p => bakeries d !! Product.bakery_id p) with
    | None => raise d
    | Some bakery =>
      let subtotal := Py.sum (map (CartItem.subtotal (products d)) cart) in
      let delivery_fee := Bakery.delivery_fee bakery in
      if Py.lt subtotal (Bakery.min_order_amount bakery) then
        (d, [(minimum_order_amount_is (Bakery.min_order_amount bakery), "warning")],
         redirect "cart.view_cart")
      else if String.eqb (method form) "POST" then
        match address_id form
              ≫= (fun a => List.find (fun x => (Address.id x =? a)
                                               && (Address.user_id x =? current_user))
                                     (addresses d)) with
        | None =>
            (d, [(text "Please select a valid delivery address.", "danger")],
             redirect "orders.checkout")
        | Some address =>
          let '(coupons', discount, warnings) :=
            apply_coupon now (default "" (coupon_code form)) subtotal (Bakery.id bakery)
              (coupons d) in
          let total := (subtotal + delivery_fee - discount)%Q in
          let order :=
            Order.mk (next_id (map Order.id (orders d)))
              (Order.generate_order_number now uuid4)
              current_user (Bakery.id bakery) (Address.id address)
              subtotal delivery_fee discount total
              "pending" (default "cod" (payment_method form)) "pending"
              None (default "" (special_instructions form)) None in
          if existsb (fun o => String.eqb (Order.order_number o) (Order.order_number order))
                     (orders d)
          then raise d
          else
          match add_order_items (Order.id order) cart (products d) [] with
          | None => raise d
          | Some (products', items) =>
              let history := Order.add_status_history order [] "pending" (Some "Order placed") in
              let notification :=
                Notification.set_message
                  (Notification.create_order_notification current_user
                     (Order.order_number order) "pending")
                  ("Your order #" ++ Order.order_number order
                   ++ " has been placed successfully!") in
              (mk_db products' (bakeries d)
                 (List.filter (fun c => negb (CartItem.user_id c =? current_user))
                    (cart_items d))
                 (addresses d) coupons'
                 (orders d ++ [order])%list
                 (order_items d ++ items)%list
                 (order_status_history d ++ history)%list
                 (notifications d ++ [notification])%list
                 (reviews d),
               (warnings ++ [(text "Order placed successfully!", "success")])%list,
               redirect_order "orders.order_confirmation" (Order.order_number order))
          end
        end
      else (d, [], render_template "customer/checkout.html")
    end
  end.

(** The loop of [cancel_order] over [order.items]. *)
Fixpoint restore_stock (items : list OrderItem.t) (products : gmap Z Product.t)
    : option (gmap Z Product.t) :=
  match items with
  | [] => Some products
  | item :: rest =>
      match products !! OrderItem.product_id item with
      | None => None
      | Some product =>
          restore_stock rest
            (<[OrderItem.product_id item :=
                 Product.set_stock_quantity product
                   (Product.stock_quantity product + OrderItem.quantity item)]> products)
      end
  end.

(** [order.items]. *)
Definition items_of (d : db) (order : Order.t) : list OrderItem.t :=
  List.filter (fun i => OrderItem.order_id i =? Order.id order) (order_items d).

(** [cancel_order(order_number)]. *)
Definition cancel_order (order_number : string) (reason : option string) (d : db) : view :=
  match List.find (fun o => String.eqb (Order.order_number o) order_number
                            && (Order.customer_id o =? current_user)) (orders d) with
  | None => (d, [], not_found)
  | Some order =>
      if negb (Order.can_cancel order) then
        (d, [(text "This order cannot be cancelled.", "danger")],
         redirect_order "orders.order_detail" order_number)
      else
        let reason := default "Customer requested cancellation" reason in
        let order := Order.set_cancellation_reason (Order.set_status order "cancelled") reason in
        let history := Order.add_status_history order [] "cancelled" (Some reason) in
        match restore_stock (items_of d order) (products d) with
        | None => raise d
        | Some products' =>
            (set_products
               (set_order_status_history
                  (set_orders d (write_back Order.id order (orders d)))
                  (order_status_history d ++ history)%list)
               products',
             [(text "Order cancelled successfully.", "success")],
             redirect_order "orders.order_detail" order_number)
        end
  end.

(** The loop of [reorder] over [order.items]: a new cart row for every item
    whose product is still available, keyed as the flush numbers them.
    [None] is the [AttributeError] of an item whose product row is gone.
    The new rows leave [special_instructions] unset; the column is a string
    here, and unset is the empty string. *)
Fixpoint readd_items (items : list OrderItem.t) (products : gmap Z Product.t)
    (table : list CartItem.t) : option (list CartItem.t) :=
  match items with
  | [] => Some table
  | item :: rest =>
      match products !! OrderItem.product_id item with
      | None => None
      | Some product =>
          if Product.is_available product
          then readd_items rest products
                 (table ++ [CartItem.mk (next_id (map CartItem.id table)) current_user
                              (OrderItem.product_id item) (OrderItem.quantity item) ""])%list
          else readd_items rest products table
      end
  end.

(** [reorder(order_number)]. *)
Definition reorder (order_number : string) (d : db) : view :=
  match List.find (fun o => String.eqb (Order.order_number o) order_number
                            && (Order.customer_id o =? current_user)) (orders d) with
  | None => (d, [], not_found)
  | Some order =>
      match readd_items (items_of d order) (products d)
              (List.filter (fun c => negb (CartItem.user_id c =? current_user))
                 (cart_items d)) with
      | None => raise d
      | Some table =>
          (set_cart_items d table,
           [(text "Items added to cart. Please review before checkout.", "success")],
           redirect "cart.view_cart")
      end
  end.

End views.
End orders.

(** ** app/routes/baker.py *)

Module baker.
Section views.

(** [current_user.bakery.id], established by [baker_required]. *)
Variable current_bakery : Z.

(** The [valid_transitions] dictionary of [update_order_status]. *)
Definition valid_transitions : list (string * list string) :=
  [ ("pending", ["confirmed"; "cancelled"]);
    ("confirmed", ["preparing"; "cancelled"]);
    ("preparing", ["ready"; "cancelled"]);
    ("ready", ["out_for_delivery"; "delivered"]);
    ("out_for_delivery", ["delivered"]) ].

(** [key in d]. *)
Definition has_key (d : list (string * list string)) (key : string) : bool :=
  existsb (fun kv => String.eqb key (fst kv)) d.

(** [d.get(key, [])]. *)
Fixpoint get (d : list (string * list string)) (key : string) : list string :=
  match d with
  | [] => []
  | (k, v) :: r => if String.eqb key k then v else get r key
  end.

(** [new_status in xs], where a missing form field is [None]. *)
Definition status_in (new_status : option string) (xs : list string) : bool :=
  match new_status with
  | Some s => Py.contains s xs
  | None => false
  end.

(** [update_order_status(order_id)]. *)
Definition update_order_status (now : datetime.t) (order_id : Z)
    (new_status : option string) (notes : option string) (d : db) : view :=
  match List.find (fun o => (Order.id o =? order_id)
                            && (Order.bakery_id o =? current_bakery)) (orders d) with
  | None => (d, [], not_found)
  | Some order =>
      match new_status with
      | Some status =>
          if has_key valid_transitions (Order.status order)
             && status_in new_status (get valid_transitions (Order.status order))
          then
            let order1 := Order.set_status order status in
            let history :=
              Order.add_status_history order1 [] status (Some (default "" notes)) in
            let order2 :=
              if String.eqb status "delivered"
              then Order.set_delivered_at order1 now else order1 in
            let notification :=
              Notification.create_order_notification (Order.customer_id order2)
                (Order.order_number order2) status in
            (set_notifications
               (set_order_status_history
                  (set_orders d (write_back Order.id order2 (orders d)))
                  (order_status_history d ++ history)%list)
               (notifications d ++ [notification])%list,
             [(text ("Order status updated to " ++ status ++ "."), "success")],
             redirect "baker.order_detail")
          else
            (d, [(text "Invalid status transition.", "danger")],
             redirect "baker.order_detail")
      | None =>
          (d, [(text "Invalid status transition.", "danger")],
           redirect "baker.order_detail")
      end
  end.

(** [ALLOWED_EXTENSIONS] of [allowed_file]. *)
Definition ALLOWED_EXTENSIONS : list string := ["png"; "jpg"; "jpeg"; "gif"; "webp"].

(** [allowed_file(filename)]. *)
Definition allowed_file (filename : string) : bool :=
  match Py.after_last_dot filename with
  | Some extension => Py.contains (Py.lower extension) ALLOWED_EXTENSIONS
  | None => false
  end.

End views.
End baker.

(** ** app/routes/cart.py *)

Module cart.
Section views.

Variable current_user : Z.

Record add_form := mk_add_form
  { method : string;
    product_id : option Z;
    quantity : option Z;
    special_instructions : option string;
    replace_cart : option string;
    xhr : bool }.

Definition user_cart (d : db) : list CartItem.t :=
  List.filter (fun c => CartItem.user_id c =? current_user) (cart_items d).

(** [CartItem.query.filter_by(user_id=current_user.id).delete()]. *)
Definition delete_user_cart (table : list CartItem.t) : list CartItem.t :=
  List.filter (fun c => negb (CartItem.user_id c =? current_user)) table.

(** The tail of the cart views: JSON for AJAX requests, a redirect otherwise. *)
Definition respond (is_xhr : bool) (d : db) (target : string) : response :=
  if is_xhr then jsonify_cart_count (length (user_cart d)) else redirect target.

(** The last step of [add_to_cart]: merge into the row of the same product
    or add a new row, then commit. *)
Definition store (form : add_form) (product : Product.t) (pid : Z)
    (table : list CartItem.t) (d : db) : view :=
  let quantity := default 1 (quantity form) in
  let special_instructions := default "" (special_instructions form) in
  let table' :=
    match List.find (fun c => (CartItem.user_id c =? current_user)
                              && (CartItem.product_id c =? pid)) table with
    | Some cart_item =>
        let cart_item1 :=
          CartItem.set_quantity cart_item (CartItem.quantity cart_item + quantity) in
        let cart_item2 :=
          CartItem.set_special_instructions cart_item1
            (if nonempty special_instructions then special_instructions
             else CartItem.special_instructions cart_item1) in
        write_back CartItem.id cart_item2 table
    | None =>
        (table ++ [CartItem.mk (next_id (map CartItem.id (cart_items d))) current_user pid
                     quantity special_instructions])%list
    end in
  let d' := set_cart_items d table' in
  (d', [(text (Product.name product ++ " added to cart!"), "success")],
   respond (xhr form) d' "referrer").

(** [add_to_cart()]. *)
Definition add_to_cart (form : add_form) (d : db) : view :=
  if String.eqb (method form) "GET" then (d, [], redirect "cart.view_cart")
  else
    match product_id form with
    | None => (d, [], not_found)
    | Some pid =>
      match products d !! pid with
      | None => (d, [], not_found)
      | Some product =>
        let unavailable :=
          (d, [(text "This product is not available.", "danger")], redirect "referrer") in
        if negb (Product.is_available product) then unavailable
        else
          match bakeries d !! Product.bakery_id product with
          | None => raise d
          | Some bakery =>
            if negb (Bakery.is_approved bakery) then unavailable
            else
              match user_cart d with
              | existing :: _ =>
                  match CartItem.product (products d) existing with
                  | None => raise d
                  | Some other =>
                      if negb (Product.bakery_id other =? Product.bakery_id product) then
                        if negb (nonempty (default "" (replace_cart form))) then
                          (d, [(text "Your cart contains items from a different bakery. Adding this will replace your cart.", "warning")],
                           render_template "customer/cart_replace_confirm.html")
                        else store form product pid (delete_user_cart (cart_items d)) d
                      else store form product pid (cart_items d) d
                  end
              | [] => store form product pid (cart_items d) d
              end
          end
      end
    end.

(** [update_cart()].  A missing or unreadable [quantity] field is [None],
    and comparing it with [0] raises. *)
Definition update_cart (item_id : option Z) (quantity : option Z) (is_xhr : bool)
    (d : db) : view :=
  match item_id ≫= (fun i => List.find (fun c => (CartItem.id c =? i)
                               && (CartItem.user_id c =? current_user)) (cart_items d)) with
  | None => (d, [], not_found)
  | Some cart_item =>
      match quantity with
      | None => raise d
      | Some quantity =>
          let '(table', message) :=
            if quantity <=? 0
            then (List.filter (fun c => negb (CartItem.id c =? CartItem.id cart_item))
                    (cart_items d),
                  "Item removed from cart.")
            else (write_back CartItem.id (CartItem.set_quantity cart_item quantity)
                    (cart_items d),
                  "Cart updated.") in
          let d' := set_cart_items d table' in
          (d', if is_xhr then [] else [(text message, "success")],
           respond is_xhr d' "cart.view_cart")
      end
  end.

(** [remove_from_cart(item_id)]. *)
Definition remove_from_cart (item_id : Z) (is_xhr : bool) (d : db) : view :=
  match List.find (fun c => (CartItem.id c =? item_id)
                            && (CartItem.user_id c =? current_user)) (cart_items d) with
  | None => (d, [], not_found)
  | Some cart_item =>
      let d' :=
        set_cart_items d
          (List.filter (fun c => negb (CartItem.id c =? CartItem.id cart_item))
             (cart_items d)) in
      (d', if is_xhr then [] else [(text "Item removed from cart.", "success")],
       respond is_xhr d' "cart.view_cart")
  end.

(** [clear_cart()]. *)
Definition clear_cart (d : db) : view :=
  (set_cart_items d (delete_user_cart (cart_items d)),
   [(text "Cart cleared.", "success")], redirect "cart.view_cart").

End views.
End cart.

(** ** app/routes/admin.py *)

Module admin.

(** [toggle_review(review_id)]: the query inside [update_rating] flushes
    the session first, so it reads the toggled row. *)
Definition toggle_review (review_id : Z) (d : db) : view :=
  match List.find (fun r => Review.id r =? review_id) (reviews d) with
  | None => (d, [], not_found)
  | Some review =>
      let review := Review.set_is_visible review (negb (Review.is_visible review)) in
      let reviews' := write_back Review.id review (reviews d) in
      match bakeries d !! Review.bakery_id review with
      | None => raise d
      | Some bakery =>
          (set_bakeries (set_reviews d reviews')
             (<[Review.bakery_id review := Bakery.update_rating bakery reviews']> (bakeries d)),
           [(text (if Review.is_visible review then "Review is now visible."
                   else "Review is now hidden."), "success")],
           redirect "admin.reviews")
      end
  end.

End admin.

(** ** app/routes/customer.py *)

Module customer.
Section views.

Variable current_user : Z.

(** A form field read with [int(...)]: absent, not a number, or a number. *)
Inductive int_field := missing | unreadable | int_value (z : Z).

(** [write_review(order_id)], with the rating field of the form.  The
    review's [is_visible] takes its column default when the query inside
    [update_rating] flushes the session.  The [comment] column is left out. *)
Definition write_review (method : string) (order_id : Z) (rating : int_field)
    (d : db) : view :=
  match List.find (fun o => (Order.id o =? order_id)
                            && (Order.customer_id o =? current_user)
                            && String.eqb (Order.status o) "delivered") (orders d) with
  | None => (d, [], not_found)
  | Some order =>
      match List.find (fun r => Review.order_id r =? order_id) (reviews d) with
      | Some _ =>
          (d, [(text "You have already reviewed this order.", "info")],
           redirect_order "orders.order_detail" (Order.order_number order))
      | None =>
          if String.eqb method "POST" then
            match rating with
            | unreadable => raise d
            | _ =>
                let value := match rating with int_value z => z | _ => 5 end in
                let review :=
                  Review.mk (next_id (map Review.id (reviews d))) current_user
                    (Order.bakery_id order) (Order.id order) value true in
                let reviews' := (reviews d ++ [review])%list in
                match bakeries d !! Order.bakery_id order with
                | None => raise d
                | Some bakery =>
                    (set_bakeries (set_reviews d reviews')
                       (<[Order.bakery_id order := Bakery.update_rating bakery reviews']>
                          (bakeries d)),
                     [(text "Thank you for your review!", "success")],
                     redirect_order "orders.order_detail" (Order.order_number order))
                end
            end
          else (d, [], render_template "customer/write_review.html")
      end
  end.

End views.
End customer.

(** ** app/routes/api.py *)

Module api.

(** The JSON answers of [validate_coupon]. *)
Inductive coupon_answer :=
| invalid_code
| not_applicable (why : message)
| applied (discount : Q).

(** [validate_coupon()]: it reads the coupons table and writes nothing. *)
Definition validate_coupon (now : datetime.t) (code : option string) (order_amount : Q)
    (bakery_id : option Z) (d : db) : coupon_answer :=
  match List.find (fun c => String.eqb (Coupon.code c) (Py.upper (default "" code)))
          (coupons d) with
  | None => invalid_code
  | Some coupon =>
      let '(is_valid, message) := Coupon.is_valid coupon now order_amount bakery_id in
      if is_valid then applied (Coupon.calculate_discount coupon order_amount)
      else not_applicable message
  end.

End api.

(** ** The order-number format, as the specification words it *)

Module Format.

Definition is_digit (c : ascii) : bool :=
  let n := nat_of_ascii c in ((48 <=? n) && (n <=? 57))%nat.

Definition is_upper_hex (c : ascii) : bool :=
  let n := nat_of_ascii c in is_digit c || ((65 <=? n) && (n <=? 70))%nat.

Fixpoint all_chars (p : ascii -> bool) (s : string) : bool :=
  match s with
  | EmptyString => true
  | String c r => p c && all_chars p r
  end.

(** The number a string of decimal digits denotes. *)
Fixpoint value_from (acc : Z) (s : string) : Z :=
  match s with
  | EmptyString => acc
  | String c r => value_from (10 * acc + (Z.of_nat (nat_of_ascii c) - 48)) r
  end.

Definition value (s : string) : Z := value_from 0 s.

(** A field of [width] decimal digits denoting [v]. *)
Definition field (width : nat) (v : Z) (s : string) : Prop :=
  String.length s = width /\ all_chars is_digit s = true /\ value s = v.

Definition fieldb (width : nat) (v : Z) (s : string) : bool :=
  (String.length s =? width)%nat && all_chars is_digit s && (value s =? v).

(** [LC], then [YYYYMMDDHHmm] of the generation time, then six upper-case
    hexadecimal characters. *)
Definition order_number (now : datetime.t) (s : string) : Prop :=
  exists Y m d H M r,
    s = "LC" ++ Y ++ m ++ d ++ H ++ M ++ r /\
    field 4 (datetime.year now) Y /\ field 2 (datetime.month now) m /\
    field 2 (datetime.day now) d /\ field 2 (datetime.hour now) H /\
    field 2 (datetime.minute now) M /\
    String.length r = 6%nat /\ all_chars is_upper_hex r = true.

(** The integers [lo], [lo + 1], ..., [lo + n - 1]. *)
Definition range (lo : Z) (n : nat) : list Z :=
  map (fun i => lo + Z.of_nat i) (seq 0 n).

End Format.

(** ** A shop to run the views on: the end-to-end scenario of the specification *)

Module Scenario.

Definition now : datetime.t := datetime.mk 2024 5 14 23 1 0 0.
Definition uuid4 : Z := 0xa1b2c3d4e5f647a8b9c0d1e2f3a4b5c6.
Definition customer : Z := 7.

Definition product_a : Product.t := Product.mk 1 1 "Sourdough loaf" 180 None 10 true.
Definition product_b : Product.t := Product.mk 2 1 "Butter croissant" 85 None 5 true.
Definition the_bakery : Bakery.t := Bakery.mk 1 100 0 0 0 30 true.

(** Ten percent off, capped at 100. *)
Definition ten_percent : Coupon.t :=
  Coupon.mk 1 None "SAVE10" "percentage" 10 0 (Some 100%Q) None 0 None None true.

(** The same coupon, switched off. *)
Definition inactive : Coupon.t :=
  Coupon.mk 2 None "OLD10" "percentage" 10 0 (Some 100%Q) None 0 None None false.

Definition shop : db :=
  mk_db (<[1 := product_a]> (<[2 := product_b]> ∅))
        (<[1 := the_bakery]> ∅)
        [CartItem.mk 1 customer 1 2 ""; CartItem.mk 2 customer 2 1 ""]
        [Address.mk 1 customer]
        [ten_percent; inactive]
        [] [] [] [] [].

Definition form : orders.checkout_form :=
  orders.mk_checkout_form "POST" (Some 1) None None None.

(** The shop after the customer checked out. *)
Definition placed : db := (orders.checkout customer now uuid4 form shop).1.1.

End Scenario.

(** ** Relations the statements below use *)

(** What the checkout loop may do to a product row: every column but the
    stock stays, and the stock either stays or ends at zero or above. *)
Definition stock_moved (p p' : Product.t) : Prop :=
  Product.set_stock_quantity p' (Product.stock_quantity p) = p /\
  (Product.stock_quantity p' = Product.stock_quantity p \/ 0 <= Product.stock_quantity p').

(** The order item the specification asks for a cart item: the snapshot of
    the product's name and current price, and price times quantity. *)
Definition snapshot_of (products : gmap Z Product.t) (order_id : Z)
    (c : CartItem.t) (i : OrderItem.t) : Prop :=
  exists p,
    products !! CartItem.product_id c = Some p /\
    OrderItem.order_id i = order_id /\
    OrderItem.product_id i = CartItem.product_id c /\
    OrderItem.product_name i = Product.name p /\
    OrderItem.quantity i = CartItem.quantity c /\
    OrderItem.unit_price i = Product.current_price p /\
    OrderItem.subtotal i = (Product.current_price p * inject_Z (CartItem.quantity c))%Q.

(** The price of a cart line at the prices of [products]. *)
Definition line_price (products : gmap Z Product.t) (c : CartItem.t) : Q :=
  match products !! CartItem.product_id c with
  | Some p => (Product.current_price p * inject_Z (CartItem.quantity c))%Q
  | None => 0%Q
  end.

(** ** The scenario with stock running short, and with an empty cart *)

Module Shortage.

(** The shop of [Scenario] with one loaf left while the cart asks for two. *)
Definition shop : db :=
  set_products Scenario.shop
    (<[1 := Product.set_stock_quantity Scenario.product_a 1]> (products Scenario.shop)).

Definition placed : db :=
  (orders.checkout Scenario.customer Scenario.now Scenario.uuid4 Scenario.form shop).1.1.

Definition cancelled : view :=
  orders.cancel_order Scenario.customer "LC202405142301A1B2C3" None placed.

Definition stock_of (d : db) (k : Z) : option Z :=
  Product.stock_quantity <$> products d !! k.

End Shortage.

Module EmptyCart.

Definition shop : db := set_cart_items Scenario.shop [].

(** A POST to [/cart/add] for product 1 with the given [quantity] field. *)
Definition form (quantity : Z) : cart.add_form :=
  cart.mk_add_form "POST" (Some 1) (Some quantity) None None false.

End EmptyCart.

(** Every stored cart item has a positive quantity. *)
Definition cart_positive (d : db) : Prop :=
  Forall (fun c => 0 < CartItem.quantity c) (cart_items d).

(** ** The state machine of the specification *)

(** The table of allowed transitions, one pair per arrow. *)
Definition transition_table : list (string * string) :=
  [ ("pending", "confirmed"); ("pending", "cancelled");
    ("confirmed", "preparing"); ("confirmed", "cancelled");
    ("preparing", "ready"); ("preparing", "cancelled");
    ("ready", "out_for_delivery"); ("ready", "delivered");
    ("out_for_delivery", "delivered") ].

Definition allowed (current new : string) : Prop := In (current, new) transition_table.

(** Orders on which the views below run. *)
Module Desk.

Definition order_in (status : string) : Order.t :=
  Order.mk 1 "LC202405142301A1B2C3" 7 1 1 445 30 0 475 status "cod" "pending" None "" None.

Definition shop (status : string) : db :=
  set_orders Scenario.shop [order_in status].

End Desk.

(** ** Discounts, as the specification words them *)

Module DiscountSpec.

Definition percentage_of (c : Coupon.t) (subtotal : Q) : Q :=
  (subtotal * Coupon.discount_value c / 100)%Q.

(** Percentage coupons: the percentage, capped at [max_discount] if
    present; fixed coupons: the smaller of the value and the subtotal. *)
Definition stated (c : Coupon.t) (subtotal : Q) : Q :=
  if String.eqb (Coupon.discount_type c) "percentage" then
    match Coupon.max_discount c with
    | Some cap => Qmin (percentage_of c subtotal) cap
    | None => percentage_of c subtotal
    end
  else Qmin (Coupon.discount_value c) subtotal.

(** A coupon row as the forms that create and edit coupons store it:
    [max_discount] is [float(...) or None], so never zero. *)
Definition as_stored (c : Coupon.t) : Prop :=
  forall cap, Coupon.max_discount c = Some cap -> ~ (cap == 0)%Q.

(** One hundred and fifty percent off, no cap. *)
Definition one_and_a_half : Coupon.t :=
  Coupon.mk 4 None "OOPS" "percentage" 150 0 None None 0 None None true.

End DiscountSpec.

(** ** Coupon validation, as the specification words it *)

Module ValiditySpec.
Section checks.

Variables (c : Coupon.t) (now : datetime.t) (order_amount : Q) (bakery : option Z).

Definition active : bool := Coupon.is_active c.

(** The window has opened: no start, or the start is not after [now]. *)
Definition opened : bool :=
  match Coupon.valid_from c with
  | Some start => negb (datetime.lt now start)
  | None => true
  end.

(** The window has not closed: no end, or [now] is not after the end. *)
Definition not_closed : bool :=
  match Coupon.valid_until c with
  | Some stop => negb (datetime.lt stop now)
  | None => true
  end.

(** Uses are left: no limit (or a limit of zero), or fewer uses than the limit. *)
Definition uses_left : bool :=
  match Coupon.usage_limit c with
  | Some limit => (limit =? 0) || (Coupon.used_count c <? limit)
  | None => true
  end.

(** The order reaches the coupon's minimum. *)
Definition reaches_minimum : bool := Qle_bool (Coupon.min_order_amount c) order_amount.

(** The coupon is platform-wide, no bakery is given, or it is that bakery's. *)
Definition in_scope : bool :=
  match Coupon.bakery_id c, bakery with
  | Some mine, Some theirs => (mine =? 0) || (theirs =? 0) || (mine =? theirs)
  | _, _ => true
  end.

(** The checks in the order of the specification, each with the reason
    given when it fails. *)
Definition checks : list (bool * message) :=
  [ (active, text "Coupon is not active");
    (opened, text "Coupon is not yet valid");
    (not_closed, text "Coupon has expired");
    (uses_left, text "Coupon usage limit reached");
    (reaches_minimum, minimum_order_amount_is (Coupon.min_order_amount c));
    (in_scope, text "Coupon is not valid for this bakery") ].

End checks.

(** The first failing check wins. *)
Fixpoint first_failure (cs : list (bool * message)) : bool * message :=
  match cs with
  | [] => (true, text "Coupon is valid")
  | (passes, reason) :: rest => if passes then first_failure rest else (false, reason)
  end.

(** Switched off, expired, used up and scoped to bakery 9, all at once. *)
Definition hopeless : Coupon.t :=
  Coupon.mk 5 (Some 9) "NOPE" "fixed" 50 1000 None (Some 1) 1 None
    (Some (datetime.mk 2020 1 1 0 0 0 0)) false.

End ValiditySpec.

(** ** Ratings, as the specification words them *)

Module RatingSpec.

(** The ratings of the visible reviews of bakery [b]. *)
Definition visible_ratings (b : Z) (reviews : list Review.t) : list Z :=
  fold_right (fun r acc =>
                if decide (Review.bakery_id r = b /\ Review.is_visible r = true)
                then Review.rating r :: acc else acc) [] reviews.

Definition total (l : list Z) : Z := fold_right Z.add 0 l.

(** [m] is the arithmetic mean of the non-empty list [l]. *)
Definition is_mean (m : Q) (l : list Z) : Prop :=
  (m * inject_Z (Z.of_nat (length l)) == inject_Z (total l))%Q.

(** Bakery 1 with reviews rated 5, 4 and 3, next to a hidden review of
    bakery 1 and a review of bakery 2. *)
Definition shop : db :=
  set_reviews Scenario.shop
    [ Review.mk 1 7 1 11 5 true; Review.mk 2 8 2 12 1 true; Review.mk 3 8 1 13 4 true;
      Review.mk 4 9 1 14 1 false; Review.mk 5 9 1 15 3 true ].

Definition rated (d : db) : option (Q * Z) :=
  (fun b => (Bakery.rating b, Bakery.total_reviews b)) <$> bakeries d !! 1.

End RatingSpec.

(** ** The preconditions of checkout, as the specification words them *)

Module CheckoutSpec.
Section actor.

Variables (user : Z) (d : db).

(** The bakery of the cart: that of its first item's product. *)
Definition cart_bakery : option Bakery.t :=
  match orders.user_cart user d with
  | [] => None
  | first :: _ => products d !! CartItem.product_id first
                  ≫= (fun p => bakeries d !! Product.bakery_id p)
  end.

Definition cart_subtotal : Q :=
  Py.sum (map (line_price (products d)) (orders.user_cart user d)).

Definition empty_cart : Prop := orders.user_cart user d = [].

Definition below_minimum : Prop :=
  exists bakery, cart_bakery = Some bakery /\
                 (cart_subtotal < Bakery.min_order_amount bakery)%Q.

(** The address id names an address of the actor. *)
Definition own_address (address_id : option Z) : Prop :=
  exists a x, address_id = Some a /\ In x (addresses d) /\
              Address.id x = a /\ Address.user_id x = user.

(** Every cart row of the actor points at a product row. *)
Definition products_listed : Prop :=
  Forall (fun c => is_Some (products d !! CartItem.product_id c)) (orders.user_cart user d).

(** No order has the number that this request generates (the column is
    unique). *)
Definition number_free (now : datetime.t) (uuid4 : Z) : Prop :=
  ~ In (Order.generate_order_number now uuid4) (map Order.order_number (orders d)).

(** No coupon has the code, or the one that has it fails validation for
    this cart. *)
Definition invalid_coupon (now : datetime.t) (code : string) : Prop :=
  forall c bakery,
    List.find (fun x => String.eqb (Coupon.code x) (Py.upper code)) (coupons d) = Some c ->
    cart_bakery = Some bakery ->
    (Coupon.is_valid c now cart_subtotal (Some (Bakery.id bakery))).1 = false.

End actor.

(** The same form with the coupon field left out. *)
Definition without_coupon (form : orders.checkout_form) : orders.checkout_form :=
  orders.mk_checkout_form (orders.method form) (orders.address_id form)
    (orders.payment_method form) (orders.special_instructions form) None.

(** The checkout form of [Scenario] with a coupon code. *)
Definition with_code (code : string) : orders.checkout_form :=
  orders.mk_checkout_form "POST" (Some 1) None None (Some code).

End CheckoutSpec.

(** ** Stock bookkeeping *)

(** The quantity of product [k] on a list of (product, quantity) lines. *)
Fixpoint ordered (k : Z) (lines : list (Z * Z)) : Z :=
  match lines with
  | [] => 0
  | (product, quantity) :: rest => (if product =? k then quantity else 0) + ordered k rest
  end.

Definition cart_lines (cart : list CartItem.t) : list (Z * Z) :=
  map (fun c => (CartItem.product_id c, CartItem.quantity c)) cart.

Definition item_lines (items : list OrderItem.t) : list (Z * Z) :=
  map (fun i => (OrderItem.product_id i, OrderItem.quantity i)) items.

(** Every [reduce_stock] of the checkout loop finds the stock it asks for. *)
Fixpoint all_in_stock (cart : list CartItem.t) (m : gmap Z Product.t) : Prop :=
  match cart with
  | [] => True
  | c :: rest =>
      exists p, m !! CartItem.product_id c = Some p /\
        CartItem.quantity c <= Product.stock_quantity p /\
        all_in_stock rest
          (<[CartItem.product_id c :=
               Product.set_stock_quantity p (Product.stock_quantity p - CartItem.quantity c)]> m)
  end.

(** The stock of product [k] after the (product, quantity) lines, taken in
    order from a stock of [s]: a line of [k] that the stock covers takes its
    quantity off, every other line leaves it. *)
Fixpoint stock_after (k : Z) (lines : list (Z * Z)) (s : Z) : Z :=
  match lines with
  | [] => s
  | (product, quantity) :: rest =>
      stock_after k rest
        (if (product =? k) && (quantity <=? s) then s - quantity else s)
  end.

(** The product with its stock moved by [delta]. *)
Definition restock (delta : Z) (p : Product.t) : Product.t :=
  Product.set_stock_quantity p (Product.stock_quantity p + delta).

(** ** Invariants of the tables *)

(** All the cart rows of [user] are products of one bakery. *)
Definition same_bakery (user : Z) (d : db) : Prop :=
  exists b,
    Forall (fun c => Product.bakery_id <$> products d !! CartItem.product_id c = Some b)
      (cart.user_cart user d).

(** No product has two rows in the cart of [user]. *)
Definition one_row_per_product (user : Z) (d : db) : Prop :=
  List.NoDup (map CartItem.product_id (cart.user_cart user d)).

(** A second customer with a cart of their own, next to the one of [Scenario]. *)
Module Neighbours.

Definition neighbour : Z := 8.

Definition shop : db :=
  set_cart_items Scenario.shop
    [CartItem.mk 1 Scenario.customer 1 2 ""; CartItem.mk 2 neighbour 2 4 "";
     CartItem.mk 3 Scenario.customer 2 1 ""].

(** A POST to [/cart/add] for [product] with the given quantity. *)
Definition form (product quantity : Z) : cart.add_form :=
  cart.mk_add_form "POST" (Some product) (Some quantity) None None false.

End Neighbours.

(** A coupon with a limit has not been used more often than the limit
    (a limit of zero is no limit). *)
Definition within_limit (c : Coupon.t) : Prop :=
  match Coupon.usage_limit c with
  | Some limit => limit <> 0 -> Coupon.used_count c <= limit
  | None => True
  end.

(** Orders are keyed by [id] and by [order_number], and every order item
    points at an order. *)
Definition orders_keyed (d : db) : Prop :=
  List.NoDup (map Order.id (orders d)) /\
  List.NoDup (map Order.order_number (orders d)) /\
  Forall (fun i => In (OrderItem.order_id i) (map Order.id (orders d))) (order_items d).

(** The customer of [Scenario] fills the cart again after the order was
    placed; a second checkout at the same minute that draws the same
    [uuid4] generates the number of the order that is there. *)
Module Resubmitted.

Definition shop : db := set_cart_items Scenario.placed (cart_items Scenario.shop).

End Resubmitted.

(** ** Measures and shapes the further properties use *)

(** How far along its life an order is. *)
Definition status_rank (status : string) : nat :=
  if String.eqb status "pending" then 0
  else if String.eqb status "confirmed" then 1
  else if String.eqb status "preparing" then 2
  else if String.eqb status "ready" then 3
  else if String.eqb status "out_for_delivery" then 4
  else 5.

(** The test [update_order_status] puts a requested transition to. *)
Definition accepted (current new : string) : Prop :=
  baker.has_key baker.valid_transitions current
  && baker.status_in (Some new) (baker.get baker.valid_transitions current) = true.

(** Statuses, each of which an accepted update reaches from the one before. *)
Fixpoint accepted_chain (statuses : list string) : Prop :=
  match statuses with
  | current :: (new :: _) as later => accepted current new /\ accepted_chain later
  | _ => True
  end.

(** The string has no dot. *)
Fixpoint dotless (s : string) : Prop :=
  match s with
  | EmptyString => True
  | String c r => c <> "."%char /\ dotless r
  end.

(** The items of an order whose product is on sale. *)
Definition available_items (products : gmap Z Product.t) (items : list OrderItem.t)
    : list OrderItem.t :=
  List.filter (fun i => match products !! OrderItem.product_id i with
                        | Some p => Product.is_available p
                        | None => false
                        end) items.

(** Every product in the cart of [user] is there and on sale. *)
Definition cart_on_sale (user : Z) (d : db) : Prop :=
  Forall (fun c => exists p, products d !! CartItem.product_id c = Some p /\
                             Product.is_available p = true)
    (orders.user_cart user d).

(** An order of customer 7 that was delivered, and one of customer 8 from
    another bakery that is pending. *)
Module Counter.

Definition delivered : Order.t :=
  Order.mk 1 "LC202405142301A1B2C3" 7 1 1 445 30 0 475 "delivered" "cod" "pending"
    None "" None.

Definition pending : Order.t :=
  Order.mk 2 "LC202405142302D4E5F6" 8 2 2 100 0 0 100 "pending" "cod" "pending"
    None "" None.

Definition shop : db := set_orders RatingSpec.shop [delivered; pending].

End Counter.

(** The twenty-four leading bits of a 128-bit draw: its first six
    hexadecimal digits. *)
Definition leading_bits (uuid4 : Z) : Z := Z.land (Z.shiftr uuid4 104) (Z.ones 24).

(** * Properties *)

(** ** Order numbers *)

Lemma range_forallb (P : Z -> bool) (lo : Z) (n : nat) :
  forallb P (Format.range lo n) = true ->
  forall v, lo <= v < lo + Z.of_nat n -> P v = true.
Proof.
  intros Hall v Hv.
  rewrite forallb_forall in Hall. apply Hall.
  unfold Format.range. apply in_map_iff.
  exists (Z.to_nat (v - lo)). split; [lia|].
  apply in_seq. lia.
Qed.

Lemma pad_field (width : nat) (lo : Z) (n : nat) :
  forallb (fun v => Format.fieldb width v (datetime.pad width v)) (Format.range lo n) = true ->
  forall v, lo <= v < lo + Z.of_nat n -> Format.field width v (datetime.pad width v).
Proof.
  intros Hall v Hv.
  pose proof (range_forallb _ lo n Hall v Hv) as H.
  unfold Format.fieldb in H.
  apply andb_prop in H as [H Hval]. apply andb_prop in H as [Hlen Hdig].
  repeat split.
  - now apply Nat.eqb_eq.
  - exact Hdig.
  - now apply Z.eqb_eq.
Qed.

Lemma pad_year v : 1000 <= v <= 9999 -> Format.field 4 v (datetime.pad 4 v).
Proof.
  intros H. apply (pad_field 4 1000 (Z.to_nat 9000)); [vm_compute; reflexivity | lia].
Qed.

Lemma pad_two v : 0 <= v <= 59 -> Format.field 2 v (datetime.pad 2 v).
Proof.
  intros H. apply (pad_field 2 0 60); [vm_compute; reflexivity | lia].
Qed.

Lemma hexdigit_upper v :
  0 <= v <= 15 -> Format.is_upper_hex (Py.upper_ascii (Py.hexdigit v)) = true.
Proof.
  intros H.
  assert (Hcases : In v (Format.range 0 16)).
  { unfold Format.range. apply in_map_iff. exists (Z.to_nat v). split; [lia|].
    apply in_seq. lia. }
  simpl in Hcases.
  repeat (destruct Hcases as [<- | Hcases]; [vm_compute; reflexivity|]).
  destruct Hcases.
Qed.

Lemma nibble_range u k : 0 <= Z.land (Z.shiftr u k) 15 <= 15.
Proof.
  assert (E : Z.land (Z.shiftr u k) 15 = Z.shiftr u k mod 16).
  { change 15 with (Z.ones 4). now rewrite Z.land_ones by lia. }
  rewrite E. pose proof (Z.mod_pos_bound (Z.shiftr u k) 16). lia.
Qed.

Lemma hex_nibbles_length n u : String.length (Py.hex_nibbles n u) = n.
Proof. induction n as [|n IH]; simpl; [reflexivity | now rewrite IH]. Qed.

Lemma hex_nibbles_upper n u :
  Format.all_chars Format.is_upper_hex (Py.upper (Py.hex_nibbles n u)) = true.
Proof.
  induction n as [|n IH]; simpl; [reflexivity|].
  rewrite IH, andb_true_r. apply hexdigit_upper, nibble_range.
Qed.

Lemma append_assoc (a b c : string) : (a ++ b) ++ c = a ++ (b ++ c).
Proof.
  induction a as [|x a IH]; [reflexivity|].
  change (String x ((a ++ b) ++ c) = String x (a ++ (b ++ c))). now rewrite IH.
Qed.

Lemma append_length (a b : string) :
  String.length (a ++ b) = (String.length a + String.length b)%nat.
Proof.
  induction a as [|x a IH]; [reflexivity|].
  change (S (String.length (a ++ b)) = S (String.length a + String.length b)).
  now rewrite IH.
Qed.

Lemma prefix_length k s :
  (k <= String.length s)%nat -> String.length (Py.prefix k s) = k.
Proof.
  revert s. induction k as [|k IH]; intros s Hk; [reflexivity|].
  destruct s as [|c r]; simpl in *; [lia|]. rewrite IH; [reflexivity | lia].
Qed.

Lemma upper_length s : String.length (Py.upper s) = String.length s.
Proof. induction s as [|c r IH]; simpl; [reflexivity | now rewrite IH]. Qed.

Lemma upper_prefix k s : Py.upper (Py.prefix k s) = Py.prefix k (Py.upper s).
Proof.
  revert s. induction k as [|k IH]; intros [|c r]; simpl; try reflexivity.
  now rewrite IH.
Qed.

Lemma all_chars_prefix p k s :
  Format.all_chars p s = true -> Format.all_chars p (Py.prefix k s) = true.
Proof.
  revert s. induction k as [|k IH]; intros [|c r]; simpl; try reflexivity.
  intros H. apply andb_prop in H as [Hc Hr]. now rewrite Hc, IH.
Qed.

(** C9: for every well-formed generation time and every random draw, the
    generated order number is [LC], the twelve digits [YYYYMMDDHHmm] of that
    time, and six upper-case hexadecimal characters: twenty characters. *)
Theorem generate_order_number_format (now : datetime.t) (uuid4 : Z) :
  datetime.wf now ->
  Format.order_number now (Order.generate_order_number now uuid4) /\
  String.length (Order.generate_order_number now uuid4) = 20%nat.
Proof.
  intros (Hy & Hm & Hd & HH & HM).
  pose proof (pad_year _ Hy) as FY.
  pose proof (pad_two (datetime.month now) ltac:(lia)) as Fm.
  pose proof (pad_two (datetime.day now) ltac:(lia)) as Fd.
  pose proof (pad_two (datetime.hour now) ltac:(lia)) as FH.
  pose proof (pad_two (datetime.minute now) ltac:(lia)) as FM.
  assert (Hr : String.length (Py.upper (Py.prefix 6 (Py.hex_nibbles 32 uuid4))) = 6%nat).
  { rewrite upper_length, prefix_length; [reflexivity|]. rewrite hex_nibbles_length. lia. }
  split.
  - exists (datetime.pad 4 (datetime.year now)), (datetime.pad 2 (datetime.month now)),
      (datetime.pad 2 (datetime.day now)), (datetime.pad 2 (datetime.hour now)),
      (datetime.pad 2 (datetime.minute now)),
      (Py.upper (Py.prefix 6 (Py.hex_nibbles 32 uuid4))).
    repeat split; try apply FY; try apply Fm; try apply Fd; try apply FH; try apply FM;
      try exact Hr.
    + unfold Order.generate_order_number, datetime.strftime_YmdHM.
      now rewrite !append_assoc.
    + rewrite upper_prefix. apply all_chars_prefix, hex_nibbles_upper.
  - unfold Order.generate_order_number, datetime.strftime_YmdHM.
    destruct FY as (LY & _), Fm as (Lm & _), Fd as (Ld & _), FH as (LH & _), FM as (LM & _).
    rewrite !append_length, LY, Lm, Ld, LH, LM, Hr. reflexivity.
Qed.

Lemma generate_order_number_format_witness :
  Format.order_number (datetime.mk 2024 5 14 23 1 0 0)
    (Order.generate_order_number (datetime.mk 2024 5 14 23 1 0 0)
       0xa1b2c3d4e5f647a8b9c0d1e2f3a4b5c6) /\
  String.length (Order.generate_order_number (datetime.mk 2024 5 14 23 1 0 0)
                   0xa1b2c3d4e5f647a8b9c0d1e2f3a4b5c6) = 20%nat.
Proof.
  apply generate_order_number_format. unfold datetime.wf. simpl. lia.
Defined.

Example generate_order_number_example :
  Order.generate_order_number (datetime.mk 2024 5 14 23 1 0 0)
    0xa1b2c3d4e5f647a8b9c0d1e2f3a4b5c6 = "LC202405142301A1B2C3".
Proof. vm_compute. reflexivity. Qed.

(** ** The checkout loop *)

Lemma stock_moved_refl p : stock_moved p p.
Proof. split; [now destruct p | now left]. Qed.

Lemma stock_moved_trans p q r : stock_moved p q -> stock_moved q r -> stock_moved p r.
Proof.
  intros [E1 S1] [E2 S2]. split.
  - rewrite <- E1. rewrite <- E2. reflexivity.
  - lia.
Qed.

Lemma reduce_stock_moved p q : stock_moved p (Product.reduce_stock p q).1.
Proof.
  unfold Product.reduce_stock.
  destruct (Z.geb_spec (Product.stock_quantity p) q) as [Hge|Hlt]; simpl.
  - split; [now destruct p | right; simpl; lia].
  - apply stock_moved_refl.
Qed.

Lemma stock_moved_price p p' :
  stock_moved p p' ->
  Product.current_price p' = Product.current_price p /\ Product.name p' = Product.name p.
Proof. intros [<- _]. now destruct p'. Qed.

Lemma option_stock_moved_refl (o : option Product.t) : option_Forall2 stock_moved o o.
Proof. destruct o; constructor. apply stock_moved_refl. Qed.

Lemma option_stock_moved_trans (a b c : option Product.t) :
  option_Forall2 stock_moved a b -> option_Forall2 stock_moved b c ->
  option_Forall2 stock_moved a c.
Proof.
  intros H1 H2. destruct H1; inversion H2; subst; constructor.
  eapply stock_moved_trans; eassumption.
Qed.

(** The loop touches only the stock column, and leaves every stock it
    changes at zero or above. *)
Lemma add_order_items_products oid cart :
  forall (m : gmap Z Product.t) s m' s',
    orders.add_order_items oid cart m s = Some (m', s') ->
    forall k, option_Forall2 stock_moved (m !! k) (m' !! k).
Proof.
  induction cart as [|c rest IH]; intros m s m' s' H k; simpl in H.
  - injection H as <- <-. apply option_stock_moved_refl.
  - unfold CartItem.product in H.
    destruct (m !! CartItem.product_id c) as [p|] eqn:Hp; [|discriminate].
    specialize (IH _ _ _ _ H k).
    eapply option_stock_moved_trans; [|exact IH].
    destruct (decide (CartItem.product_id c = k)) as [<-|Hne].
    + rewrite lookup_insert_eq, Hp. constructor. apply reduce_stock_moved.
    + rewrite lookup_insert_ne by assumption. apply option_stock_moved_refl.
Qed.

(** The loop adds one snapshot per cart item, at the prices the products
    had when the loop started. *)
Lemma add_order_items_snapshots oid cart (m0 : gmap Z Product.t) :
  forall (m : gmap Z Product.t) s m' s',
    (forall k, option_Forall2 stock_moved (m0 !! k) (m !! k)) ->
    orders.add_order_items oid cart m s = Some (m', s') ->
    exists items, s' = (s ++ items)%list /\ Forall2 (snapshot_of m0 oid) cart items.
Proof.
  induction cart as [|c rest IH]; intros m s m' s' Hm H; simpl in H.
  - injection H as <- <-. exists []. split; [now rewrite app_nil_r | constructor].
  - unfold CartItem.subtotal, CartItem.product in H.
    destruct (m !! CartItem.product_id c) as [p|] eqn:Hp; [|discriminate].
    pose proof (Hm (CartItem.product_id c)) as Hc. rewrite Hp in Hc.
    inversion Hc as [p0 p1 Hmoved Hp0 E|]; subst p1.
    apply stock_moved_price in Hmoved as [Hprice Hname].
    apply IH in H as (items & -> & Hitems).
    + eexists (_ :: items). split; [now rewrite <- app_assoc|].
      constructor; [|exact Hitems].
      exists p0. simpl. rewrite Hprice, Hname. now repeat split.
    + intros k. destruct (decide (CartItem.product_id c = k)) as [<-|Hne].
      * rewrite lookup_insert_eq, <- Hp0. constructor.
        eapply stock_moved_trans; [|apply reduce_stock_moved].
        inversion Hc; subst. congruence.
      * rewrite lookup_insert_ne by assumption. apply Hm.
Qed.

Lemma py_lt_iff a b : Py.lt a b = true <-> (a < b)%Q.
Proof.
  unfold Py.lt. rewrite Qlt_alt. destruct (a ?= b)%Q; split; congruence.
Qed.

(** ** What [checkout] commits *)

(** Either [checkout] commits nothing and does not confirm an order, or it
    went through every step of the POST branch. *)
Lemma checkout_cases user now uuid4 form d d' fl r :
  orders.checkout user now uuid4 form d = (d', fl, r) ->
  (d' = d /\ forall e n, r <> redirect_order e n) \/
  exists bakery address coupons' discount warnings products' items order,
    let cart := orders.user_cart user d in
    let subtotal := Py.sum (map (CartItem.subtotal (products d)) cart) in
    cart <> [] /\
    CheckoutSpec.cart_bakery user d = Some bakery /\
    Py.lt subtotal (Bakery.min_order_amount bakery) = false /\
    orders.method form = "POST" /\
    orders.address_id form = Some (Address.id address) /\
    In address (addresses d) /\ Address.user_id address = user /\
    orders.apply_coupon now (default "" (orders.coupon_code form)) subtotal
      (Bakery.id bakery) (coupons d) = (coupons', discount, warnings) /\
    order = Order.mk (next_id (map Order.id (orders d)))
              (Order.generate_order_number now uuid4) user (Bakery.id bakery)
              (Address.id address) subtotal (Bakery.delivery_fee bakery) discount
              (subtotal + Bakery.delivery_fee bakery - discount)%Q
              "pending" (default "cod" (orders.payment_method form)) "pending"
              None (default "" (orders.special_instructions form)) None /\
    orders.add_order_items (Order.id order) cart (products d) [] = Some (products', items) /\
    products d' = products' /\ coupons d' = coupons' /\
    orders d' = (orders d ++ [order])%list /\
    order_items d' = (order_items d ++ items)%list /\
    order_status_history d' =
      (order_status_history d ++ [OrderStatusHistory.mk (Order.id order) "pending"
                                    (Some "Order placed")])%list /\
    cart_items d' = List.filter (fun c => negb (CartItem.user_id c =? user)) (cart_items d) /\
    r = redirect_order "orders.order_confirmation" (Order.order_number order).
Proof.
  unfold orders.checkout, raise. intros H.
  destruct (orders.user_cart user d) as [|first rest] eqn:Hcart.
  { left. injection H as <- _ <-. split; [reflexivity | discriminate]. }
  destruct (CartItem.product (products d) first ≫= _) as [bakery|] eqn:Hb;
    [|left; injection H as <- _ <-; split; [reflexivity | discriminate]].
  destruct (Py.lt _ (Bakery.min_order_amount bakery)) eqn:Hmin;
    [left; injection H as <- _ <-; split; [reflexivity | discriminate]|].
  destruct (String.eqb_spec (orders.method form) "POST") as [Hpost|_];
    [|left; injection H as <- _ <-; split; [reflexivity | discriminate]].
  destruct (orders.address_id form) as [aid|] eqn:Haid; cbn [mbind option_bind] in H;
    [|left; injection H as <- _ <-; split; [reflexivity | discriminate]].
  destruct (List.find _ (addresses d)) as [address|] eqn:Haddr;
    [|left; injection H as <- _ <-; split; [reflexivity | discriminate]].
  destruct (orders.apply_coupon _ _ _ _ _) as [[coupons' discount] warnings] eqn:Hc.
  destruct (existsb _ (orders d));
    [left; injection H as <- _ <-; split; [reflexivity | discriminate]|].
  destruct (orders.add_order_items _ _ _ _) as [[products' items]|] eqn:Hitems;
    [|left; injection H as <- _ <-; split; [reflexivity | discriminate]].
  right. injection H as <- _ <-.
  apply find_some in Haddr as [Hin Hkey].
  apply andb_prop in Hkey as [Hid Huser].
  apply Z.eqb_eq in Hid, Huser. subst aid.
  exists bakery, address, coupons', discount, warnings, products', items.
  eexists. cbv zeta. unfold CheckoutSpec.cart_bakery. rewrite Hcart.
  repeat split; try reflexivity; try eassumption.
  discriminate.
Qed.




(** The end-to-end scenario of the specification: 2 x 180 and 1 x 85 with a
    delivery fee of 30 and no coupon. *)
Example checkout_scenario :
  map (fun o => (Order.subtotal o, Order.delivery_fee o, Order.discount o,
                 Order.total_amount o, Order.status o)) (orders Scenario.placed)
    = [(445%Q, 30%Q, 0%Q, 475%Q, "pending")] /\
  map OrderItem.subtotal (order_items Scenario.placed) = [360%Q; 85%Q] /\
  map OrderStatusHistory.status (order_status_history Scenario.placed) = ["pending"].
Proof. vm_compute. repeat split. Qed.

(** ** Stock *)

Lemma checkout_products user now uuid4 form d k :
  option_Forall2 stock_moved (products d !! k)
    (products (orders.checkout user now uuid4 form d).1.1 !! k).
Proof.
  destruct (orders.checkout user now uuid4 form d) as [[d' fl] r] eqn:H. simpl.
  apply checkout_cases in H as [[-> _]|H]; [apply option_stock_moved_refl|].
  destruct H as (bakery & address & coupons' & discount & warnings & products' & items
                 & order & H).
  cbv zeta in H.
  destruct H as (_ & _ & _ & _ & _ & _ & _ & _ & _ & Hitems & -> & _).
  eapply add_order_items_products, Hitems.
Qed.

(** The stock column after the checkout loop, product by product. *)
Lemma add_order_items_stock oid cart :
  forall (m : gmap Z Product.t) s m' s',
    orders.add_order_items oid cart m s = Some (m', s') ->
    forall k, Product.stock_quantity <$> m' !! k
      = stock_after k (cart_lines cart) <$> (Product.stock_quantity <$> m !! k).
Proof.
  induction cart as [|c rest IH]; intros m s m' s' H k; simpl in H.
  - injection H as <- <-. now destruct (m !! k).
  - unfold CartItem.product in H.
    destruct (m !! CartItem.product_id c) as [p|] eqn:Hp; [|discriminate].
    rewrite (IH _ _ _ _ H k). simpl.
    destruct (Z.eqb_spec (CartItem.product_id c) k) as [E|Hne].
    + rewrite E in *. rewrite lookup_insert_eq, Hp. simpl. f_equal. f_equal.
      unfold Product.reduce_stock. rewrite Z.geb_leb.
      now destruct (CartItem.quantity c <=? Product.stock_quantity p).
    + rewrite lookup_insert_ne by assumption. reflexivity.
Qed.

(** C10: [reduce_stock] takes [q] off the stock and returns [True] when the
    stock is at least [q], and otherwise leaves the product as it is and
    returns [False], as read back from the product it returns; so after
    [checkout] every product is still there with all its other columns; a
    checkout that places no order leaves it as it was, and one that places
    the order leaves the stock that the cart lines of the product, taken in
    order and each under that test, leave of it: either what it was or zero
    or above, so a stock that was not negative is not negative afterwards. *)
Theorem reduce_stock_checkout_nonnegative user now uuid4 form d k p q :
  (q <= Product.stock_quantity p ->
   Product.reduce_stock p q
     = (Product.set_stock_quantity p (Product.stock_quantity p - q), true) /\
   Product.stock_quantity (Product.reduce_stock p q).1 = Product.stock_quantity p - q /\
   (Product.reduce_stock p q).2 = true) /\
  (Product.stock_quantity p < q ->
   Product.reduce_stock p q = (p, false) /\
   Product.stock_quantity (Product.reduce_stock p q).1 = Product.stock_quantity p /\
   (Product.reduce_stock p q).2 = false) /\
  (products d !! k = Some p ->
   exists p', products (orders.checkout user now uuid4 form d).1.1 !! k = Some p' /\
     Product.set_stock_quantity p' (Product.stock_quantity p) = p /\
     (Product.stock_quantity p' = Product.stock_quantity p \/ 0 <= Product.stock_quantity p') /\
     (0 <= Product.stock_quantity p -> 0 <= Product.stock_quantity p') /\
     ((forall e n, (orders.checkout user now uuid4 form d).2 <> redirect_order e n) ->
      p' = p) /\
     (forall e n, (orders.checkout user now uuid4 form d).2 = redirect_order e n ->
      Product.stock_quantity p'
        = stock_after k (cart_lines (orders.user_cart user d)) (Product.stock_quantity p))).
Proof.
  split; [|split].
  - intros H. unfold Product.reduce_stock.
    destruct (Z.geb_spec (Product.stock_quantity p) q); [|lia].
    split; [reflexivity|]. split; [|reflexivity]. now destruct p.
  - intros H. unfold Product.reduce_stock.
    destruct (Z.geb_spec (Product.stock_quantity p) q); [lia|].
    split; [reflexivity|]. split; reflexivity.
  - intros Hp. pose proof (checkout_products user now uuid4 form d k) as H.
    rewrite Hp in H.
    destruct (orders.checkout user now uuid4 form d) as [[d' fl] r] eqn:Hc.
    simpl in H |- *.
    destruct (products d' !! k) as [p'|] eqn:E1; [|inversion H].
    assert (Hmoved : stock_moved p p') by (now inversion H).
    destruct Hmoved as [Hcols Hs].
    exists p'. split; [reflexivity|]. split; [exact Hcols|]. split; [exact Hs|].
    split; [lia|].
    apply checkout_cases in Hc as [[-> Hr]|Hc].
    + split; [intros _; congruence|]. intros e n Hrn. now destruct (Hr e n).
    + destruct Hc as (bakery & address & coupons' & discount & warnings & products' & items
                      & order & Hc).
      cbv zeta in Hc.
      destruct Hc as (_ & _ & _ & _ & _ & _ & _ & _ & _ & Hitems & Hprod & _ & _ & _ & _ & _ & ->).
      split; [intros Hr; now destruct (Hr _ _ eq_refl)|]. intros _ _ _.
      pose proof (add_order_items_stock _ _ _ _ _ _ Hitems k) as Hk.
      rewrite <- Hprod, E1, Hp in Hk. simpl in Hk. now injection Hk.
Qed.

Lemma reduce_stock_checkout_nonnegative_witness :
  (Product.reduce_stock Scenario.product_a 2
     = (Product.set_stock_quantity Scenario.product_a 8, true) /\
   Product.stock_quantity (Product.reduce_stock Scenario.product_a 2).1 = 8 /\
   (Product.reduce_stock Scenario.product_a 2).2 = true) /\
  (Product.reduce_stock Scenario.product_a 11 = (Scenario.product_a, false) /\
   Product.stock_quantity (Product.reduce_stock Scenario.product_a 11).1 = 10 /\
   (Product.reduce_stock Scenario.product_a 11).2 = false) /\
  exists p', products Scenario.placed !! 1 = Some p' /\
    Product.set_stock_quantity p' 10 = Scenario.product_a /\
    0 <= Product.stock_quantity p' /\
    Product.stock_quantity p' = 8.
Proof.
  destruct (reduce_stock_checkout_nonnegative Scenario.customer Scenario.now Scenario.uuid4
              Scenario.form Scenario.shop 1 Scenario.product_a 2) as (H1 & _ & H3).
  destruct (reduce_stock_checkout_nonnegative Scenario.customer Scenario.now Scenario.uuid4
              Scenario.form Scenario.shop 1 Scenario.product_a 11) as (_ & H2 & _).
  split; [apply H1; vm_compute; discriminate|].
  split; [apply H2; reflexivity|].
  destruct (H3 eq_refl) as (p' & Hp' & Hcols & _ & Hpos & _ & Hplaced).
  exists p'. split; [exact Hp'|]. split; [exact Hcols|].
  split; [apply Hpos; vm_compute; discriminate|].
  exact (Hplaced _ _ eq_refl).
Defined.

(** C2: placing an order for two loaves when one is left does not take
    any loaf off the stock, and cancelling that order, still pending, adds
    two: the stock ends at three instead of the one it started from. *)
Theorem cancel_credits_stock_never_debited :
  Shortage.stock_of Shortage.shop 1 = Some 1 /\
  map Order.status (orders Shortage.placed) = ["pending"] /\
  Shortage.stock_of Shortage.placed 1 = Some 1 /\
  Shortage.cancelled.2 = redirect_order "orders.order_detail" "LC202405142301A1B2C3" /\
  map Order.status (orders Shortage.cancelled.1.1) = ["cancelled"] /\
  Shortage.stock_of Shortage.cancelled.1.1 1 = Some 3.
Proof. vm_compute. repeat split. Qed.

(** Where the stock suffices the same two steps give the stock back. *)
Example cancel_restores_debited_stock :
  let cancelled :=
    (orders.cancel_order Scenario.customer "LC202405142301A1B2C3" None Scenario.placed).1.1 in
  map (Shortage.stock_of Scenario.shop) [1; 2] = [Some 10; Some 5] /\
  map (Shortage.stock_of Scenario.placed) [1; 2] = [Some 8; Some 4] /\
  map (Shortage.stock_of cancelled) [1; 2] = [Some 10; Some 5].
Proof. vm_compute. repeat split. Qed.

(** ** The cart *)

(** C7: [add_to_cart] stores the quantity it is given: posted with
    quantity 0, or -3, for a product that is not in the cart, it leaves a
    cart item with that quantity. *)
Theorem add_to_cart_stores_nonpositive_quantity :
  cart_positive EmptyCart.shop /\
  cart_items (cart.add_to_cart Scenario.customer (EmptyCart.form 0) EmptyCart.shop).1.1
    = [CartItem.mk 1 Scenario.customer 1 0 ""] /\
  cart_items (cart.add_to_cart Scenario.customer (EmptyCart.form (-3)) EmptyCart.shop).1.1
    = [CartItem.mk 1 Scenario.customer 1 (-3) ""] /\
  ~ cart_positive (cart.add_to_cart Scenario.customer (EmptyCart.form 0) EmptyCart.shop).1.1.
Proof.
  split; [constructor|]. split; [vm_compute; reflexivity|].
  split; [vm_compute; reflexivity|].
  intros H. assert (E : cart_items
    (cart.add_to_cart Scenario.customer (EmptyCart.form 0) EmptyCart.shop).1.1
    = [CartItem.mk 1 Scenario.customer 1 0 ""]) by (vm_compute; reflexivity).
  unfold cart_positive in H. rewrite E in H. inversion H as [|c l Hc _]. simpl in Hc. lia.
Qed.

Lemma Forall_write_back {A} (P : A -> Prop) (key : A -> Z) (row : A) (table : list A) :
  P row -> Forall P table -> Forall P (write_back key row table).
Proof.
  intros Hrow Htable. unfold write_back. apply List.Forall_forall. intros x Hx.
  apply in_map_iff in Hx as (y & <- & Hy).
  destruct (key y =? key row); [exact Hrow|].
  rewrite List.Forall_forall in Htable. now apply Htable.
Qed.

Lemma Forall_list_filter {A} (P : A -> Prop) (f : A -> bool) (table : list A) :
  Forall P table -> Forall P (List.filter f table).
Proof.
  rewrite !List.Forall_forall. intros H x Hx. apply filter_In in Hx as [Hx _]. now apply H.
Qed.

(** X2: [update_cart] keeps every stored quantity positive: a quantity of zero
    or less deletes the item. *)
Lemma update_cart_positive user item_id quantity xhr d :
  cart_positive d -> cart_positive (cart.update_cart user item_id quantity xhr d).1.1.
Proof.
  intros H. unfold cart.update_cart, raise.
  destruct (item_id ≫= _) as [cart_item|]; [|exact H].
  destruct quantity as [q|]; [|exact H].
  destruct (Z.leb_spec q 0) as [Hle|Hgt]; simpl; unfold cart_positive; simpl.
  - now apply Forall_list_filter.
  - now apply Forall_write_back.
Qed.

(** X3: a non-positive update removes the item it names. *)
Lemma update_cart_deletes user item q xhr d :
  In item (cart_items d) -> CartItem.user_id item = user -> q <= 0 ->
  ~ In (CartItem.id item)
       (map CartItem.id
          (cart_items (cart.update_cart user (Some (CartItem.id item)) (Some q) xhr d).1.1)).
Proof.
  intros Hin Huser Hq. unfold cart.update_cart. cbn [mbind option_bind].
  destruct (List.find _ (cart_items d)) as [found|] eqn:Hfind.
  - apply find_some in Hfind as [_ Hkey]. apply andb_prop in Hkey as [Hid _].
    apply Z.eqb_eq in Hid.
    destruct (Z.leb_spec q 0) as [_|Hgt]; [|lia]. simpl.
    intros Hmem. apply in_map_iff in Hmem as (c & Hc & Hcin).
    apply filter_In in Hcin as [_ Hne].
    rewrite Hid, <- Hc, Z.eqb_refl in Hne. discriminate.
  - exfalso. apply (find_none _ _ Hfind) in Hin.
    rewrite Huser, !Z.eqb_refl in Hin. discriminate.
Qed.

(** X4: with a positive quantity [add_to_cart] keeps the quantities positive. *)
Lemma add_to_cart_positive user form d :
  0 < default 1 (cart.quantity form) ->
  cart_positive d -> cart_positive (cart.add_to_cart user form d).1.1.
Proof.
  intros Hq H.
  assert (Hstore : forall product pid table,
             Forall (fun c => 0 < CartItem.quantity c) table ->
             cart_positive (cart.store user form product pid table d).1.1).
  { intros product pid table Htable. unfold cart.store, cart_positive. simpl.
    destruct (List.find _ table) as [cart_item|] eqn:Hfind.
    - apply Forall_write_back; [|exact Htable]. simpl.
      apply find_some in Hfind as [Hin _].
      rewrite List.Forall_forall in Htable. specialize (Htable _ Hin). lia.
    - apply Forall_app. split; [exact Htable|]. constructor; [exact Hq | constructor]. }
  unfold cart.add_to_cart, raise.
  repeat match goal with
         | |- cart_positive (if ?b then _ else _).1.1 => destruct b
         | |- cart_positive (match ?o with Some _ => _ | None => _ end).1.1 => destruct o
         | |- cart_positive (match ?l with [] => _ | _ :: _ => _ end).1.1 => destruct l
         end;
    try exact H; apply Hstore; try exact H.
  now apply Forall_list_filter.
Qed.

(** ** Status transitions *)

Lemma valid_transitions_table current new :
  baker.has_key baker.valid_transitions current
  && Py.contains new (baker.get baker.valid_transitions current) = true
  <-> allowed current new.
Proof.
  unfold allowed, transition_table, baker.has_key, baker.valid_transitions, Py.contains.
  cbn [existsb baker.get fst In].
  repeat match goal with
         | |- context [String.eqb current ?k] =>
             destruct (String.eqb_spec current k) as [->|?]; cbn [existsb baker.get orb andb]
         end;
  repeat match goal with
         | |- context [String.eqb new ?k] =>
             destruct (String.eqb_spec new k) as [->|?]; cbn [existsb orb andb]
         end;
  split; intros H; try reflexivity; try discriminate; try (intuition congruence).
Qed.

Lemma can_cancel_iff order :
  Order.can_cancel order = true
  <-> Order.status order = "pending" \/ Order.status order = "confirmed".
Proof.
  unfold Order.can_cancel, Py.contains. cbn [existsb].
  destruct (String.eqb_spec (Order.status order) "pending") as [->|?];
    destruct (String.eqb_spec (Order.status order) "confirmed") as [E|?];
    cbn [orb]; split; intros H; try reflexivity; try discriminate; intuition congruence.
Qed.

(** C3: [update_order_status] changes an order only along an arrow of the
    table; asked for anything else it answers "Invalid status transition."
    and commits nothing, so status and history stay as they were.
    [cancel_order] cancels only an order that is pending or confirmed, both
    arrows of the table; asked for any other order it commits nothing. *)
Theorem status_transitions_follow_table
    bakery now order_id new_status notes user order_number reason d :
  (let found := List.find (fun o => (Order.id o =? order_id)
                                    && (Order.bakery_id o =? bakery)) (orders d) in
   let result := baker.update_order_status bakery now order_id new_status notes d in
   (found = None /\ result = (d, [], not_found)) \/
   (exists order, found = Some order /\
      (forall new, new_status = Some new -> ~ allowed (Order.status order) new) /\
      result = (d, [(text "Invalid status transition.", "danger")],
                redirect "baker.order_detail")) \/
   (exists order new updated, found = Some order /\ new_status = Some new /\
      allowed (Order.status order) new /\
      Order.status updated = new /\ Order.id updated = Order.id order /\
      orders result.1.1 = write_back Order.id updated (orders d) /\
      order_status_history result.1.1
        = (order_status_history d
           ++ [OrderStatusHistory.mk (Order.id order) new (Some (default "" notes))])%list))
  /\
  (let found := List.find (fun o => String.eqb (Order.order_number o) order_number
                                    && (Order.customer_id o =? user)) (orders d) in
   let result := orders.cancel_order user order_number reason d in
   (found = None /\ result = (d, [], not_found)) \/
   (exists order, found = Some order /\
      ~ (Order.status order = "pending" \/ Order.status order = "confirmed") /\
      result = (d, [(text "This order cannot be cancelled.", "danger")],
                redirect_order "orders.order_detail" order_number)) \/
   (exists order, found = Some order /\
      (Order.status order = "pending" \/ Order.status order = "confirmed") /\
      allowed (Order.status order) "cancelled" /\
      (result = raise d \/
       exists updated, Order.status updated = "cancelled" /\
         Order.id updated = Order.id order /\
         orders result.1.1 = write_back Order.id updated (orders d) /\
         order_status_history result.1.1
           = (order_status_history d
              ++ [OrderStatusHistory.mk (Order.id order) "cancelled"
                    (Some (default "Customer requested cancellation" reason))])%list))).
Proof.
  split; cbv zeta.
  - unfold baker.update_order_status.
    destruct (List.find _ (orders d)) as [order|]; [|now left].
    right. destruct new_status as [new|].
    + unfold baker.status_in.
      destruct (baker.has_key _ _ && Py.contains _ _) eqn:Hok.
      * right. apply valid_transitions_table in Hok.
        exists order, new,
          (if String.eqb new "delivered"
           then Order.set_delivered_at (Order.set_status order new) now
           else Order.set_status order new).
        repeat split; try reflexivity; try assumption;
          now destruct (String.eqb new "delivered").
      * left. exists order. repeat split.
        intros s [= <-] Hs. apply valid_transitions_table in Hs. congruence.
    + left. exists order. repeat split. discriminate.
  - unfold orders.cancel_order.
    destruct (List.find _ (orders d)) as [order|]; [|now left].
    right. destruct (Order.can_cancel order) eqn:Hcan; cbn [negb].
    + right. apply can_cancel_iff in Hcan. exists order. repeat split; [assumption| |].
      * apply valid_transitions_table. now destruct Hcan as [-> | ->].
      * destruct (orders.restore_stock _ _); [right | now left].
        exists (Order.set_cancellation_reason (Order.set_status order "cancelled")
                  (default "Customer requested cancellation" reason)).
        repeat split; reflexivity.
    + left. exists order. repeat split.
      intros Hs. apply can_cancel_iff in Hs. congruence.
Qed.

(** The examples of the specification: a delivered order cannot be
    cancelled by either side; a ready order can be delivered, which stamps
    [delivered_at], adds one history row and moves no stock. *)
Example delivered_stays_delivered :
  baker.update_order_status 1 Scenario.now 1 (Some "cancelled") None (Desk.shop "delivered")
    = (Desk.shop "delivered", [(text "Invalid status transition.", "danger")],
       redirect "baker.order_detail") /\
  orders.cancel_order 7 "LC202405142301A1B2C3" None (Desk.shop "delivered")
    = (Desk.shop "delivered", [(text "This order cannot be cancelled.", "danger")],
       redirect_order "orders.order_detail" "LC202405142301A1B2C3").
Proof. split; reflexivity. Qed.

Example ready_to_delivered :
  let d' := (baker.update_order_status 1 Scenario.now 1 (Some "delivered") None
               (Desk.shop "ready")).1.1 in
  map (fun o => (Order.status o, Order.delivered_at o)) (orders d')
    = [("delivered", Some Scenario.now)] /\
  order_status_history d' = [OrderStatusHistory.mk 1 "delivered" (Some "")] /\
  map (Shortage.stock_of d') [1; 2] = map (Shortage.stock_of (Desk.shop "ready")) [1; 2].
Proof. vm_compute. repeat split. Qed.

(** ** Discounts *)

Lemma py_min_Qmin a b : Py.min a b = Qmin a b.
Proof.
  unfold Py.min, Py.lt, Qmin, GenericMinMax.gmin.
  rewrite <- (Qcompare_antisym a b). now destruct (a ?= b)%Q.
Qed.

(** C4, as stated, fails: a percentage coupon is not bounded by the
    subtotal; one hundred and fifty percent of 100 is 150. *)
Lemma calculate_discount_not_as_stated :
  (Coupon.calculate_discount DiscountSpec.one_and_a_half 100 == 150)%Q /\
  ~ (Coupon.calculate_discount DiscountSpec.one_and_a_half 100 <= 100)%Q.
Proof. split; [reflexivity|]. vm_compute. intros H. now apply H. Qed.

(** C4, amended: for a coupon as the forms store it, [calculate_discount]
    returns the percentage of the subtotal, capped at [max_discount] when
    that is present, for percentage coupons, and the smaller of
    [discount_value] and the subtotal for all others; the discount of a
    fixed coupon never exceeds the subtotal, and that of a percentage coupon
    never exceeds its [max_discount] when that is present; ten percent
    capped at 100 on a subtotal of 2000 is 100. *)
Theorem calculate_discount_amended c subtotal :
  (DiscountSpec.as_stored c ->
   Coupon.calculate_discount c subtotal = DiscountSpec.stated c subtotal) /\
  (Coupon.discount_type c <> "percentage" ->
   Coupon.calculate_discount c subtotal = Qmin (Coupon.discount_value c) subtotal /\
   (Coupon.calculate_discount c subtotal <= subtotal)%Q /\
   (Coupon.calculate_discount c subtotal <= Coupon.discount_value c)%Q) /\
  (Coupon.discount_type c = "percentage" -> DiscountSpec.as_stored c ->
   forall cap, Coupon.max_discount c = Some cap ->
     Coupon.calculate_discount c subtotal
       = Qmin (subtotal * Coupon.discount_value c / 100) cap /\
     (Coupon.calculate_discount c subtotal <= cap)%Q) /\
  (Coupon.discount_type c = "percentage" -> Coupon.max_discount c = None ->
   Coupon.calculate_discount c subtotal = (subtotal * Coupon.discount_value c / 100)%Q) /\
  Coupon.calculate_discount Scenario.ten_percent 2000 = 100%Q.
Proof.
  assert (Htruthy : forall cap, ~ (cap == 0)%Q -> Py.truthy cap = true).
  { intros cap Hcap. unfold Py.truthy. destruct (Qeq_bool cap 0) eqn:E; [|reflexivity].
    apply Qeq_bool_iff in E. contradiction. }
  split; [|split; [|split; [|split; [|reflexivity]]]].
  - intros Hstored. unfold Coupon.calculate_discount, DiscountSpec.stated,
      DiscountSpec.percentage_of.
    destruct (String.eqb _ _); [|apply py_min_Qmin].
    destruct (Coupon.max_discount c) as [cap|] eqn:Hcap; [|reflexivity].
    rewrite (Htruthy cap (Hstored cap Hcap)). apply py_min_Qmin.
  - intros Htype. unfold Coupon.calculate_discount.
    destruct (String.eqb_spec (Coupon.discount_type c) "percentage"); [contradiction|].
    rewrite py_min_Qmin. split; [reflexivity|]. split; [apply Q.le_min_r | apply Q.le_min_l].
  - intros Htype Hstored cap Hcap. unfold Coupon.calculate_discount.
    rewrite Htype, Hcap. cbn [String.eqb Ascii.eqb Bool.eqb].
    rewrite (Htruthy cap (Hstored cap Hcap)), py_min_Qmin.
    split; [reflexivity | apply Q.le_min_r].
  - intros Htype Hcap. unfold Coupon.calculate_discount.
    rewrite Htype, Hcap. reflexivity.
Qed.

Lemma calculate_discount_amended_witness :
  Coupon.calculate_discount Scenario.ten_percent 2000
    = DiscountSpec.stated Scenario.ten_percent 2000 /\
  (Coupon.calculate_discount Scenario.ten_percent 2000
     = Qmin (2000 * Coupon.discount_value Scenario.ten_percent / 100) 100 /\
   (Coupon.calculate_discount Scenario.ten_percent 2000 <= 100)%Q) /\
  Coupon.calculate_discount Scenario.ten_percent 2000 = 100%Q.
Proof.
  assert (Hstored : DiscountSpec.as_stored Scenario.ten_percent)
    by (intros cap [= <-]; discriminate).
  destruct (calculate_discount_amended Scenario.ten_percent 2000) as (H1 & _ & H3 & _ & H5).
  split; [exact (H1 Hstored)|]. split; [|exact H5].
  exact (H3 eq_refl Hstored 100%Q eq_refl).
Defined.

(** ** Coupon validation *)

Lemma py_lt_negb_le a b : Py.lt a b = negb (Qle_bool b a).
Proof.
  unfold Py.lt. destruct (Qle_bool b a) eqn:Hle.
  - apply Qle_bool_iff in Hle. destruct (a ?= b)%Q eqn:Hc; try reflexivity.
    apply Qlt_alt in Hc. exfalso. apply (Qlt_not_le _ _ Hc Hle).
  - destruct (a ?= b)%Q eqn:Hc; try reflexivity; exfalso.
    + apply Qeq_alt in Hc. assert (Qle_bool b a = true); [|congruence].
      apply Qle_bool_iff. rewrite Hc. apply Qle_refl.
    + apply Qgt_alt in Hc. assert (Qle_bool b a = true); [|congruence].
      apply Qle_bool_iff. now apply Qlt_le_weak.
Qed.

Lemma scope_check (mine theirs : option Z) :
  Py.truthyZ_opt mine && Py.truthyZ_opt theirs && negb (bool_decide (mine = theirs))
  = negb match mine, theirs with
         | Some a, Some b => (a =? 0) || (b =? 0) || (a =? b)
         | _, _ => true
         end.
Proof.
  destruct mine as [a|], theirs as [b|]; simpl; try reflexivity.
  - destruct (Z.eqb_spec a 0), (Z.eqb_spec b 0); simpl; try reflexivity.
    destruct (Z.eqb_spec a b) as [->|Hne].
    + now rewrite bool_decide_eq_true_2.
    + rewrite bool_decide_eq_false_2; [reflexivity | congruence].
  - now destruct (a =? 0).
Qed.

(** C6: [is_valid] answers with the first failing check in the order
    active, window opened, window not closed, uses left, minimum reached,
    bakery in scope, and with "Coupon is valid" when none fails.  It returns
    only this verdict: a coupon that fails validation at checkout leaves the
    coupons table, and so every [used_count], as it was. *)
Theorem is_valid_first_failing_check c now order_amount bakery code b coupons :
  Coupon.is_valid c now order_amount bakery
    = ValiditySpec.first_failure (ValiditySpec.checks c now order_amount bakery) /\
  (List.find (fun x => String.eqb (Coupon.code x) (Py.upper code)) coupons = Some c ->
   (Coupon.is_valid c now order_amount (Some b)).1 = false ->
   (orders.apply_coupon now code order_amount b coupons).1.1 = coupons).
Proof.
  split.
  - unfold Coupon.is_valid, ValiditySpec.checks, ValiditySpec.first_failure,
      ValiditySpec.active, ValiditySpec.opened, ValiditySpec.not_closed,
      ValiditySpec.uses_left, ValiditySpec.reaches_minimum, ValiditySpec.in_scope.
    rewrite scope_check, py_lt_negb_le.
    destruct (Coupon.is_active c); cbn [negb]; [|reflexivity].
    destruct (Coupon.valid_from c) as [start|];
      [destruct (datetime.lt now start); cbn [negb]; [reflexivity|] |];
      (destruct (Coupon.valid_until c) as [stop|];
       [destruct (datetime.lt stop now); cbn [negb]; [reflexivity|] |]);
      (destruct (Coupon.usage_limit c) as [limit|];
       [ rewrite Z.geb_leb;
         destruct (Z.eqb_spec limit 0), (Z.leb_spec limit (Coupon.used_count c)),
           (Z.ltb_spec (Coupon.used_count c) limit); cbn [negb andb orb]; try lia;
         try reflexivity | ]);
      (destruct (Qle_bool _ _); cbn [negb]; [|reflexivity]);
      match goal with |- context [negb ?x] => now destruct x end.
  - intros Hfind Hinvalid. unfold orders.apply_coupon.
    destruct (nonempty code); [|reflexivity]. rewrite Hfind.
    destruct (Coupon.is_valid c now order_amount (Some b)) as [ok why].
    simpl in Hinvalid. now subst ok.
Qed.

Lemma is_valid_first_failing_check_witness :
  Coupon.is_valid Scenario.inactive Scenario.now 445 (Some 1)
    = (false, text "Coupon is not active") /\
  (orders.apply_coupon Scenario.now "old10" 445 1 (coupons Scenario.shop)).1.1
    = coupons Scenario.shop.
Proof.
  destruct (is_valid_first_failing_check Scenario.inactive Scenario.now 445 (Some 1)
              "old10" 1 (coupons Scenario.shop)) as [H1 H2].
  split; [rewrite H1; reflexivity | apply H2; reflexivity].
Defined.

(** A coupon that fails every check is told about the first one only. *)
Example is_valid_reports_first_failure :
  Coupon.is_valid ValiditySpec.hopeless Scenario.now 445 (Some 1)
    = (false, text "Coupon is not active") /\
  Coupon.is_valid (Coupon.mk 5 (Some 9) "NOPE" "fixed" 50 1000 None (Some 1) 1 None
                     (Some (datetime.mk 2020 1 1 0 0 0 0)) true) Scenario.now 445 (Some 1)
    = (false, text "Coupon has expired") /\
  Coupon.is_valid (Coupon.mk 5 (Some 9) "NOPE" "fixed" 50 1000 None (Some 1) 1 None
                     None true) Scenario.now 445 (Some 1)
    = (false, text "Coupon usage limit reached") /\
  Coupon.is_valid (Coupon.mk 5 (Some 9) "NOPE" "fixed" 50 1000 None None 1 None
                     None true) Scenario.now 445 (Some 1)
    = (false, minimum_order_amount_is 1000) /\
  Coupon.is_valid (Coupon.mk 5 (Some 9) "NOPE" "fixed" 50 0 None None 1 None
                     None true) Scenario.now 445 (Some 1)
    = (false, text "Coupon is not valid for this bakery").
Proof. repeat split. Qed.

(** ** Ratings *)

Lemma sumZ_from (l : list Z) (a : Z) : fold_left Z.add l a = a + RatingSpec.total l.
Proof.
  revert a. induction l as [|x l IH]; intros a; simpl; [lia|]. rewrite IH. lia.
Qed.

Lemma visible_ratings_filter b reviews :
  RatingSpec.visible_ratings b reviews
  = map Review.rating
      (List.filter (fun r => (Review.bakery_id r =? b) && Review.is_visible r) reviews).
Proof.
  induction reviews as [|r reviews IH]; [reflexivity|]. simpl. rewrite IH.
  destruct (Z.eqb_spec (Review.bakery_id r) b), (Review.is_visible r); simpl;
    case_decide; try reflexivity; intuition congruence.
Qed.

(** C8: [update_rating] sets [total_reviews] to the number of visible
    reviews of the bakery and [rating] to the arithmetic mean of their
    ratings, and both to zero when there is none.  With visible ratings 5, 4
    and 3 that is 4 and 3; once the review rated 3 is hidden it is 4.5 and 2. *)
Theorem update_rating_mean (self : Bakery.t) (table : list Review.t) :
  let ratings := RatingSpec.visible_ratings (Bakery.id self) table in
  let updated := Bakery.update_rating self table in
  Bakery.total_reviews updated = Z.of_nat (length ratings) /\
  (ratings = [] -> Bakery.rating updated = 0%Q) /\
  (ratings <> [] -> RatingSpec.is_mean (Bakery.rating updated) ratings) /\
  (exists r, RatingSpec.rated
               (set_bakeries RatingSpec.shop
                  (<[1 := Bakery.update_rating Scenario.the_bakery (reviews RatingSpec.shop)]>
                     (bakeries RatingSpec.shop))) = Some (r, 3) /\ (r == 4)%Q) /\
  (exists r, RatingSpec.rated (admin.toggle_review 5 RatingSpec.shop).1.1 = Some (r, 2)
             /\ (r == 4.5)%Q).
Proof.
  cbv zeta. rewrite visible_ratings_filter. unfold Bakery.update_rating.
  set (visible := List.filter _ table).
  repeat split.
  - destruct visible; [reflexivity|]. simpl Bakery.total_reviews. now rewrite length_map.
  - destruct visible; [reflexivity | discriminate].
  - intros Hne. destruct visible as [|r rest] eqn:E; [contradiction|]. rewrite <- E.
    unfold RatingSpec.is_mean. simpl Bakery.rating. rewrite length_map.
    unfold Py.sumZ. rewrite sumZ_from, Z.add_0_l.
    field. unfold inject_Z, Qeq. simpl. rewrite E. simpl length. lia.
  - eexists. split; [vm_compute; reflexivity | reflexivity].
  - eexists. split; [vm_compute; reflexivity | reflexivity].
Qed.

Lemma update_rating_mean_witness :
  let ratings := RatingSpec.visible_ratings 1 (reviews RatingSpec.shop) in
  let updated := Bakery.update_rating Scenario.the_bakery (reviews RatingSpec.shop) in
  ratings = [5; 4; 3] /\ Bakery.total_reviews updated = 3 /\
  RatingSpec.is_mean (Bakery.rating updated) ratings.
Proof.
  cbv zeta.
  destruct (update_rating_mean Scenario.the_bakery (reviews RatingSpec.shop))
    as (H1 & _ & H3 & _).
  split; [reflexivity|]. split; [exact H1|]. apply H3. discriminate.
Defined.

(** ** Rejections of [checkout] *)

Lemma apply_coupon_invalid now code subtotal b coupons :
  (forall c, List.find (fun x => String.eqb (Coupon.code x) (Py.upper code)) coupons = Some c ->
             (Coupon.is_valid c now subtotal (Some b)).1 = false) ->
  exists warnings, orders.apply_coupon now code subtotal b coupons = (coupons, 0%Q, warnings).
Proof.
  intros H. unfold orders.apply_coupon.
  destruct (nonempty code); [|now eexists].
  destruct (List.find _ coupons) as [c|]; [|now eexists].
  specialize (H c eq_refl).
  destruct (Coupon.is_valid c now subtotal (Some b)) as [ok why].
  simpl in H. subst ok. now eexists.
Qed.

Lemma apply_coupon_none now subtotal b coupons :
  orders.apply_coupon now "" subtotal b coupons = (coupons, 0%Q, []).
Proof. reflexivity. Qed.

Lemma user_cart_deleted (user : Z) (table : list CartItem.t) :
  List.filter (fun c => CartItem.user_id c =? user)
    (List.filter (fun c => negb (CartItem.user_id c =? user)) table) = [].
Proof.
  induction table as [|c table IH]; [reflexivity|]. simpl.
  destruct (CartItem.user_id c =? user) eqn:E; simpl; [exact IH | now rewrite E].
Qed.

Lemma add_order_items_runs oid cart :
  forall (m : gmap Z Product.t) s,
    Forall (fun c => is_Some (m !! CartItem.product_id c)) cart ->
    is_Some (orders.add_order_items oid cart m s).
Proof.
  induction cart as [|c rest IH]; intros m s Hall; simpl; [now eexists|].
  apply Forall_cons in Hall as [[p Hp] Hrest]. unfold CartItem.product. rewrite Hp.
  apply IH. eapply List.Forall_impl; [|exact Hrest]. intros j Hj. cbv beta in Hj |- *.
  destruct (decide (CartItem.product_id c = CartItem.product_id j)) as [E|Hne].
  - rewrite E, lookup_insert_eq. now eexists.
  - now rewrite lookup_insert_ne.
Qed.

(** A POST that passes the cart, minimum and address checks, with every
    product of the cart on file and an order number that is not taken, is
    answered with the order confirmation. *)
Lemma checkout_proceeds user now uuid4 form d :
  ~ CheckoutSpec.empty_cart user d ->
  is_Some (CheckoutSpec.cart_bakery user d) ->
  ~ CheckoutSpec.below_minimum user d ->
  orders.method form = "POST" ->
  CheckoutSpec.own_address user d (orders.address_id form) ->
  CheckoutSpec.products_listed user d ->
  CheckoutSpec.number_free d now uuid4 ->
  exists d' fl,
    orders.checkout user now uuid4 form d
    = (d', fl, redirect_order "orders.order_confirmation"
                 (Order.generate_order_number now uuid4)).
Proof.
  intros Hne [bakery Hb] Hmin Hpost (a & x & Ha & Hx & Hid & Hu) Hlisted Hfree.
  unfold CheckoutSpec.empty_cart in Hne.
  unfold CheckoutSpec.below_minimum, CheckoutSpec.cart_bakery, CheckoutSpec.cart_subtotal in *.
  unfold CheckoutSpec.products_listed in Hlisted.
  unfold orders.checkout.
  destruct (orders.user_cart user d) as [|first rest] eqn:Hcart; [contradiction|].
  unfold CartItem.product at 1. rewrite Hb.
  destruct (Py.lt _ (Bakery.min_order_amount bakery)) eqn:Hlt.
  { exfalso. apply Hmin. exists bakery. split; [exact Hb|]. apply py_lt_iff. exact Hlt. }
  rewrite Hpost. cbn [String.eqb Ascii.eqb Bool.eqb]. rewrite Ha. cbn [mbind option_bind].
  destruct (List.find _ (addresses d)) as [address|] eqn:Hfind.
  2:{ exfalso. apply (find_none _ _ Hfind) in Hx. rewrite Hid, Hu, !Z.eqb_refl in Hx.
      discriminate Hx. }
  destruct (orders.apply_coupon now _ _ _ _) as [[coupons' discount] warnings].
  cbn [Order.order_number].
  destruct (existsb _ (orders d)) eqn:Htaken.
  { exfalso. apply existsb_exists in Htaken as (o & Ho & Heq).
    apply String.eqb_eq in Heq. apply Hfree. rewrite <- Heq. now apply in_map. }
  cbn [Order.id].
  destruct (add_order_items_runs (next_id (map Order.id (orders d))) (first :: rest)
              (products d) [] Hlisted) as [[products' items] Hitems].
  rewrite Hitems. now eexists _, _.
Qed.

(** C5: with an empty cart, with a subtotal below the bakery's minimum or
    with an address id that is not the actor's, [checkout] commits nothing
    and confirms no order.  With a coupon code (of ASCII characters) that is
    invalid it commits and answers exactly as it does without a coupon
    code; and where the request passes those three checks, with every
    product of the cart on file and an order number that is not taken, it
    does not fail: it confirms the order, which it adds with the cart's
    subtotal, the bakery's fee, discount 0 and total subtotal + fee - 0,
    with one item per cart row, counts no use of any coupon and empties the
    cart. *)
Theorem checkout_rejections user now uuid4 form d :
  (CheckoutSpec.empty_cart user d ->
   orders.checkout user now uuid4 form d
     = (d, [(text "Your cart is empty.", "warning")], redirect "cart.view_cart")) /\
  (CheckoutSpec.empty_cart user d \/ CheckoutSpec.below_minimum user d
   \/ ~ CheckoutSpec.own_address user d (orders.address_id form) ->
   exists fl r, orders.checkout user now uuid4 form d = (d, fl, r) /\
                forall e n, r <> redirect_order e n) /\
  (Py.isascii (default "" (orders.coupon_code form)) = true ->
   CheckoutSpec.invalid_coupon user d now (default "" (orders.coupon_code form)) ->
   let result := orders.checkout user now uuid4 form d in
   let plain := orders.checkout user now uuid4 (CheckoutSpec.without_coupon form) d in
   result.1.1 = plain.1.1 /\ result.2 = plain.2 /\
   (forall o, In o (orders result.1.1) -> ~ In o (orders d) -> Order.discount o = 0%Q) /\
   (~ CheckoutSpec.empty_cart user d ->
    is_Some (CheckoutSpec.cart_bakery user d) ->
    ~ CheckoutSpec.below_minimum user d ->
    orders.method form = "POST" ->
    CheckoutSpec.own_address user d (orders.address_id form) ->
    CheckoutSpec.products_listed user d ->
    CheckoutSpec.number_free d now uuid4 ->
    exists bakery order items,
      CheckoutSpec.cart_bakery user d = Some bakery /\
      result.2 = redirect_order "orders.order_confirmation"
                   (Order.generate_order_number now uuid4) /\
      orders result.1.1 = (orders d ++ [order])%list /\
      Order.order_number order = Order.generate_order_number now uuid4 /\
      Order.customer_id order = user /\
      Order.bakery_id order = Bakery.id bakery /\
      orders.address_id form = Some (Order.delivery_address_id order) /\
      Order.subtotal order = CheckoutSpec.cart_subtotal user d /\
      Order.delivery_fee order = Bakery.delivery_fee bakery /\
      Order.discount order = 0%Q /\
      Order.total_amount order
        = (CheckoutSpec.cart_subtotal user d + Bakery.delivery_fee bakery - 0)%Q /\
      Order.status order = "pending" /\
      order_items result.1.1 = (order_items d ++ items)%list /\
      Forall2 (snapshot_of (products d) (Order.id order)) (orders.user_cart user d) items /\
      coupons result.1.1 = coupons d /\
      orders.user_cart user result.1.1 = [])).
Proof.
  split; [|split].
  - unfold CheckoutSpec.empty_cart, orders.checkout. now intros ->.
  - intros Hcase.
    destruct (orders.checkout user now uuid4 form d) as [[d' fl] r] eqn:H.
    apply checkout_cases in H as [[-> Hr]|H]; [now exists fl, r|].
    exfalso.
    destruct H as (bakery & address & coupons' & discount & warnings & products' & items
                   & order & H).
    cbv zeta in H.
    destruct H as (Hcart & Hbakery & Hmin & _ & Haid & Hin & Huser & _).
    destruct Hcase as [Hempty | [(bakery' & Hb & Hlt) | Haddr]].
    + contradiction.
    + rewrite Hbakery in Hb. injection Hb as <-.
      apply py_lt_iff in Hlt. unfold CheckoutSpec.cart_subtotal in Hlt.
      change (map (line_price (products d))) with (map (CartItem.subtotal (products d))) in Hlt.
      congruence.
    + apply Haddr. now exists (Address.id address), address.
  - intros _ Hinv. cbv zeta.
    split; [|split; [|split]].
    4:{ intros Hne Hsome Hmin Hpost Haddr Hlisted Hfree.
        destruct (checkout_proceeds user now uuid4 form d Hne Hsome Hmin Hpost Haddr
                    Hlisted Hfree) as (d' & fl & Hc).
        rewrite Hc. cbn [fst snd].
        apply checkout_cases in Hc as [[_ Hr]|Hc]; [now destruct (Hr _ _ eq_refl)|].
        destruct Hc as (bakery & address & coupons' & discount & warnings & products' & items
                        & order & Hc).
        cbv zeta in Hc.
        destruct Hc as (_ & Hbakery & _ & _ & Haid & _ & _ & Hcoupon & Horder & Hitems
                        & _ & Hcoupons & Horders & Hoi & _ & Hcart & _).
        destruct (apply_coupon_invalid now (default "" (orders.coupon_code form))
                    (Py.sum (map (CartItem.subtotal (products d)) (orders.user_cart user d)))
                    (Bakery.id bakery) (coupons d)) as [w Hw].
        { intros c Hfind. exact (Hinv c bakery Hfind Hbakery). }
        rewrite Hw in Hcoupon. injection Hcoupon as <- <- _.
        apply (add_order_items_snapshots _ _ (products d)) in Hitems as (items' & E & Hsnap);
          [|intros k; apply option_stock_moved_refl].
        simpl in E. subst items'.
        exists bakery, order, items.
        split; [exact Hbakery|]. split; [reflexivity|]. split; [exact Horders|].
        rewrite Horder. cbn [Order.order_number Order.customer_id Order.bakery_id
          Order.delivery_address_id Order.subtotal Order.delivery_fee Order.discount
          Order.total_amount Order.status Order.id].
        split; [reflexivity|]. split; [reflexivity|]. split; [reflexivity|].
        split; [exact Haid|]. split; [reflexivity|]. split; [reflexivity|].
        split; [reflexivity|]. split; [reflexivity|]. split; [reflexivity|].
        split; [exact Hoi|]. split; [rewrite Horder in Hsnap; exact Hsnap|].
        split; [exact Hcoupons|].
        unfold orders.user_cart. rewrite Hcart. apply user_cart_deleted. }
    all: unfold CheckoutSpec.invalid_coupon, CheckoutSpec.cart_bakery,
      CheckoutSpec.cart_subtotal in Hinv.
    all: unfold orders.checkout, raise, CheckoutSpec.without_coupon.
    all: cbn [orders.method orders.address_id orders.payment_method
         orders.special_instructions orders.coupon_code default].
    all: destruct (orders.user_cart user d) as [|first rest] eqn:Hcart;
      [first [reflexivity | intros o Ho Hn; contradiction]|].
    all: unfold CartItem.product.
    all: destruct (products d !! CartItem.product_id first ≫= _) as [bakery|] eqn:Hb;
      [|first [reflexivity | intros o Ho Hn; contradiction]].
    all: destruct (Py.lt _ _); [first [reflexivity | intros o Ho Hn; contradiction]|].
    all: destruct (String.eqb _ "POST"); [|first [reflexivity | intros o Ho Hn; contradiction]].
    all: destruct (orders.address_id form ≫= _) as [address|];
      [|first [reflexivity | intros o Ho Hn; contradiction]].
    all: rewrite ?apply_coupon_none.
    all: match goal with
    | |- context [orders.apply_coupon ?t ?code ?s ?b ?cs] =>
        destruct (apply_coupon_invalid t code s b cs) as [w Hw];
          [intros c Hc; exact (Hinv c bakery Hc eq_refl) | rewrite Hw]
    end.
    all: destruct (existsb _ (orders d)); [first [reflexivity | intros o Ho Hn; contradiction]|].
    all: destruct (orders.add_order_items _ _ _ _) as [[products' items]|];
      [|first [reflexivity | intros o Ho Hn; contradiction]].
    all: cbn [fst snd orders]; try reflexivity.
    intros o Ho Hn. apply in_app_or in Ho as [Ho|[<-|[]]]; [contradiction | reflexivity].
Qed.

Lemma checkout_rejections_witness :
  orders.checkout Scenario.customer Scenario.now Scenario.uuid4 Scenario.form EmptyCart.shop
    = (EmptyCart.shop, [(text "Your cart is empty.", "warning")], redirect "cart.view_cart") /\
  (exists fl r,
     orders.checkout Scenario.customer Scenario.now Scenario.uuid4
       (orders.mk_checkout_form "POST" (Some 2) None None None) Scenario.shop
     = (Scenario.shop, fl, r) /\ forall e n, r <> redirect_order e n) /\
  (let result := orders.checkout Scenario.customer Scenario.now Scenario.uuid4
                   (CheckoutSpec.with_code "old10") Scenario.shop in
   result.1.1 = Scenario.placed /\
   exists order,
     result.2 = redirect_order "orders.order_confirmation" "LC202405142301A1B2C3" /\
     orders result.1.1 = [order] /\
     Order.subtotal order = CheckoutSpec.cart_subtotal Scenario.customer Scenario.shop /\
     Order.discount order = 0%Q /\
     coupons result.1.1 = coupons Scenario.shop /\
     orders.user_cart Scenario.customer result.1.1 = []).
Proof.
  split; [|split].
  - apply (checkout_rejections Scenario.customer Scenario.now Scenario.uuid4 Scenario.form
             EmptyCart.shop). reflexivity.
  - apply (checkout_rejections Scenario.customer Scenario.now Scenario.uuid4
             (orders.mk_checkout_form "POST" (Some 2) None None None) Scenario.shop).
    right. right. intros (a & x & Ha & Hx & Hid & _).
    injection Ha as <-. simpl in Hx. destruct Hx as [<-|[]]. discriminate Hid.
  - cbv zeta.
    destruct (checkout_rejections Scenario.customer Scenario.now Scenario.uuid4
                (CheckoutSpec.with_code "old10") Scenario.shop) as (_ & _ & H).
    destruct H as (Hplain & _ & _ & Hplaced).
    + reflexivity.
    + intros c bakery Hc Hb. vm_compute in Hc, Hb.
      injection Hc as <-. injection Hb as <-. reflexivity.
    + split; [exact Hplain|].
      destruct Hplaced as (bakery & order & items & _ & Hr & Horders & _ & _ & _ & _ & Hsub
                           & _ & Hdisc & _ & _ & _ & _ & Hcoupons & Hcart).
      * discriminate.
      * now eexists.
      * intros (b & Hb & Hlt). vm_compute in Hb. injection Hb as <-. vm_compute in Hlt.
        discriminate Hlt.
      * reflexivity.
      * exists 1, (Address.mk 1 Scenario.customer). repeat split. now left.
      * unfold CheckoutSpec.products_listed. vm_compute. repeat constructor; now eexists.
      * unfold CheckoutSpec.number_free. vm_compute. now intros [].
      * exists order. split; [exact Hr|]. split; [exact Horders|]. split; [exact Hsub|].
        split; [exact Hdisc|]. split; [exact Hcoupons | exact Hcart].
Defined.

(** With a valid code the same checkout takes the discount and counts the use. *)
Example checkout_with_valid_coupon :
  let d' := (orders.checkout Scenario.customer Scenario.now Scenario.uuid4
               (CheckoutSpec.with_code "save10") Scenario.shop).1.1 in
  map (fun o => (Qred (Order.discount o), Qred (Order.total_amount o))) (orders d')
    = [((89 # 2)%Q, (861 # 2)%Q)] /\
  map Coupon.used_count (coupons d') = [1; 0].
Proof. vm_compute. repeat split. Qed.

(** ** Decrement, then restore *)

Lemma restock_restock a b p : restock b (restock a p) = restock (a + b) p.
Proof.
  unfold restock, Product.set_stock_quantity. destruct p; simpl. f_equal. lia.
Qed.

Lemma restock_zero p : restock 0 p = p.
Proof.
  unfold restock, Product.set_stock_quantity. destruct p; simpl. f_equal. apply Z.add_0_r.
Qed.

Lemma lookup_restock_insert (m : gmap Z Product.t) i p a b k :
  m !! i = Some p ->
  restock ((if i =? k then a else 0) + b) <$> m !! k
  = restock b <$> <[i := restock a p]> m !! k.
Proof.
  intros Hp. destruct (Z.eqb_spec i k) as [->|Hne].
  - rewrite lookup_insert_eq, Hp. simpl. now rewrite restock_restock.
  - rewrite lookup_insert_ne by assumption. now rewrite Z.add_0_l.
Qed.

(** With enough stock at every step the loop takes off each product
    exactly what the cart orders of it. *)
Lemma add_order_items_debits oid cart :
  forall (m : gmap Z Product.t) s m' s',
    all_in_stock cart m ->
    orders.add_order_items oid cart m s = Some (m', s') ->
    forall k, m' !! k = restock (- ordered k (cart_lines cart)) <$> m !! k.
Proof.
  induction cart as [|c rest IH]; intros m s m' s' Hstock H k; simpl in H.
  - injection H as <- <-. simpl. destruct (m !! k) as [p|]; simpl; [|reflexivity].
    now rewrite restock_zero.
  - destruct Hstock as (p & Hp & Hq & Hrest).
    unfold CartItem.product in H. rewrite Hp in H.
    unfold Product.reduce_stock in H.
    destruct (Z.geb_spec (Product.stock_quantity p) (CartItem.quantity c)); [|lia].
    simpl fst in H. rewrite (IH _ _ _ _ Hrest H k). simpl.
    replace (- ((if CartItem.product_id c =? k then CartItem.quantity c else 0)
                + ordered k (cart_lines rest)))
      with ((if CartItem.product_id c =? k then - CartItem.quantity c else 0)
            + - ordered k (cart_lines rest))
      by (destruct (CartItem.product_id c =? k); lia).
    symmetry. apply (lookup_restock_insert m _ p (- CartItem.quantity c)). exact Hp.
Qed.

(** The loop of [cancel_order] adds to each product what the items hold of it. *)
Lemma restore_stock_credits items :
  forall (m m' : gmap Z Product.t),
    orders.restore_stock items m = Some m' ->
    forall k, m' !! k = restock (ordered k (item_lines items)) <$> m !! k.
Proof.
  induction items as [|i rest IH]; intros m m' H k; simpl in H.
  - injection H as <-. simpl. destruct (m !! k) as [p|]; simpl; [|reflexivity].
    now rewrite restock_zero.
  - destruct (m !! OrderItem.product_id i) as [p|] eqn:Hp; [|discriminate].
    rewrite (IH _ _ H k). simpl. symmetry.
    apply (lookup_restock_insert m _ p (OrderItem.quantity i)). exact Hp.
Qed.

Lemma restore_stock_runs items :
  forall (m : gmap Z Product.t),
    Forall (fun i => is_Some (m !! OrderItem.product_id i)) items ->
    is_Some (orders.restore_stock items m).
Proof.
  induction items as [|i rest IH]; intros m Hall; simpl; [now eexists|].
  apply Forall_cons in Hall as [[p Hp] Hrest]. rewrite Hp. apply IH.
  eapply List.Forall_impl; [|exact Hrest]. intros j Hj. simpl in Hj.
  destruct (decide (OrderItem.product_id i = OrderItem.product_id j)) as [E|Hne].
  - rewrite E, lookup_insert_eq. now eexists.
  - now rewrite lookup_insert_ne.
Qed.

Lemma snapshot_lines (m : gmap Z Product.t) oid cart items :
  Forall2 (snapshot_of m oid) cart items -> item_lines items = cart_lines cart.
Proof.
  induction 1 as [|c i cart items (p & _ & _ & Hid & _ & Hq & _) _ IH]; [reflexivity|].
  simpl. now rewrite Hid, Hq, IH.
Qed.

Lemma snapshot_product (m : gmap Z Product.t) oid cart items :
  Forall2 (snapshot_of m oid) cart items ->
  Forall (fun i => is_Some (m !! OrderItem.product_id i)) items.
Proof.
  induction 1 as [|c i cart items (p & Hp & _ & Hid & _) _ IH]; constructor; [|exact IH].
  rewrite Hid, Hp. now eexists.
Qed.

(** X11: where every decrement of the checkout loop succeeded, the loop of
    [cancel_order] over the items it created gives back the products table
    as it was before checkout. *)
Lemma restore_after_debit oid cart (m m' : gmap Z Product.t) items :
  all_in_stock cart m ->
  orders.add_order_items oid cart m [] = Some (m', items) ->
  orders.restore_stock items m' = Some m.
Proof.
  intros Hstock Hadd.
  pose proof (add_order_items_debits _ _ _ _ _ _ Hstock Hadd) as Hdebit.
  destruct (add_order_items_snapshots oid cart m m [] m' items
              (fun k => option_stock_moved_refl _) Hadd) as (items' & E & Hsnap).
  simpl in E. subst items'.
  destruct (restore_stock_runs items m') as [m'' Hrestore].
  { eapply List.Forall_impl; [|exact (snapshot_product _ _ _ _ Hsnap)].
    intros i [p Hp]. rewrite Hdebit, Hp. now eexists. }
  rewrite Hrestore. f_equal. apply map_eq. intros k.
  rewrite (restore_stock_credits _ _ _ Hrestore k), Hdebit.
  rewrite (snapshot_lines _ _ _ _ Hsnap).
  destruct (m !! k) as [p|]; simpl; [|reflexivity].
  rewrite restock_restock, Z.add_opp_diag_l. now rewrite restock_zero.
Qed.

(** * Further properties of the sources *)

(** ** Primary keys *)

Lemma next_id_above (ids : list Z) : forall i, In i ids -> i < next_id ids.
Proof.
  unfold next_id. induction ids as [|x ids IH]; intros i Hi; [destruct Hi|].
  simpl. destruct Hi as [<-|Hi]; [lia|]. specialize (IH i Hi). lia.
Qed.

Lemma next_id_fresh (ids : list Z) : ~ In (next_id ids) ids.
Proof. intros H. apply next_id_above in H. lia. Qed.

Lemma unique_key_row {A} (key : A -> Z) (table : list A) x y :
  List.NoDup (map key table) -> In x table -> In y table -> key x = key y -> x = y.
Proof.
  induction table as [|r table IH]; intros Hnd Hx Hy Hk; [destruct Hx|].
  simpl in Hnd. apply NoDup_cons_iff in Hnd as [Hr Hnd].
  destruct Hx as [<-|Hx], Hy as [<-|Hy]; try reflexivity.
  - exfalso. apply Hr. rewrite Hk. now apply in_map.
  - exfalso. apply Hr. rewrite <- Hk. now apply in_map.
  - now apply IH.
Qed.

(** Under a primary key, writing a row back changes that row only. *)
Lemma write_back_map {A B} (key : A -> Z) (f : A -> B) (row old : A) (table : list A) :
  List.NoDup (map key table) -> In old table -> key row = key old -> f row = f old ->
  map f (write_back key row table) = map f table.
Proof.
  intros Hnd Hold Hk Hf. unfold write_back. rewrite map_map.
  apply map_ext_in. intros x Hx.
  destruct (Z.eqb_spec (key x) (key row)) as [E|_]; [|reflexivity].
  rewrite Hf. f_equal. symmetry. eapply unique_key_row; eauto. congruence.
Qed.

Lemma write_back_filter {A} (key : A -> Z) (keep : A -> bool) (row old : A)
    (table : list A) :
  List.NoDup (map key table) -> In old table -> key row = key old ->
  keep row = false -> keep old = false ->
  List.filter keep (write_back key row table) = List.filter keep table.
Proof.
  intros Hnd Hold Hk Hrow Hkeep.
  assert (Hall : forall x, In x table -> key x = key row -> x = old).
  { intros x Hx E. eapply unique_key_row; eauto. congruence. }
  clear Hnd Hold. unfold write_back.
  induction table as [|x table IH]; [reflexivity|]. simpl.
  destruct (Z.eqb_spec (key x) (key row)) as [E|_].
  - rewrite Hrow. rewrite (Hall x (or_introl eq_refl) E), Hkeep.
    apply IH. intros y Hy. apply Hall. now right.
  - destruct (keep x); [f_equal|]; apply IH; intros y Hy; apply Hall; now right.
Qed.

Lemma filter_filter_other (user other : Z) (table : list CartItem.t) :
  other <> user ->
  List.filter (fun c => CartItem.user_id c =? other)
    (List.filter (fun c => negb (CartItem.user_id c =? user)) table)
  = List.filter (fun c => CartItem.user_id c =? other) table.
Proof.
  intros Hne. induction table as [|c table IH]; [reflexivity|]. simpl.
  destruct (Z.eqb_spec (CartItem.user_id c) user) as [E|_]; simpl.
  - destruct (Z.eqb_spec (CartItem.user_id c) other); [congruence | exact IH].
  - now rewrite IH.
Qed.

Lemma filter_drop_row (other : Z) (found : CartItem.t) (table : list CartItem.t) :
  List.NoDup (map CartItem.id table) -> In found table ->
  CartItem.user_id found <> other ->
  List.filter (fun c => CartItem.user_id c =? other)
    (List.filter (fun c => negb (CartItem.id c =? CartItem.id found)) table)
  = List.filter (fun c => CartItem.user_id c =? other) table.
Proof.
  intros Hnd Hin Hne.
  assert (Hall : forall x, In x table -> CartItem.id x = CartItem.id found -> x = found)
    by (intros x Hx E; eapply unique_key_row; eauto).
  clear Hnd Hin. induction table as [|c table IH]; [reflexivity|]. simpl.
  destruct (Z.eqb_spec (CartItem.id c) (CartItem.id found)) as [E|_]; simpl.
  - rewrite (Hall c (or_introl eq_refl) E).
    destruct (Z.eqb_spec (CartItem.user_id found) other); [contradiction|].
    apply IH. intros y Hy. apply Hall. now right.
  - rewrite IH; [reflexivity|]. intros y Hy. apply Hall. now right.
Qed.

(** ** Prices *)

(** X1: the current price is never above the list price: it is the list price,
    or a discount price that is set, not zero and strictly below it. *)
Theorem current_price_at_most_price (p : Product.t) :
  (Product.current_price p <= Product.price p)%Q /\
  (Product.current_price p = Product.price p \/
   exists d, Product.discount_price p = Some d /\ Product.current_price p = d /\
             (d < Product.price p)%Q /\ ~ (d == 0)%Q).
Proof.
  unfold Product.current_price.
  destruct (Product.discount_price p) as [d|]; [|split; [apply Qle_refl | now left]].
  destruct (Py.truthy d) eqn:Ht; cbn [andb]; [|split; [apply Qle_refl | now left]].
  destruct (Py.lt d (Product.price p)) eqn:Hlt; [|split; [apply Qle_refl | now left]].
  apply py_lt_iff in Hlt. split; [now apply Qlt_le_weak|].
  right. exists d. repeat split; try assumption.
  intros Hz. unfold Py.truthy in Ht. apply Qeq_bool_iff in Hz. now rewrite Hz in Ht.
Qed.

(** ** The cart views *)

Lemma NoDup_map_filter {A} (key : A -> Z) (keep : A -> bool) (table : list A) :
  List.NoDup (map key table) -> List.NoDup (map key (List.filter keep table)).
Proof.
  induction table as [|x table IH]; intros Hnd; [constructor|]. simpl in *.
  apply NoDup_cons_iff in Hnd as [Hx Hnd]. destruct (keep x); [|now apply IH].
  simpl. constructor; [|now apply IH].
  intros Hin. apply Hx. apply in_map_iff in Hin as (y & Hy & Hin).
  apply filter_In in Hin as [Hin _]. rewrite <- Hy. now apply in_map.
Qed.

(** What [add_to_cart] commits: nothing, or the merge of the product into
    the cart, or into the cart emptied of the rows of the other bakery. *)
Lemma add_to_cart_cases user form d :
  (cart.add_to_cart user form d).1.1 = d \/
  exists pid product,
    cart.product_id form = Some pid /\ products d !! pid = Some product /\
    ((cart.add_to_cart user form d = cart.store user form product pid (cart_items d) d /\
      forall first rest, cart.user_cart user d = first :: rest ->
        exists other, products d !! CartItem.product_id first = Some other /\
                      Product.bakery_id other = Product.bakery_id product) \/
     cart.add_to_cart user form d
       = cart.store user form product pid (cart.delete_user_cart user (cart_items d)) d).
Proof.
  unfold cart.add_to_cart, raise. cbv zeta.
  destruct (String.eqb _ "GET"); [now left|].
  destruct (cart.product_id form) as [pid|]; [|now left].
  destruct (products d !! pid) as [product|] eqn:Hp; [|now left].
  destruct (Product.is_available product); cbn [negb]; [|now left].
  destruct (bakeries d !! _) as [bakery|]; [|now left].
  destruct (Bakery.is_approved bakery); cbn [negb]; [|now left].
  destruct (cart.user_cart user d) as [|existing rest] eqn:Hcart.
  { right. exists pid, product. split; [reflexivity|]. split; [exact Hp|].
    left. split; [reflexivity | discriminate]. }
  unfold CartItem.product.
  destruct (products d !! CartItem.product_id existing) as [other|] eqn:Ho; [|now left].
  destruct (Z.eqb_spec (Product.bakery_id other) (Product.bakery_id product)) as [E|_];
    cbn [negb].
  - right. exists pid, product. split; [reflexivity|]. split; [exact Hp|].
    left. split; [reflexivity|].
    intros first rest' [= <- <-]. now exists other.
  - destruct (nonempty _); cbn [negb]; [|now left].
    right. exists pid, product. split; [reflexivity|]. split; [exact Hp|]. now right.
Qed.

Lemma store_cart_items user form product pid table d :
  cart_items (cart.store user form product pid table d).1.1
  = match List.find (fun c => (CartItem.user_id c =? user)
                              && (CartItem.product_id c =? pid)) table with
    | Some found =>
        write_back CartItem.id
          (CartItem.set_special_instructions
             (CartItem.set_quantity found
                (CartItem.quantity found + default 1 (cart.quantity form)))
             (if nonempty (default "" (cart.special_instructions form))
              then default "" (cart.special_instructions form)
              else CartItem.special_instructions found)) table
    | None =>
        (table ++ [CartItem.mk (next_id (map CartItem.id (cart_items d))) user pid
                     (default 1 (cart.quantity form))
                     (default "" (cart.special_instructions form))])%list
    end.
Proof. unfold cart.store. simpl. now destruct (List.find _ table). Qed.

Lemma store_products user form product pid table d :
  products (cart.store user form product pid table d).1.1 = products d.
Proof. reflexivity. Qed.

Lemma user_cart_app user (a b : list CartItem.t) (d : db) :
  cart.user_cart user (set_cart_items d (a ++ b))
  = (cart.user_cart user (set_cart_items d a) ++ cart.user_cart user (set_cart_items d b))%list.
Proof. unfold cart.user_cart. simpl. apply List.filter_app. Qed.

Lemma store_other_carts user other form product pid table d :
  List.NoDup (map CartItem.id table) -> other <> user ->
  List.filter (fun c => CartItem.user_id c =? other)
    (cart_items (cart.store user form product pid table d).1.1)
  = List.filter (fun c => CartItem.user_id c =? other) table.
Proof.
  intros Hnd Hne. rewrite store_cart_items.
  destruct (List.find _ table) as [found|] eqn:Hfind.
  - apply find_some in Hfind as [Hin Hkey]. apply andb_prop in Hkey as [Hu _].
    apply Z.eqb_eq in Hu.
    apply (write_back_filter CartItem.id _ _ found); try assumption; try reflexivity;
      simpl; apply Z.eqb_neq; congruence.
  - rewrite List.filter_app. simpl.
    destruct (Z.eqb_spec user other); [congruence | apply app_nil_r].
Qed.

(** X5: no cart view touches the cart rows of another user (the rows being
    keyed by [id]). *)
Theorem cart_views_leave_other_carts user other form item_id quantity xhr removed d :
  List.NoDup (map CartItem.id (cart_items d)) -> other <> user ->
  cart.user_cart other (cart.add_to_cart user form d).1.1 = cart.user_cart other d /\
  cart.user_cart other (cart.update_cart user item_id quantity xhr d).1.1
    = cart.user_cart other d /\
  cart.user_cart other (cart.remove_from_cart user removed xhr d).1.1
    = cart.user_cart other d /\
  cart.user_cart other (cart.clear_cart user d).1.1 = cart.user_cart other d.
Proof.
  intros Hnd Hne. unfold cart.user_cart. repeat split.
  - destruct (add_to_cart_cases user form d) as [->|(pid & product & _ & _ & [[-> _]| ->])];
      [reflexivity | |].
    + now apply store_other_carts.
    + rewrite store_other_carts; [|now apply NoDup_map_filter|assumption].
      now apply filter_filter_other.
  - unfold cart.update_cart, raise.
    destruct (item_id ≫= _) as [found|] eqn:Hfind; [|reflexivity].
    destruct item_id as [i|]; [|discriminate]. cbn [mbind option_bind] in Hfind.
    apply find_some in Hfind as [Hin Hkey]. apply andb_prop in Hkey as [_ Hu].
    apply Z.eqb_eq in Hu.
    destruct quantity as [q|]; [|reflexivity].
    destruct (q <=? 0); simpl.
    + apply filter_drop_row; try assumption. congruence.
    + apply (write_back_filter CartItem.id _ _ found); try assumption; try reflexivity;
        simpl; apply Z.eqb_neq; congruence.
  - unfold cart.remove_from_cart.
    destruct (List.find _ (cart_items d)) as [found|] eqn:Hfind; [|reflexivity].
    apply find_some in Hfind as [Hin Hkey]. apply andb_prop in Hkey as [_ Hu].
    apply Z.eqb_eq in Hu. simpl.
    apply filter_drop_row; try assumption. congruence.
  - simpl. now apply filter_filter_other.
Qed.

Lemma cart_views_leave_other_carts_witness :
  let mine := [CartItem.mk 2 Neighbours.neighbour 2 4 ""] in
  cart.user_cart Neighbours.neighbour
    (cart.add_to_cart Scenario.customer (Neighbours.form 2 3) Neighbours.shop).1.1 = mine /\
  cart.user_cart Neighbours.neighbour
    (cart.update_cart Scenario.customer (Some 2) (Some 0) false Neighbours.shop).1.1 = mine /\
  cart.user_cart Neighbours.neighbour
    (cart.remove_from_cart Scenario.customer 2 false Neighbours.shop).1.1 = mine /\
  cart.user_cart Neighbours.neighbour (cart.clear_cart Scenario.customer Neighbours.shop).1.1
    = mine.
Proof.
  apply (cart_views_leave_other_carts Scenario.customer Neighbours.neighbour
           (Neighbours.form 2 3) (Some 2) (Some 0) false 2 Neighbours.shop).
  - simpl. repeat (constructor; [simpl; intuition discriminate|]). constructor.
  - discriminate.
Defined.

Lemma Forall_filter_iff {A} (P : A -> Prop) (f : A -> bool) (l : list A) :
  Forall P (List.filter f l) <-> Forall (fun x => f x = true -> P x) l.
Proof.
  rewrite !List.Forall_forall. split.
  - intros H x Hx Hf. apply H. now apply filter_In.
  - intros H x Hx. apply filter_In in Hx as [Hx Hf]. now apply H.
Qed.

Lemma write_back_filter_comm {A} (key : A -> Z) (f : A -> bool) (row old : A)
    (table : list A) :
  (forall x, In x table -> key x = key row -> x = old) -> f row = f old ->
  List.filter f (write_back key row table) = write_back key row (List.filter f table).
Proof.
  intros Hall Hf. unfold write_back.
  induction table as [|x table IH]; [reflexivity|]. simpl.
  assert (IH' := IH (fun y Hy => Hall y (or_intror Hy))).
  destruct (Z.eqb_spec (key x) (key row)) as [E|Hne].
  - assert (x = old) as -> by exact (Hall x (or_introl eq_refl) E). rewrite Hf.
    destruct (f old); [simpl; rewrite E, Z.eqb_refl; f_equal|]; exact IH'.
  - destruct (f x); [simpl; rewrite (proj2 (Z.eqb_neq _ _) Hne); f_equal|]; exact IH'.
Qed.

(** X6: [add_to_cart] keeps the cart of a user within one bakery. *)
Theorem add_to_cart_same_bakery user form d :
  same_bakery user d -> same_bakery user (cart.add_to_cart user form d).1.1.
Proof.
  intros [b Hb].
  destruct (add_to_cart_cases user form d)
    as [->|(pid & product & _ & Hp & [[-> Hfirst]| ->])]; [now exists b | |].
  - unfold same_bakery, cart.user_cart in *.
    rewrite store_products, store_cart_items.
    destruct (List.find _ (cart_items d)) as [found|] eqn:Hfind.
    + exists b. apply Forall_filter_iff. apply Forall_write_back.
      * intros _. simpl. apply find_some in Hfind as [Hin Hkey].
        apply andb_prop in Hkey as [Hu _].
        apply Forall_filter_iff in Hb. rewrite List.Forall_forall in Hb.
        exact (Hb found Hin Hu).
      * now apply Forall_filter_iff.
    + rewrite List.filter_app. simpl. rewrite Z.eqb_refl.
      destruct (List.filter _ (cart_items d)) as [|first rest] eqn:Hcart.
      * exists (Product.bakery_id product). constructor; [|constructor].
        simpl. now rewrite Hp.
      * exists b. apply Forall_app. split; [exact Hb|].
        constructor; [|constructor]. simpl. rewrite Hp. simpl. f_equal.
        destruct (Hfirst first rest eq_refl) as (other & Ho & <-).
        apply Forall_inv in Hb. rewrite Ho in Hb. now injection Hb.
  - unfold same_bakery, cart.user_cart.
    rewrite store_products, store_cart_items.
    unfold cart.delete_user_cart.
    destruct (List.find _ _) as [found|] eqn:Hfind.
    + exfalso. apply find_some in Hfind as [Hin Hkey].
      apply andb_prop in Hkey as [Hu _].
      apply filter_In in Hin as [_ Hnot]. now rewrite Hu in Hnot.
    + rewrite List.filter_app, user_cart_deleted. simpl. rewrite Z.eqb_refl.
      exists (Product.bakery_id product). constructor; [|constructor].
      simpl. now rewrite Hp.
Qed.

Lemma add_to_cart_same_bakery_witness :
  same_bakery Scenario.customer
    (cart.add_to_cart Scenario.customer (Neighbours.form 2 3) Neighbours.shop).1.1.
Proof.
  apply add_to_cart_same_bakery. exists 1.
  repeat (constructor; [reflexivity|]). constructor.
Defined.

(** X7: [add_to_cart] never gives a product a second row in the cart of a
    user (the rows being keyed by [id]). *)
Theorem add_to_cart_one_row_per_product user form d :
  List.NoDup (map CartItem.id (cart_items d)) ->
  one_row_per_product user d ->
  one_row_per_product user (cart.add_to_cart user form d).1.1.
Proof.
  intros Hnd Hone.
  assert (Hstore : forall product pid table,
    List.NoDup (map CartItem.id table) ->
    List.NoDup (map CartItem.product_id
                  (List.filter (fun c => CartItem.user_id c =? user) table)) ->
    one_row_per_product user (cart.store user form product pid table d).1.1).
  { intros product pid table Hids Hpids. unfold one_row_per_product, cart.user_cart.
    rewrite store_cart_items.
    destruct (List.find _ table) as [found|] eqn:Hfind.
    - pose proof Hfind as Hfound. apply find_some in Hfound as [Hin Hkey].
      apply andb_prop in Hkey as [Hu _].
      rewrite (write_back_filter_comm CartItem.id _ _ found).
      + rewrite (write_back_map CartItem.id CartItem.product_id _ found).
        * assumption.
        * now apply NoDup_map_filter.
        * now apply filter_In.
        * reflexivity.
        * reflexivity.
      + intros x Hx E. exact (unique_key_row CartItem.id table x found Hids Hx Hin E).
      + reflexivity.
    - rewrite List.filter_app, map_app. simpl. rewrite Z.eqb_refl. simpl.
      apply List.NoDup_app; [assumption | constructor; [intros []|constructor] |].
      intros a Ha [<-|[]]. apply in_map_iff in Ha as (c & Hc & Hcin).
      apply filter_In in Hcin as [Hcin Hu].
      pose proof (find_none _ _ Hfind c Hcin) as Hno. simpl in Hno.
      rewrite Hu, Hc, Z.eqb_refl in Hno. discriminate. }
  destruct (add_to_cart_cases user form d)
    as [->|(pid & product & _ & _ & [[-> _]| ->])]; [assumption | |].
  - now apply Hstore.
  - apply Hstore; [now apply NoDup_map_filter|].
    unfold cart.delete_user_cart. rewrite user_cart_deleted. constructor.
Qed.

Lemma add_to_cart_one_row_per_product_witness :
  one_row_per_product Scenario.customer
    (cart.add_to_cart Scenario.customer (Neighbours.form 2 3) Neighbours.shop).1.1 /\
  map (fun c => (CartItem.product_id c, CartItem.quantity c))
    (cart.user_cart Scenario.customer
       (cart.add_to_cart Scenario.customer (Neighbours.form 2 3) Neighbours.shop).1.1)
  = [(1, 2); (2, 4)].
Proof.
  split; [|reflexivity].
  apply add_to_cart_one_row_per_product.
  - simpl. repeat (constructor; [simpl; intuition discriminate|]). constructor.
  - unfold one_row_per_product. simpl.
    repeat (constructor; [simpl; intuition discriminate|]). constructor.
Defined.

Lemma update_cart_positive_witness :
  cart_positive (cart.update_cart Scenario.customer (Some 1) (Some 0) false Scenario.shop).1.1
  /\ cart_positive
       (cart.update_cart Scenario.customer (Some 1) (Some 5) false Scenario.shop).1.1.
Proof.
  assert (H : cart_positive Scenario.shop) by (cbv; repeat constructor).
  split; apply update_cart_positive; exact H.
Defined.

Lemma update_cart_deletes_witness :
  ~ In 1 (map CartItem.id
            (cart_items (cart.update_cart Scenario.customer (Some 1) (Some (-2)) false
                           Scenario.shop).1.1)).
Proof.
  apply (update_cart_deletes Scenario.customer (CartItem.mk 1 Scenario.customer 1 2 "")
           (-2) false Scenario.shop); [now left | reflexivity | lia].
Defined.

Lemma add_to_cart_positive_witness :
  cart_positive (cart.add_to_cart Scenario.customer (Neighbours.form 2 3) Scenario.shop).1.1.
Proof.
  apply add_to_cart_positive; [reflexivity | cbv; repeat constructor].
Defined.

(** ** More on [checkout] *)

Lemma user_cart_after_delete user (table : list CartItem.t) (d : db) :
  orders.user_cart user
    (set_cart_items d (List.filter (fun c => negb (CartItem.user_id c =? user)) table)) = [].
Proof. apply user_cart_deleted. Qed.

(** X8: once [checkout] has placed an order the cart of the actor is empty
    and the carts of the others are as they were, so that sending the
    request again, whatever it holds, places no second order: it is answered
    with "Your cart is empty." and commits nothing. *)
Theorem checkout_empties_cart user other now uuid4 form now' uuid4' form' d d' fl e n :
  orders.checkout user now uuid4 form d = (d', fl, redirect_order e n) ->
  orders.user_cart user d' = [] /\
  (other <> user -> orders.user_cart other d' = orders.user_cart other d) /\
  orders.checkout user now' uuid4' form' d'
    = (d', [(text "Your cart is empty.", "warning")], redirect "cart.view_cart").
Proof.
  intros H. apply checkout_cases in H as [[_ Hr]|H]; [now destruct (Hr e n)|].
  destruct H as (bakery & address & coupons' & discount & warnings & products' & items
                 & order & H).
  cbv zeta in H.
  destruct H as (_ & _ & _ & _ & _ & _ & _ & _ & _ & _ & _ & _ & _ & _ & _ & Hcart & _).
  assert (Hempty : orders.user_cart user d' = []).
  { unfold orders.user_cart. rewrite Hcart. apply user_cart_deleted. }
  repeat split.
  - exact Hempty.
  - intros Hne. unfold orders.user_cart. rewrite Hcart. now apply filter_filter_other.
  - unfold orders.checkout. now rewrite Hempty.
Qed.

Lemma checkout_empties_cart_witness :
  orders.user_cart Scenario.customer Scenario.placed = [] /\
  (Neighbours.neighbour <> Scenario.customer ->
   orders.user_cart Neighbours.neighbour Scenario.placed
   = orders.user_cart Neighbours.neighbour Scenario.shop) /\
  orders.checkout Scenario.customer Scenario.now Scenario.uuid4 Scenario.form Scenario.placed
    = (Scenario.placed, [(text "Your cart is empty.", "warning")], redirect "cart.view_cart").
Proof.
  apply (checkout_empties_cart Scenario.customer Neighbours.neighbour Scenario.now
           Scenario.uuid4 Scenario.form Scenario.now Scenario.uuid4 Scenario.form
           Scenario.shop Scenario.placed [(text "Order placed successfully!", "success")]
           "orders.order_confirmation" "LC202405142301A1B2C3").
  vm_compute. reflexivity.
Defined.

Lemma snapshot_order_id (m : gmap Z Product.t) oid cart items :
  Forall2 (snapshot_of m oid) cart items ->
  Forall (fun i => OrderItem.order_id i = oid) items.
Proof.
  induction 1 as [|c i cart items (p & _ & Hoid & _) _ IH]; constructor; assumption.
Qed.

(** An order is confirmed only under a number no order has yet: the
    [unique] constraint of the column fails the flush otherwise. *)
Lemma checkout_number_fresh user now uuid4 form d d' fl e n :
  orders.checkout user now uuid4 form d = (d', fl, redirect_order e n) ->
  ~ In (Order.generate_order_number now uuid4) (map Order.order_number (orders d)).
Proof.
  unfold orders.checkout, raise. intros H Hin.
  destruct (orders.user_cart user d) as [|first rest]; [discriminate|].
  destruct (CartItem.product (products d) first ≫= _) as [bakery|]; [|discriminate].
  destruct (Py.lt _ _); [discriminate|].
  destruct (String.eqb _ "POST"); [|discriminate].
  destruct (orders.address_id form ≫= _) as [address|]; [|discriminate].
  destruct (orders.apply_coupon _ _ _ _ _) as [[coupons' discount] warnings].
  destruct (existsb _ (orders d)) eqn:Hex; [discriminate|].
  apply in_map_iff in Hin as (o & Ho & Hin).
  assert (Hyes : existsb (fun o => String.eqb (Order.order_number o)
                                     (Order.generate_order_number now uuid4)) (orders d)
                 = true).
  { apply existsb_exists. exists o. split; [exact Hin|]. rewrite Ho. apply String.eqb_refl. }
  cbn [Order.order_number] in Hex. congruence.
Qed.

(** A request that reaches the insertion of the order with a number that is
    taken ends in the exception of the unique column. *)
Lemma checkout_number_taken user now uuid4 form d :
  In (Order.generate_order_number now uuid4) (map Order.order_number (orders d)) ->
  ~ CheckoutSpec.empty_cart user d ->
  is_Some (CheckoutSpec.cart_bakery user d) ->
  ~ CheckoutSpec.below_minimum user d ->
  orders.method form = "POST" ->
  CheckoutSpec.own_address user d (orders.address_id form) ->
  orders.checkout user now uuid4 form d = raise d.
Proof.
  intros Hin Hne [bakery Hb] Hmin Hpost (a & x & Ha & Hx & Hid & Hu).
  unfold CheckoutSpec.empty_cart in Hne.
  unfold CheckoutSpec.below_minimum, CheckoutSpec.cart_bakery, CheckoutSpec.cart_subtotal in *.
  unfold orders.checkout.
  destruct (orders.user_cart user d) as [|first rest] eqn:Hcart; [contradiction|].
  unfold CartItem.product at 1. rewrite Hb.
  destruct (Py.lt _ (Bakery.min_order_amount bakery)) eqn:Hlt.
  { exfalso. apply Hmin. exists bakery. split; [exact Hb|]. apply py_lt_iff. exact Hlt. }
  rewrite Hpost. cbn [String.eqb Ascii.eqb Bool.eqb]. rewrite Ha. cbn [mbind option_bind].
  destruct (List.find _ (addresses d)) as [address|] eqn:Hfind.
  2:{ exfalso. apply (find_none _ _ Hfind) in Hx. rewrite Hid, Hu, !Z.eqb_refl in Hx.
      discriminate Hx. }
  destruct (orders.apply_coupon now _ _ _ _) as [[coupons' discount] warnings].
  cbn [Order.order_number].
  destruct (existsb _ (orders d)) eqn:Htaken; [reflexivity|]. exfalso.
  apply in_map_iff in Hin as (o & Ho & Hin).
  assert (Hyes : existsb (fun o => String.eqb (Order.order_number o)
                                     (Order.generate_order_number now uuid4)) (orders d)
                 = true).
  { apply existsb_exists. exists o. split; [exact Hin|]. rewrite Ho. apply String.eqb_refl. }
  congruence.
Qed.

(** X9: [checkout] keeps the orders keyed by [id] and by [order_number], adds
    at most one order after those that were there, and leaves every order
    item pointing at an order.  Where the order number it generates is
    already taken it commits nothing and confirms no order, and a request
    that has passed the cart, minimum and address checks fails with the
    exception of the unique column. *)
Theorem checkout_keeps_orders_keyed user now uuid4 form d :
  (orders_keyed d ->
   orders_keyed (orders.checkout user now uuid4 form d).1.1 /\
   exists new, orders (orders.checkout user now uuid4 form d).1.1 = (orders d ++ new)%list
               /\ (length new <= 1)%nat) /\
  (In (Order.generate_order_number now uuid4) (map Order.order_number (orders d)) ->
   (orders.checkout user now uuid4 form d).1.1 = d /\
   (forall e n, (orders.checkout user now uuid4 form d).2 <> redirect_order e n) /\
   (~ CheckoutSpec.empty_cart user d ->
    is_Some (CheckoutSpec.cart_bakery user d) ->
    ~ CheckoutSpec.below_minimum user d ->
    orders.method form = "POST" ->
    CheckoutSpec.own_address user d (orders.address_id form) ->
    orders.checkout user now uuid4 form d = (d, [], server_error))).
Proof.
  split.
  2:{ intros Hin. split; [|split].
      3:{ intros Hne Hsome Hmin Hpost Haddr.
          exact (checkout_number_taken user now uuid4 form d Hin Hne Hsome Hmin Hpost Haddr). }
      all: destruct (orders.checkout user now uuid4 form d) as [[d' fl] r] eqn:H; simpl.
      all: pose proof H as Hfull.
      all: apply checkout_cases in H as [[-> Hr]|H]; [first [reflexivity | exact Hr]|].
      all: exfalso.
      all: destruct H as (bakery & address & coupons' & discount & warnings & products' & items
                          & order & H).
      all: cbv zeta in H.
      all: destruct H as (_ & _ & _ & _ & _ & _ & _ & _ & _ & _ & _ & _ & _ & _ & _ & _ & Hr).
      all: subst r; apply checkout_number_fresh in Hfull; contradiction. }
  intros (Hids & Hnumbers & Hitems).
  destruct (orders.checkout user now uuid4 form d) as [[d' fl] r] eqn:H. simpl.
  pose proof H as Hfull.
  apply checkout_cases in H as [[-> _]|H].
  { split; [now repeat split|]. exists []. split; [now rewrite app_nil_r | simpl; lia]. }
  destruct H as (bakery & address & coupons' & discount & warnings & products' & items
                 & order & H).
  cbv zeta in H.
  destruct H as (_ & _ & _ & _ & _ & _ & _ & _ & Horder & Hadd & _ & _ & Ho & Hi & _ & _ & Hr).
  subst r. apply checkout_number_fresh in Hfull.
  assert (Hid : Order.id order = next_id (map Order.id (orders d))) by now subst order.
  assert (Hnum : Order.order_number order = Order.generate_order_number now uuid4)
    by now subst order.
  split; [|exists [order]; split; [exact Ho | simpl; lia]].
  unfold orders_keyed. rewrite Ho, Hi, !map_app. simpl. repeat split.
  - apply List.NoDup_app; [assumption | constructor; [intros []|constructor] |].
    intros a Ha [<-|[]]. rewrite Hid in Ha. now apply next_id_fresh in Ha.
  - apply List.NoDup_app; [assumption | constructor; [intros []|constructor] |].
    intros a Ha [<-|[]]. rewrite Hnum in Ha. contradiction.
  - apply Forall_app. split.
    + eapply List.Forall_impl; [|exact Hitems]. intros i Hin. apply in_or_app. now left.
    + apply add_order_items_snapshots with (m0 := products d) in Hadd
        as (items' & E & Hsnap); [|intros k; apply option_stock_moved_refl].
      simpl in E. subst items'.
      eapply List.Forall_impl; [|exact (snapshot_order_id _ _ _ _ Hsnap)].
      intros i ->. apply in_or_app. right. now left.
Qed.

Lemma checkout_keeps_orders_keyed_witness :
  (orders_keyed Scenario.placed /\
   exists new, orders Scenario.placed = (orders Scenario.shop ++ new)%list
               /\ (length new <= 1)%nat) /\
  In (Order.generate_order_number Scenario.now Scenario.uuid4)
     (map Order.order_number (orders Resubmitted.shop)) /\
  orders.checkout Scenario.customer Scenario.now Scenario.uuid4 Scenario.form
    Resubmitted.shop = (Resubmitted.shop, [], server_error).
Proof.
  assert (Htaken : In (Order.generate_order_number Scenario.now Scenario.uuid4)
                      (map Order.order_number (orders Resubmitted.shop)))
    by (vm_compute; now left).
  destruct (checkout_keeps_orders_keyed Scenario.customer Scenario.now Scenario.uuid4
              Scenario.form Scenario.shop) as [Hkeyed _].
  destruct (checkout_keeps_orders_keyed Scenario.customer Scenario.now Scenario.uuid4
              Scenario.form Resubmitted.shop) as [_ Hfails].
  split; [apply Hkeyed; repeat split; constructor|].
  split; [exact Htaken|].
  destruct (Hfails Htaken) as (_ & _ & Hraise). apply Hraise.
  - discriminate.
  - now eexists.
  - intros (b & Hb & Hlt). vm_compute in Hb. injection Hb as <-. vm_compute in Hlt.
    discriminate Hlt.
  - reflexivity.
  - exists 1, (Address.mk 1 Scenario.customer). repeat split. now left.
Defined.

(** ** More on coupons *)

Lemma is_valid_uses_left c now amount bakery :
  (Coupon.is_valid c now amount bakery).1 = true ->
  match Coupon.usage_limit c with
  | Some limit => limit <> 0 -> Coupon.used_count c < limit
  | None => True
  end.
Proof.
  unfold Coupon.is_valid.
  destruct (negb (Coupon.is_active c)); [discriminate|].
  destruct (match Coupon.valid_from c with Some _ => _ | None => _ end); [discriminate|].
  destruct (match Coupon.valid_until c with Some _ => _ | None => _ end); [discriminate|].
  destruct (Coupon.usage_limit c) as [limit|]; [|trivial].
  destruct (Z.eqb_spec limit 0) as [->|Hne]; [intros _ H; now destruct H|].
  simpl. destruct (Z.geb_spec (Coupon.used_count c) limit); [discriminate|].
  intros _ _. assumption.
Qed.

(** X10: [checkout] never takes a coupon past its usage limit: coupons that
    are within their limits before it are within them after it. *)
Theorem checkout_respects_usage_limit user now uuid4 form d :
  Forall within_limit (coupons d) ->
  Forall within_limit (coupons (orders.checkout user now uuid4 form d).1.1).
Proof.
  intros Hall.
  destruct (orders.checkout user now uuid4 form d) as [[d' fl] r] eqn:H. simpl.
  apply checkout_cases in H as [[-> _]|H]; [exact Hall|].
  destruct H as (bakery & address & coupons' & discount & warnings & products' & items
                 & order & H).
  cbv zeta in H.
  destruct H as (_ & _ & _ & _ & _ & _ & _ & Hcoupon & _ & _ & _ & -> & _).
  revert Hcoupon. unfold orders.apply_coupon.
  destruct (nonempty _); [|now intros [= <- _ _]].
  destruct (List.find _ (coupons d)) as [coupon|] eqn:Hfind; [|now intros [= <- _ _]].
  destruct (Coupon.is_valid coupon now _ _) as [ok why] eqn:Hvalid.
  destruct ok; [|now intros [= <- _ _]].
  intros [= <- _ _]. apply Forall_write_back; [|exact Hall].
  pose proof (is_valid_uses_left coupon now _ _ (f_equal fst Hvalid)) as Hleft.
  unfold within_limit. simpl.
  destruct (Coupon.usage_limit coupon) as [limit|]; [|trivial].
  intros Hne. specialize (Hleft Hne). lia.
Qed.

Lemma checkout_respects_usage_limit_witness :
  Forall within_limit
    (coupons (orders.checkout Scenario.customer Scenario.now Scenario.uuid4
                (CheckoutSpec.with_code "save10") Scenario.shop).1.1).
Proof.
  apply checkout_respects_usage_limit. repeat constructor.
Defined.

(** X12: the discount is never negative when the coupon's value, the
    subtotal and the cap, if there is one, are not. *)
Theorem calculate_discount_nonnegative c subtotal :
  (0 <= Coupon.discount_value c)%Q -> (0 <= subtotal)%Q ->
  (forall cap, Coupon.max_discount c = Some cap -> (0 <= cap)%Q) ->
  (0 <= Coupon.calculate_discount c subtotal)%Q.
Proof.
  intros Hv Hs Hcap. unfold Coupon.calculate_discount.
  assert (Hp : (0 <= subtotal * Coupon.discount_value c / 100)%Q).
  { apply Qle_shift_div_l; [reflexivity|]. rewrite Qmult_0_l.
    now apply Qmult_le_0_compat. }
  destruct (String.eqb _ _).
  - destruct (Coupon.max_discount c) as [cap|]; [|exact Hp].
    destruct (Py.truthy cap); [|exact Hp].
    rewrite py_min_Qmin. apply Q.min_glb; [exact Hp | now apply Hcap].
  - rewrite py_min_Qmin. now apply Q.min_glb.
Qed.

Lemma calculate_discount_nonnegative_witness :
  (0 <= Coupon.calculate_discount Scenario.ten_percent 445)%Q.
Proof.
  apply calculate_discount_nonnegative; [discriminate | discriminate |].
  intros cap [= <-]. discriminate.
Defined.

(** X13: a coupon that is valid for an order stays valid, at the same time
    and for the same bakery, for every larger order. *)
Theorem is_valid_for_larger_orders c now amount larger bakery :
  (Coupon.is_valid c now amount bakery).1 = true -> (amount <= larger)%Q ->
  Coupon.is_valid c now larger bakery = (true, text "Coupon is valid").
Proof.
  unfold Coupon.is_valid. intros H Hle.
  destruct (negb (Coupon.is_active c)); [discriminate|].
  destruct (match Coupon.valid_from c with Some _ => _ | None => _ end); [discriminate|].
  destruct (match Coupon.valid_until c with Some _ => _ | None => _ end); [discriminate|].
  destruct (match Coupon.usage_limit c with Some _ => _ | None => _ end); [discriminate|].
  destruct (Py.lt amount (Coupon.min_order_amount c)) eqn:Hmin; [discriminate|].
  destruct (Py.lt larger (Coupon.min_order_amount c)) eqn:Hmin'.
  - exfalso. apply py_lt_iff in Hmin'.
    assert (Hlt : (amount < Coupon.min_order_amount c)%Q)
      by (eapply Qle_lt_trans; eassumption).
    apply py_lt_iff in Hlt. congruence.
  - destruct (_ && _ && _); [discriminate | reflexivity].
Qed.

Lemma is_valid_for_larger_orders_witness :
  Coupon.is_valid Scenario.ten_percent Scenario.now 2000 (Some 1)
    = (true, text "Coupon is valid").
Proof.
  apply (is_valid_for_larger_orders Scenario.ten_percent Scenario.now 445 2000 (Some 1));
    [reflexivity | discriminate].
Defined.

(** X14: what [validate_coupon] answers for the cart of the actor is what
    [checkout] does with the same code at the same time: the order it places
    carries the discount of an [applied] answer, and discount 0 after any
    other answer. *)
Theorem validate_coupon_agrees_with_checkout user now uuid4 form d d' fl e n code bakery :
  orders.checkout user now uuid4 form d = (d', fl, redirect_order e n) ->
  orders.coupon_code form = Some code -> code <> "" ->
  CheckoutSpec.cart_bakery user d = Some bakery ->
  exists order,
    orders d' = (orders d ++ [order])%list /\
    Order.discount order
    = match api.validate_coupon now (Some code) (CheckoutSpec.cart_subtotal user d)
              (Some (Bakery.id bakery)) d with
      | api.applied discount => discount
      | _ => 0%Q
      end.
Proof.
  intros H Hcode Hne Hbakery.
  apply checkout_cases in H as [[_ Hr]|H]; [now destruct (Hr e n)|].
  destruct H as (bakery' & address & coupons' & discount & warnings & products' & items
                 & order & H).
  cbv zeta in H.
  destruct H as (_ & Hb & _ & _ & _ & _ & _ & Hcoupon & Horder & _ & _ & _ & Ho & _).
  rewrite Hbakery in Hb. injection Hb as <-.
  exists order. split; [exact Ho|]. subst order. cbn [Order.discount].
  revert Hcoupon. rewrite Hcode. cbn [default].
  unfold orders.apply_coupon, api.validate_coupon. cbn [default].
  destruct code as [|ch rest]; [contradiction|]. cbn [nonempty].
  change (Py.sum (map (CartItem.subtotal (products d)) (orders.user_cart user d)))
    with (CheckoutSpec.cart_subtotal user d).
  destruct (List.find _ (coupons d)) as [coupon|]; [|now intros [= _ <- _]].
  destruct (Coupon.is_valid coupon now _ _) as [ok why].
  destruct ok; now intros [= _ <- _].
Qed.

Lemma validate_coupon_agrees_with_checkout_witness :
  exists order,
    orders (orders.checkout Scenario.customer Scenario.now Scenario.uuid4
              (CheckoutSpec.with_code "save10") Scenario.shop).1.1
    = (orders Scenario.shop ++ [order])%list /\
    Order.discount order
    = match api.validate_coupon Scenario.now (Some "save10")
              (CheckoutSpec.cart_subtotal Scenario.customer Scenario.shop)
              (Some (Bakery.id Scenario.the_bakery)) Scenario.shop with
      | api.applied discount => discount
      | _ => 0%Q
      end.
Proof.
  apply (validate_coupon_agrees_with_checkout Scenario.customer Scenario.now Scenario.uuid4
           (CheckoutSpec.with_code "save10") Scenario.shop
           (orders.checkout Scenario.customer Scenario.now Scenario.uuid4
              (CheckoutSpec.with_code "save10") Scenario.shop).1.1
           [(text "Order placed successfully!", "success")]
           "orders.order_confirmation" "LC202405142301A1B2C3" "save10" Scenario.the_bakery).
  - vm_compute. reflexivity.
  - reflexivity.
  - discriminate.
  - reflexivity.
Defined.

(** ** Decrement, then restore, on the scenario *)

Lemma restore_after_debit_witness :
  orders.restore_stock (order_items Scenario.placed) (products Scenario.placed)
    = Some (products Scenario.shop).
Proof.
  apply (restore_after_debit 1 (orders.user_cart Scenario.customer Scenario.shop)).
  - simpl. eexists. split; [reflexivity|]. split; [simpl; lia|].
    eexists. split; [reflexivity|]. split; [simpl; lia | exact I].
  - vm_compute. reflexivity.
Defined.

(** ** More on status updates *)

Lemma accepted_allowed current new : accepted current new <-> allowed current new.
Proof. unfold accepted, baker.status_in. apply valid_transitions_table. Qed.

Lemma accepted_rank current new :
  accepted current new -> (status_rank current < status_rank new)%nat.
Proof.
  intros H. apply accepted_allowed in H. unfold allowed, transition_table in H.
  simpl in H.
  repeat (destruct H as [[= <- <-]|H]; [vm_compute; lia|]). destruct H.
Qed.

Lemma accepted_chain_length current later :
  accepted_chain (current :: later) ->
  (length (current :: later) + status_rank current <= 6)%nat.
Proof.
  revert current. induction later as [|new later IH]; intros current H.
  - simpl. unfold status_rank.
    repeat match goal with |- context [if ?b then _ else _] => destruct b end; lia.
  - destruct H as [Hstep Hrest]. apply accepted_rank in Hstep.
    specialize (IH new Hrest). simpl in *. lia.
Qed.

(** X15: every update that [update_order_status] commits moves the order
    strictly forward in the ranking pending, confirmed, preparing, ready,
    out for delivery, closed; so no sequence of accepted updates returns to
    a status it left, and none is longer than five updates. *)
Theorem status_updates_only_advance bakery now order_id new_status notes d order statuses :
  (List.find (fun o => (Order.id o =? order_id) && (Order.bakery_id o =? bakery)) (orders d)
     = Some order ->
   (baker.update_order_status bakery now order_id new_status notes d).1.1 <> d ->
   exists new, new_status = Some new /\
               (status_rank (Order.status order) < status_rank new)%nat) /\
  (accepted_chain statuses -> List.NoDup statuses /\ (length statuses <= 6)%nat).
Proof.
  split.
  - intros Hfind Hchanged. unfold baker.update_order_status in Hchanged.
    rewrite Hfind in Hchanged. destruct new_status as [new|]; [|now destruct Hchanged].
    destruct (_ && _) eqn:Hok; [|now destruct Hchanged].
    exists new. split; [reflexivity|]. now apply accepted_rank.
  - intros Hchain. split.
    + induction statuses as [|current later IH]; [constructor|].
      assert (Hlater : accepted_chain later) by (destruct later; [exact I | apply Hchain]).
      constructor; [|now apply IH].
      assert (Hranks : forall s, In s later -> (status_rank current < status_rank s)%nat).
      { clear IH Hlater. revert current Hchain.
        induction later as [|new later IH]; intros current Hchain s Hs; [destruct Hs|].
        destruct Hchain as [Hstep Hrest]. apply accepted_rank in Hstep.
        destruct Hs as [<-|Hs]; [exact Hstep|].
        specialize (IH new Hrest s Hs). lia. }
      intros Hin. specialize (Hranks current Hin). lia.
    + destruct statuses as [|current later]; [simpl; lia|].
      pose proof (accepted_chain_length current later Hchain). lia.
Qed.

Lemma status_updates_only_advance_witness :
  (exists new, Some "delivered" = Some new /\
               (status_rank "ready" < status_rank new)%nat) /\
  List.NoDup ["pending"; "confirmed"; "preparing"; "ready"; "out_for_delivery"; "delivered"] /\
  (length ["pending"; "confirmed"; "preparing"; "ready"; "out_for_delivery"; "delivered"]
   <= 6)%nat.
Proof.
  destruct (status_updates_only_advance 1 Scenario.now 1 (Some "delivered") None
              (Desk.shop "ready") (Desk.order_in "ready")
              ["pending"; "confirmed"; "preparing"; "ready"; "out_for_delivery"; "delivered"])
    as [H1 H2].
  split.
  - apply H1; [reflexivity|]. intros H. apply (f_equal orders) in H. discriminate H.
  - apply H2. vm_compute. repeat split.
Defined.

Lemma write_back_keeps {A} (key : A -> Z) (row x : A) (table : list A) :
  In x table -> key x <> key row -> In x (write_back key row table).
Proof.
  intros Hin Hne. unfold write_back. apply in_map_iff. exists x. split; [|exact Hin].
  now rewrite (proj2 (Z.eqb_neq _ _) Hne).
Qed.

(** X16: with orders keyed by [id], [update_order_status] leaves the orders
    of every other bakery, and [cancel_order] those of every other
    customer, exactly as they are. *)
Theorem status_views_leave_other_orders
    bakery now order_id new_status notes user order_number reason d o :
  List.NoDup (map Order.id (orders d)) -> In o (orders d) ->
  (Order.bakery_id o <> bakery ->
   In o (orders (baker.update_order_status bakery now order_id new_status notes d).1.1)) /\
  (Order.customer_id o <> user ->
   In o (orders (orders.cancel_order user order_number reason d).1.1)).
Proof.
  intros Hnd Hin. split; intros Hother.
  - unfold baker.update_order_status.
    destruct (List.find _ (orders d)) as [found|] eqn:Hfind; [|exact Hin].
    destruct new_status as [new|]; [|exact Hin].
    destruct (_ && _); [|exact Hin]. simpl.
    apply find_some in Hfind as [Hfound Hkey]. apply andb_prop in Hkey as [_ Hb].
    apply Z.eqb_eq in Hb.
    apply write_back_keeps; [exact Hin|]. intros E.
    assert (o = found); [|congruence].
    apply (unique_key_row Order.id (orders d)); try assumption.
    rewrite E. now destruct (String.eqb new "delivered").
  - unfold orders.cancel_order, raise.
    destruct (List.find _ (orders d)) as [found|] eqn:Hfind; [|exact Hin].
    destruct (negb _); [exact Hin|].
    destruct (orders.restore_stock _ _); [|exact Hin]. simpl.
    apply find_some in Hfind as [Hfound Hkey]. apply andb_prop in Hkey as [_ Hc].
    apply Z.eqb_eq in Hc.
    apply write_back_keeps; [exact Hin|]. intros E.
    assert (o = found); [|congruence].
    apply (unique_key_row Order.id (orders d)); assumption.
Qed.

Lemma status_views_leave_other_orders_witness :
  In Counter.pending
    (orders (baker.update_order_status 1 Scenario.now 2 (Some "confirmed") None
               Counter.shop).1.1) /\
  In Counter.pending
    (orders (orders.cancel_order 7 "LC202405142302D4E5F6" None Counter.shop).1.1).
Proof.
  destruct (status_views_leave_other_orders 1 Scenario.now 2 (Some "confirmed") None
              7 "LC202405142302D4E5F6" None Counter.shop Counter.pending) as [H1 H2].
  - simpl. repeat (constructor; [simpl; intuition discriminate|]). constructor.
  - right. now left.
  - split; [apply H1 | apply H2]; discriminate.
Defined.

(** ** Reviews *)

Lemma write_back_undo {A} (key : A -> Z) (row old : A) (table : list A) :
  List.NoDup (map key table) -> In old table -> key row = key old ->
  write_back key old (write_back key row table) = table.
Proof.
  intros Hnd Hold Hk. unfold write_back. rewrite map_map.
  rewrite <- (map_id table) at 2. apply map_ext_in. intros x Hx.
  destruct (Z.eqb_spec (key x) (key row)) as [E|Hne].
  - rewrite Hk, Z.eqb_refl. symmetry. eapply unique_key_row; eauto. congruence.
  - rewrite <- Hk. now rewrite (proj2 (Z.eqb_neq _ _) Hne).
Qed.

Lemma find_write_back {A} (key : A -> Z) (k : Z) (row old : A) (table : list A) :
  List.find (fun x => key x =? k) table = Some old -> key row = key old ->
  List.find (fun x => key x =? k) (write_back key row table) = Some row.
Proof.
  intros Hfind Hk.
  assert (Hold : k = key row).
  { apply find_some in Hfind as [_ E]. apply Z.eqb_eq in E. congruence. }
  subst k. clear Hk. unfold write_back.
  induction table as [|x table IH]; [discriminate|].
  simpl in *. destruct (Z.eqb_spec (key x) (key row)) as [E|Hne].
  - now rewrite Z.eqb_refl.
  - rewrite (proj2 (Z.eqb_neq _ _) Hne). now apply IH.
Qed.

Lemma update_rating_again (b : Bakery.t) (first second : list Review.t) :
  Bakery.update_rating (Bakery.update_rating b first) second = Bakery.update_rating b second.
Proof.
  unfold Bakery.update_rating.
  assert (Hid : forall r n, Bakery.id (Bakery.set_rating b r n) = Bakery.id b)
    by reflexivity.
  destruct (List.filter _ first); rewrite Hid; now destruct (List.filter _ second).
Qed.

Lemma toggle_review_cases review_id d :
  ((admin.toggle_review review_id d).1.1 = d /\
   forall review, List.find (fun r => Review.id r =? review_id) (reviews d) = Some review ->
                  bakeries d !! Review.bakery_id review = None) \/
  exists review bakery,
    List.find (fun r => Review.id r =? review_id) (reviews d) = Some review /\
    bakeries d !! Review.bakery_id review = Some bakery /\
    let toggled := Review.set_is_visible review (negb (Review.is_visible review)) in
    (admin.toggle_review review_id d).1.1
    = set_bakeries (set_reviews d (write_back Review.id toggled (reviews d)))
        (<[Review.bakery_id review :=
             Bakery.update_rating bakery (write_back Review.id toggled (reviews d))]>
           (bakeries d)).
Proof.
  unfold admin.toggle_review, raise.
  destruct (List.find _ (reviews d)) as [review|]; [|now left].
  cbn [Review.bakery_id Review.set_is_visible].
  destruct (bakeries d !! Review.bakery_id review) as [bakery|] eqn:Hb.
  - right. now exists review, bakery.
  - left. split; [reflexivity|]. now intros r [= <-].
Qed.

(** X17: with reviews keyed by [id], toggling a review twice gives back the
    reviews table, and leaves every bakery either as it was or with the
    rating and count recomputed over that table. *)
Theorem toggle_review_twice review_id d :
  List.NoDup (map Review.id (reviews d)) ->
  let twice := (admin.toggle_review review_id (admin.toggle_review review_id d).1.1).1.1 in
  reviews twice = reviews d /\
  forall k, bakeries twice !! k = bakeries d !! k \/
            exists bakery, bakeries d !! k = Some bakery /\
              bakeries twice !! k = Some (Bakery.update_rating bakery (reviews d)).
Proof.
  intros Hnd. cbv zeta.
  destruct (toggle_review_cases review_id d)
    as [[Hsame _]|(review & bakery & Hfind & Hb & H1)].
  { rewrite !Hsame. split; [reflexivity | now left]. }
  cbv zeta in H1. rewrite H1. clear H1.
  set (toggled := Review.set_is_visible review (negb (Review.is_visible review))).
  set (table := write_back Review.id toggled (reviews d)).
  set (d1 := set_bakeries _ _).
  assert (Hfound : List.find (fun r => Review.id r =? review_id) (reviews d1) = Some toggled)
    by exact (find_write_back Review.id review_id toggled review (reviews d) Hfind eq_refl).
  assert (Hb1 : bakeries d1 !! Review.bakery_id toggled
                = Some (Bakery.update_rating bakery table)) by apply lookup_insert_eq.
  destruct (toggle_review_cases review_id d1)
    as [[_ Hnone]|(review' & bakery' & Hfind' & Hb' & H2)].
  { specialize (Hnone toggled Hfound). congruence. }
  rewrite Hfound in Hfind'. injection Hfind' as <-.
  rewrite Hb1 in Hb'. injection Hb' as <-.
  cbv zeta in H2. rewrite H2. clear H2.
  assert (Hback : Review.set_is_visible toggled (negb (Review.is_visible toggled)) = review).
  { unfold toggled, Review.set_is_visible. simpl. rewrite negb_involutive.
    now destruct review. }
  rewrite Hback. unfold d1. cbn [reviews bakeries set_reviews set_bakeries].
  change (Review.bakery_id toggled) with (Review.bakery_id review). unfold table.
  pose proof Hfind as Hin. apply find_some in Hin as [Hin _].
  rewrite (write_back_undo Review.id toggled review (reviews d) Hnd Hin eq_refl).
  split; [reflexivity|].
  intros k. rewrite insert_insert_eq, update_rating_again.
  destruct (decide (Review.bakery_id review = k)) as [<-|Hne].
  - right. exists bakery. split; [exact Hb | apply lookup_insert_eq].
  - left. now apply lookup_insert_ne.
Qed.

Lemma toggle_review_twice_witness :
  let twice := (admin.toggle_review 5 (admin.toggle_review 5 RatingSpec.shop).1.1).1.1 in
  reviews twice = reviews RatingSpec.shop /\
  forall k, bakeries twice !! k = bakeries RatingSpec.shop !! k \/
            exists bakery, bakeries RatingSpec.shop !! k = Some bakery /\
              bakeries twice !! k
              = Some (Bakery.update_rating bakery (reviews RatingSpec.shop)).
Proof.
  apply toggle_review_twice.
  simpl. repeat (constructor; [simpl; intuition discriminate|]). constructor.
Defined.

Lemma find_snoc {A} (f : A -> bool) (table : list A) (x : A) :
  List.find f table = None -> f x = true -> List.find f (table ++ [x]) = Some x.
Proof.
  intros Hnone Hx. induction table as [|y table IH]; simpl in *; [now rewrite Hx|].
  destruct (f y); [discriminate | now apply IH].
Qed.

Lemma write_review_cases user method order_id rating d :
  (customer.write_review user method order_id rating d).1.1 = d \/
  exists order bakery value,
    List.find (fun o => (Order.id o =? order_id) && (Order.customer_id o =? user)
                        && String.eqb (Order.status o) "delivered") (orders d)
      = Some order /\
    List.find (fun r => Review.order_id r =? order_id) (reviews d) = None /\
    bakeries d !! Order.bakery_id order = Some bakery /\
    let review := Review.mk (next_id (map Review.id (reviews d))) user
                    (Order.bakery_id order) (Order.id order) value true in
    (customer.write_review user method order_id rating d).1.1
    = set_bakeries (set_reviews d (reviews d ++ [review])%list)
        (<[Order.bakery_id order :=
             Bakery.update_rating bakery (reviews d ++ [review])%list]> (bakeries d)).
Proof.
  unfold customer.write_review, raise.
  destruct (List.find _ (orders d)) as [order|] eqn:Hfind; [|now left].
  destruct (List.find _ (reviews d)) as [existing|] eqn:Hnone; [now left|].
  destruct (String.eqb method "POST"); [|now left].
  destruct rating as [| |z]; [|now left|];
    (destruct (bakeries d !! Order.bakery_id order) as [bakery|] eqn:Hb; [|now left]);
    right; [exists order, bakery, 5 | exists order, bakery, z]; now repeat split.
Qed.

(** X18: [write_review] adds a review only for an order of the actor that is
    delivered and has no review yet; the review is visible, the bakery's
    stored rating is recomputed over the table that holds it, a second
    request for the same order is answered "You have already reviewed this
    order." and commits nothing, and no order gets two reviews. *)
Theorem write_review_once user method order_id rating d :
  let result := customer.write_review user method order_id rating d in
  (result.1.1 = d \/
   exists order bakery review,
     In order (orders d) /\ Order.id order = order_id /\
     Order.customer_id order = user /\ Order.status order = "delivered" /\
     bakeries d !! Order.bakery_id order = Some bakery /\
     reviews result.1.1 = (reviews d ++ [review])%list /\
     Review.order_id review = order_id /\ Review.user_id review = user /\
     Review.bakery_id review = Order.bakery_id order /\ Review.is_visible review = true /\
     bakeries result.1.1 !! Order.bakery_id order
       = Some (Bakery.update_rating bakery (reviews result.1.1)) /\
     forall method' rating',
       customer.write_review user method' order_id rating' result.1.1
       = (result.1.1, [(text "You have already reviewed this order.", "info")],
          redirect_order "orders.order_detail" (Order.order_number order))) /\
  (List.NoDup (map Review.order_id (reviews d)) ->
   List.NoDup (map Review.order_id (reviews result.1.1))).
Proof.
  cbv zeta.
  destruct (write_review_cases user method order_id rating d)
    as [Hsame|(order & bakery & value & Hfind & Hnone & Hb & H)].
  { rewrite !Hsame. split; [now left | trivial]. }
  cbv zeta in H. rewrite H. clear H.
  set (review := Review.mk _ _ _ _ _ _). set (d' := set_bakeries _ _).
  pose proof Hfind as Hin. apply find_some in Hin as [Hin Hkey].
  apply andb_prop in Hkey as [Hkey Hstatus]. apply andb_prop in Hkey as [Hid Hcust].
  apply Z.eqb_eq in Hid, Hcust. apply String.eqb_eq in Hstatus.
  split.
  - right. exists order, bakery, review. repeat split; try assumption.
    + apply lookup_insert_eq.
    + intros method' rating'. unfold customer.write_review.
      change (orders d') with (orders d). rewrite Hfind.
      change (reviews d') with (reviews d ++ [review])%list.
      rewrite (find_snoc _ _ review Hnone); [reflexivity|].
      simpl. now rewrite Hid, Z.eqb_refl.
  - intros Hnd. change (reviews d') with (reviews d ++ [review])%list.
    rewrite map_app. simpl.
    apply List.NoDup_app; [assumption | constructor; [intros []|constructor] |].
    intros a Ha [<-|[]]. apply in_map_iff in Ha as (r & Hr & Hrin).
    pose proof (find_none _ _ Hnone r Hrin) as Hno. simpl in Hno.
    rewrite Hr, Hid, Z.eqb_refl in Hno. discriminate.
Qed.

Lemma write_review_once_witness :
  List.NoDup
    (map Review.order_id
       (reviews (customer.write_review 7 "POST" 1 (customer.int_value 4) Counter.shop).1.1)).
Proof.
  apply (write_review_once 7 "POST" 1 (customer.int_value 4) Counter.shop).
  simpl. repeat (constructor; [simpl; intuition discriminate|]). constructor.
Defined.

(** ** Ordering again *)

Lemma readd_items_lines user items (products : gmap Z Product.t) :
  forall table table',
    orders.readd_items user items products table = Some table' ->
    exists new, table' = (table ++ new)%list /\
      Forall (fun c => CartItem.user_id c = user) new /\
      cart_lines new = item_lines (available_items products items).
Proof.
  induction items as [|i items IH]; intros table table' H; simpl in H.
  - injection H as <-. exists []. now rewrite app_nil_r.
  - unfold available_items. simpl.
    destruct (products !! OrderItem.product_id i) as [p|]; [|discriminate].
    destruct (Product.is_available p).
    + apply IH in H as (new & -> & Hall & Hlines).
      eexists (_ :: new). rewrite <- app_assoc. split; [reflexivity|].
      split; [now constructor|]. simpl. now rewrite Hlines.
    + now apply IH in H.
Qed.

Lemma readd_items_runs user items (products : gmap Z Product.t) table :
  Forall (fun i => exists p, products !! OrderItem.product_id i = Some p) items ->
  is_Some (orders.readd_items user items products table).
Proof.
  revert table. induction items as [|i items IH]; intros table Hall; simpl; [now eexists|].
  apply Forall_cons in Hall as [[p Hp] Hall]. rewrite Hp.
  destruct (Product.is_available p); now apply IH.
Qed.

Lemma filter_user_all user (new : list CartItem.t) :
  Forall (fun c => CartItem.user_id c = user) new ->
  List.filter (fun c => CartItem.user_id c =? user) new = new.
Proof.
  induction 1 as [|c new Hc _ IH]; [reflexivity|]. simpl.
  now rewrite Hc, Z.eqb_refl, IH.
Qed.

Lemma filter_user_none user other (new : list CartItem.t) :
  other <> user -> Forall (fun c => CartItem.user_id c = user) new ->
  List.filter (fun c => CartItem.user_id c =? other) new = [].
Proof.
  intros Hne. induction 1 as [|c new Hc _ IH]; [reflexivity|]. simpl.
  rewrite Hc. now destruct (Z.eqb_spec user other); [congruence|].
Qed.

(** X19: [reorder] replaces the cart of the actor by one row for every item
    of the order whose product is on sale, with the item's product and
    quantity and in the order of the items; the carts of the others, and
    every other table, stay as they are. *)
Theorem reorder_fills_cart user other order_number d d' fl :
  orders.reorder user order_number d = (d', fl, redirect "cart.view_cart") ->
  exists order,
    List.find (fun o => String.eqb (Order.order_number o) order_number
                        && (Order.customer_id o =? user)) (orders d) = Some order /\
    cart_lines (orders.user_cart user d')
      = item_lines (available_items (products d) (orders.items_of d order)) /\
    (other <> user -> orders.user_cart other d' = orders.user_cart other d) /\
    set_cart_items d' (cart_items d) = d.
Proof.
  unfold orders.reorder, raise. intros H.
  destruct (List.find _ (orders d)) as [order|]; [|discriminate].
  destruct (orders.readd_items _ _ _ _) as [table|] eqn:Hadd; [|discriminate].
  injection H as <- _. exists order. split; [reflexivity|].
  apply readd_items_lines in Hadd as (new & -> & Hall & Hlines).
  unfold orders.user_cart. cbn [cart_items set_cart_items]. rewrite !List.filter_app.
  repeat split.
  - now rewrite user_cart_deleted, filter_user_all.
  - intros Hne. rewrite (filter_user_none user other new Hne Hall), app_nil_r.
    now apply filter_filter_other.
  - now destruct d.
Qed.

Lemma reorder_fills_cart_witness :
  exists order,
    List.find (fun o => String.eqb (Order.order_number o) "LC202405142301A1B2C3"
                        && (Order.customer_id o =? Scenario.customer))
      (orders Scenario.placed) = Some order /\
    cart_lines
      (orders.user_cart Scenario.customer
         (orders.reorder Scenario.customer "LC202405142301A1B2C3" Scenario.placed).1.1)
      = item_lines (available_items (products Scenario.placed)
                      (orders.items_of Scenario.placed order)) /\
    (Neighbours.neighbour <> Scenario.customer ->
     orders.user_cart Neighbours.neighbour
       (orders.reorder Scenario.customer "LC202405142301A1B2C3" Scenario.placed).1.1
     = orders.user_cart Neighbours.neighbour Scenario.placed) /\
    set_cart_items
      (orders.reorder Scenario.customer "LC202405142301A1B2C3" Scenario.placed).1.1
      (cart_items Scenario.placed) = Scenario.placed.
Proof.
  apply (reorder_fills_cart Scenario.customer Neighbours.neighbour "LC202405142301A1B2C3"
           Scenario.placed _ [(text "Items added to cart. Please review before checkout.",
                               "success")]).
  vm_compute. reflexivity.
Defined.

Lemma filter_order_items_new (oid : Z) (old new : list OrderItem.t) :
  Forall (fun i => OrderItem.order_id i <> oid) old ->
  Forall (fun i => OrderItem.order_id i = oid) new ->
  List.filter (fun i => OrderItem.order_id i =? oid) (old ++ new) = new.
Proof.
  intros Hold Hnew. rewrite List.filter_app.
  replace (List.filter _ old) with (@nil OrderItem.t).
  - simpl. induction Hnew as [|i new Hi _ IH]; [reflexivity|]. simpl.
    now rewrite Hi, Z.eqb_refl, IH.
  - induction Hold as [|i old Hi _ IH]; [reflexivity|]. simpl.
    now rewrite (proj2 (Z.eqb_neq _ _) Hi).
Qed.

(** X20: after a checkout of a cart whose products are all on sale, ordering
    the placed order again gives the actor the cart they had: the same
    products with the same quantities in the same order. *)
Theorem reorder_after_checkout user now uuid4 form d d' fl e n :
  orders_keyed d -> cart_on_sale user d ->
  orders.checkout user now uuid4 form d = (d', fl, redirect_order e n) ->
  exists d'' fl',
    orders.reorder user n d' = (d'', fl', redirect "cart.view_cart") /\
    cart_lines (orders.user_cart user d'') = cart_lines (orders.user_cart user d).
Proof.
  intros (Hids & _ & Hfk) Hsale H.
  pose proof (checkout_number_fresh _ _ _ _ _ _ _ _ _ H) as Hfresh.
  pose proof (checkout_products user now uuid4 form d) as Hmoved. rewrite H in Hmoved.
  cbn [fst] in Hmoved.
  apply checkout_cases in H as [[_ Hr]|H]; [now destruct (Hr e n)|].
  destruct H as (bakery & address & coupons' & discount & warnings & products' & items
                 & order & H).
  cbv zeta in H.
  destruct H as (_ & _ & _ & _ & _ & _ & _ & _ & Horder & Hadd & Hp & _ & Ho & Hi & _
                 & Hcart & Hr).
  injection Hr as _ ->.
  assert (Hid : Order.id order = next_id (map Order.id (orders d))) by now subst order.
  assert (Hnum : Order.order_number order = Order.generate_order_number now uuid4)
    by now subst order.
  assert (Hcust : Order.customer_id order = user) by now subst order.
  apply add_order_items_snapshots with (m0 := products d) in Hadd
    as (items' & E & Hsnap); [|intros k; apply option_stock_moved_refl].
  simpl in E. subst items'.
  assert (Hfind : List.find (fun o => String.eqb (Order.order_number o)
                                        (Order.order_number order)
                                      && (Order.customer_id o =? user)) (orders d')
                  = Some order).
  { rewrite Ho. apply find_snoc.
    - destruct (List.find _ (orders d)) as [o|] eqn:Hf; [|reflexivity].
      exfalso. apply find_some in Hf as [Hin Hkey]. apply andb_prop in Hkey as [Hkey _].
      apply String.eqb_eq in Hkey. apply Hfresh. rewrite <- Hnum, <- Hkey.
      now apply in_map.
    - rewrite String.eqb_refl, Hcust. apply Z.eqb_refl. }
  assert (Hitems : orders.items_of d' order = items).
  { unfold orders.items_of. rewrite Hi. apply filter_order_items_new.
    - eapply List.Forall_impl; [|exact Hfk]. intros i Hin E. cbv beta in Hin.
      rewrite E, Hid in Hin. now apply next_id_fresh in Hin.
    - exact (snapshot_order_id _ _ _ _ Hsnap). }
  assert (Hexists : Forall (fun i => exists p, products d' !! OrderItem.product_id i = Some p
                                               /\ Product.is_available p = true) items).
  { clear - Hsnap Hsale Hmoved. unfold cart_on_sale in Hsale.
    induction Hsnap as [|c i cart items (p & Hpc & _ & Hpid & _) _ IH]; [constructor|].
    apply Forall_cons in Hsale as [(p0 & Hp0 & Hav) Hsale].
    constructor; [|now apply IH].
    specialize (Hmoved (CartItem.product_id c)). rewrite Hp0 in Hmoved.
    inversion Hmoved as [a p' [Hsame _] Ea Eb|]; subst a.
    exists p'. rewrite Hpid. split; [congruence|].
    rewrite <- Hav, <- Hsame. reflexivity. }
  unfold orders.reorder. rewrite Hfind, Hitems.
  destruct (readd_items_runs user items (products d')
              (List.filter (fun c => negb (CartItem.user_id c =? user)) (cart_items d')))
    as [table Hrun].
  { eapply List.Forall_impl; [|exact Hexists]. intros i (p & Hp' & _). now exists p. }
  rewrite Hrun. eexists _, _. split; [reflexivity|].
  apply readd_items_lines in Hrun as (new & -> & Hall & Hlines).
  unfold orders.user_cart at 1. cbn [cart_items set_cart_items].
  rewrite List.filter_app, user_cart_deleted, filter_user_all by assumption.
  simpl. rewrite Hlines.
  replace (available_items (products d') items) with items.
  - apply (snapshot_lines _ _ _ _ Hsnap).
  - unfold available_items. clear - Hexists.
    induction Hexists as [|i items (p & Hp & Hav) _ IH]; [reflexivity|].
    simpl. now rewrite Hp, Hav, <- IH.
Qed.

Lemma reorder_after_checkout_witness :
  exists d'' fl',
    orders.reorder Scenario.customer "LC202405142301A1B2C3" Scenario.placed
      = (d'', fl', redirect "cart.view_cart") /\
    cart_lines (orders.user_cart Scenario.customer d'')
      = cart_lines (orders.user_cart Scenario.customer Scenario.shop).
Proof.
  apply (reorder_after_checkout Scenario.customer Scenario.now Scenario.uuid4 Scenario.form
           Scenario.shop Scenario.placed [(text "Order placed successfully!", "success")]
           "orders.order_confirmation").
  - repeat split; constructor.
  - unfold cart_on_sale. simpl.
    repeat (constructor; [eexists; split; reflexivity|]). constructor.
  - vm_compute. reflexivity.
Defined.

(** ** Uploads *)

Lemma contains_In x xs : Py.contains x xs = true <-> In x xs.
Proof.
  unfold Py.contains. rewrite existsb_exists. split.
  - intros (y & Hy & E). apply String.eqb_eq in E. now subst y.
  - intros H. exists x. split; [exact H | apply String.eqb_refl].
Qed.

Lemma after_last_dot_none s : Py.after_last_dot s = None <-> dotless s.
Proof.
  induction s as [|c r IH]; simpl; [tauto|].
  destruct (Py.after_last_dot r) as [ext|].
  - split; [discriminate|]. intros [_ H]. apply IH in H. discriminate.
  - destruct (Ascii.eqb_spec c "."%char) as [->|Hne].
    + split; [discriminate | now intros [H _]].
    + split; [intros _; split; [exact Hne | now apply IH] | reflexivity].
Qed.

Lemma after_last_dot_some s ext :
  Py.after_last_dot s = Some ext <-> exists stem, s = stem ++ "." ++ ext /\ dotless ext.
Proof.
  split.
  - revert ext. induction s as [|c r IH]; intros ext H; simpl in H; [discriminate|].
    destruct (Py.after_last_dot r) as [ext'|] eqn:Hr.
    + injection H as <-. destruct (IH ext' eq_refl) as (stem & -> & Hd).
      now exists (String c stem).
    + destruct (Ascii.eqb_spec c "."%char) as [->|Hne]; [|discriminate].
      injection H as <-. exists EmptyString. split; [reflexivity|].
      now apply after_last_dot_none.
  - intros (stem & -> & Hd). apply after_last_dot_none in Hd.
    induction stem as [|c stem IH].
    + change (Py.after_last_dot (String "." ext) = Some ext). simpl. now rewrite Hd.
    + change (Py.after_last_dot (String c (stem ++ "." ++ ext)) = Some ext).
      simpl. now rewrite IH.
Qed.

(** X21: [allowed_file] accepts a file name exactly when it has a dot and
    what follows its last dot is, in any mix of upper and lower case, one of
    png, jpg, jpeg, gif and webp. *)
Theorem allowed_file_last_extension filename :
  baker.allowed_file filename = true <->
  exists stem extension,
    filename = stem ++ "." ++ extension /\ dotless extension /\
    In (Py.lower extension) ["png"; "jpg"; "jpeg"; "gif"; "webp"].
Proof.
  unfold baker.allowed_file. split.
  - destruct (Py.after_last_dot filename) as [ext|] eqn:H; [|discriminate].
    intros Hin. apply contains_In in Hin.
    apply after_last_dot_some in H as (stem & -> & Hd). now exists stem, ext.
  - intros (stem & ext & E & Hd & Hin).
    assert (H : Py.after_last_dot filename = Some ext)
      by (apply after_last_dot_some; now exists stem).
    rewrite H. now apply contains_In.
Qed.

Example allowed_file_examples :
  map baker.allowed_file
    ["cake.png"; "cake.JPeG"; "cake.png.exe"; "png"; "cake."; ".gif"; "a.b.webp"]
  = [true; true; false; false; false; true; true].
Proof. reflexivity. Qed.

(** ** What an order number keeps of the random draw *)

Lemma nibble_of_leading_bits u j :
  0 <= j < 6 ->
  Z.land (Z.shiftr u (4 * (26 + j))) 15 = Z.land (Z.shiftr (leading_bits u) (4 * j)) 15.
Proof.
  intros Hj. apply Z.bits_inj'. intros n Hn.
  change 15 with (Z.ones 4). rewrite !Z.land_spec, !Z.shiftr_spec by lia.
  rewrite (Z.testbit_ones_nonneg 4 n) by lia.
  destruct (Z.ltb_spec n 4) as [Hlt|Hge]; [|now rewrite !andb_false_r].
  rewrite !andb_true_r. unfold leading_bits.
  rewrite Z.land_spec, Z.shiftr_spec by lia.
  rewrite (Z.testbit_ones_nonneg 24 (n + 4 * j)) by lia.
  destruct (Z.ltb_spec (n + 4 * j) 24); [|lia].
  rewrite andb_true_r. f_equal. lia.
Qed.

Lemma leading_bits_of_nibbles u v :
  (forall j, 0 <= j < 6 ->
     Z.land (Z.shiftr u (4 * (26 + j))) 15 = Z.land (Z.shiftr v (4 * (26 + j))) 15) ->
  leading_bits u = leading_bits v.
Proof.
  intros H. apply Z.bits_inj'. intros n Hn. unfold leading_bits.
  rewrite !Z.land_spec, !Z.shiftr_spec by lia.
  rewrite (Z.testbit_ones_nonneg 24 n) by lia.
  destruct (Z.ltb_spec n 24) as [Hlt|Hge]; [|now rewrite !andb_false_r].
  rewrite !andb_true_r.
  assert (Hj : 0 <= n / 4 < 6) by (split; [apply Z.div_pos | apply Z.div_lt_upper_bound]; lia).
  pose proof (f_equal (fun x => Z.testbit x (n mod 4)) (H (n / 4) Hj)) as E.
  cbv beta in E. change 15 with (Z.ones 4) in E.
  pose proof (Z.mod_pos_bound n 4 ltac:(lia)) as Hm.
  rewrite !Z.land_spec, !Z.shiftr_spec in E by lia.
  rewrite (Z.testbit_ones_nonneg 4 (n mod 4)) in E by lia.
  destruct (Z.ltb_spec (n mod 4) 4); [|lia]. rewrite !andb_true_r in E.
  replace (n mod 4 + 4 * (26 + n / 4)) with (n + 104) in E
    by (pose proof (Z.div_mod n 4 ltac:(lia)); lia).
  exact E.
Qed.

Lemma hexdigit_upper_inj a b :
  0 <= a <= 15 -> 0 <= b <= 15 ->
  Py.upper_ascii (Py.hexdigit a) = Py.upper_ascii (Py.hexdigit b) -> a = b.
Proof.
  intros Ha Hb.
  assert (Hcheck : forallb (fun x => forallb (fun y =>
            implb (Ascii.eqb (Py.upper_ascii (Py.hexdigit x)) (Py.upper_ascii (Py.hexdigit y)))
                  (x =? y)) (Format.range 0 16)) (Format.range 0 16) = true)
    by (vm_compute; reflexivity).
  pose proof (range_forallb _ 0 16 Hcheck a ltac:(simpl; lia)) as Hrow. cbv beta in Hrow.
  pose proof (range_forallb _ 0 16 Hrow b ltac:(simpl; lia)) as Hcell. cbv beta in Hcell.
  intros E. rewrite E, Ascii.eqb_refl in Hcell. now apply Z.eqb_eq.
Qed.

Lemma unique_id_nibbles u :
  Py.upper (Py.prefix 6 (Py.hex_nibbles 32 u))
  = fold_right (fun j rest =>
                  String (Py.upper_ascii
                            (Py.hexdigit (Z.land (Z.shiftr u (4 * (26 + j))) 15))) rest)
      EmptyString [5; 4; 3; 2; 1; 0].
Proof. reflexivity. Qed.

(** X22: at a given time the order number keeps of the random draw its
    twenty-four leading bits and nothing else: two draws give the same
    order number exactly when they agree on these, so that of all the bits
    of a draw only these keep two orders of the same minute apart. *)
Theorem generate_order_number_keeps_leading_bits now u v :
  Order.generate_order_number now u = Order.generate_order_number now v
  <-> leading_bits u = leading_bits v.
Proof.
  unfold Order.generate_order_number. rewrite !unique_id_nibbles. split.
  - intros H. apply (inj (String.append "LC")) in H.
    apply (inj (String.append (datetime.strftime_YmdHM now))) in H.
    cbn [fold_right] in H.
    injection H as H5 H4 H3 H2 H1 H0.
    apply leading_bits_of_nibbles. intros j Hj.
    assert (Hcase : j = 0 \/ j = 1 \/ j = 2 \/ j = 3 \/ j = 4 \/ j = 5) by lia.
    destruct Hcase as [-> | [-> | [-> | [-> | [-> | ->]]]]];
      apply hexdigit_upper_inj; try apply nibble_range; assumption.
  - intros H. do 2 f_equal. cbn [fold_right].
    rewrite !nibble_of_leading_bits by lia. now rewrite H.
Qed.

(** Two draws that differ, and the one order number they give. *)
Example generate_order_number_collision :
  Order.generate_order_number Scenario.now 0xa1b2c3d4e5f647a8b9c0d1e2f3a4b5c6
  = Order.generate_order_number Scenario.now 0xa1b2c300000040008000000000000000.
Proof. reflexivity. Qed.
